(** * Vendor-management back end: authorization, tenant isolation, audit and
      external-sync pipeline

    A shallow embedding of the Express middlewares and route handlers of
    [backend/src] together with the properties the specification states
    about them.  Tables are lists of rows in insertion order, JSON values
    are an inductive type, identifiers are strings (UUIDs), and effectful
    code threads its state explicitly; a thrown JavaScript exception is a
    value of [JsError] and the state reached before the throw is kept
    (no route runs inside a transaction). *)

From Stdlib Require Import String Ascii List ZArith QArith Bool Lia DecimalString.
Import ListNotations.
Open Scope string_scope.
Open Scope Z_scope.
Set Warnings "-register-all".

(** ** JavaScript strings *)

Module Js.

(** [s.startsWith(p)] *)
Definition startsWith (s p : string) : bool := String.prefix p s.

(** [s.includes(sub)]: [sub] occurs at some position of [s]. *)
Fixpoint includes (s sub : string) : bool :=
  String.prefix sub s ||
  match s with
  | EmptyString => false
  | String _ rest => includes rest sub
  end.

(** [s.substring(n)] *)
Definition substringFrom (n : nat) (s : string) : string :=
  String.substring n (String.length s - n) s.

Definition lower_ascii (c : ascii) : ascii :=
  let n := nat_of_ascii c in
  if (Nat.leb 65 n && Nat.leb n 90)%bool then ascii_of_nat (n + 32) else c.

(** [s.toLowerCase()] on the ASCII range, which is all the audit table uses. *)
Fixpoint toLowerCase (s : string) : string :=
  match s with
  | EmptyString => EmptyString
  | String c rest => String (lower_ascii c) (toLowerCase rest)
  end.

(** A string is truthy unless it is empty. *)
Definition truthy_string (s : string) : bool := negb (s =? "")%string.

(** The path of a request URL: what precedes its query string. *)
Fixpoint pathname (url : string) : string :=
  match url with
  | EmptyString => EmptyString
  | String c rest => if (c =? "?")%char then EmptyString else String c (pathname rest)
  end.

End Js.

(** ** JSON values *)

Module Json.

Inductive json : Type :=
| JNull
| JBool (b : bool)
| JNum (q : Q)
| JStr (s : string)
| JArr (items : list json)
| JObj (fields : list (string * json)).

(** Property read [o.k]; [None] is JavaScript's [undefined]. *)
Fixpoint assoc (k : string) (fields : list (string * json)) : option json :=
  match fields with
  | [] => None
  | (k', v) :: rest => if (k' =? k)%string then Some v else assoc k rest
  end.

Definition get (k : string) (j : json) : option json :=
  match j with
  | JObj fields => assoc k fields
  | _ => None
  end.

(** Property write [o.k = v]: an existing key keeps its place, a new key is
    appended. *)
Fixpoint set (k : string) (v : json) (fields : list (string * json))
  : list (string * json) :=
  match fields with
  | [] => [(k, v)]
  | (k', v') :: rest =>
      if (k' =? k)%string then (k', v) :: rest else (k', v') :: set k v rest
  end.

(** JavaScript truthiness of a JSON value. *)
Definition truthy (j : json) : bool :=
  match j with
  | JNull => false
  | JBool b => b
  | JNum q => negb (Qeq_bool q 0)
  | JStr s => Js.truthy_string s
  | JArr _ => true
  | JObj _ => true
  end.

(** Truthiness of a possibly [undefined] value. *)
Definition truthy_opt (o : option json) : bool :=
  match o with
  | Some j => truthy j
  | None => false
  end.

(** [a || b] on possibly undefined values. *)
Definition or_else (a b : option json) : option json :=
  if truthy_opt a then a else b.

(** [v || null] *)
Definition or_null (a : option json) : json :=
  match or_else a (Some JNull) with
  | Some j => j
  | None => JNull
  end.

Definition of_option_string (o : option string) : json :=
  match o with
  | Some s => JStr s
  | None => JNull
  end.

(** An object literal in which fields whose value is [undefined] are
    dropped, as [JSON.stringify] does. *)
Fixpoint obj_of (fields : list (string * option json)) : list (string * json) :=
  match fields with
  | [] => []
  | (k, Some v) :: rest => (k, v) :: obj_of rest
  | (_, None) :: rest => obj_of rest
  end.

Definition decimal (n : nat) : string :=
  NilEmpty.string_of_uint (Nat.to_uint n).

Fixpoint index_from (n : nat) (items : list json) : list (string * json) :=
  match items with
  | [] => []
  | x :: rest => (decimal n, x) :: index_from (S n) rest
  end.

Fixpoint chars_from (n : nat) (s : string) : list (string * json) :=
  match s with
  | EmptyString => []
  | String c rest => (decimal n, JStr (String c EmptyString)) :: chars_from (S n) rest
  end.

(** Own enumerable properties copied by an object spread [{ ...v }]. *)
Definition spread (j : json) : list (string * json) :=
  match j with
  | JObj fields => fields
  | JArr items => index_from 0 items
  | JStr s => chars_from 0 s
  | _ => []
  end.

End Json.

(** ** Express: requests, responses, errors *)

Module Express.
Import Json.

(** A thrown JavaScript value with the properties the handlers read.  The
    record holds the errors this code base throws and receives from the
    database, the JWT library and Node: the name and the message are
    strings, and the code, when there is one, is a string (an SQLSTATE, a
    system code, a library's code). *)
Record JsError : Type := mkError {
  err_name : string;
  err_message : string;
  err_code : option string;
  err_statusCode : option Z;
  err_status : option Z;
  err_detail : option json;
  err_errors : option json;
  err_stack : string
}.

(** [new Error(message)] *)
Definition newError (message : string) : JsError :=
  mkError "Error" message None None None None None "".

(** The [ReferenceError] raised when an identifier is not in scope. *)
Definition referenceError (ident : string) : JsError :=
  mkError "ReferenceError" (ident ++ " is not defined") None None None None None "".

(** [res.status(s).json(b)] *)
Record Response : Type := mkResponse {
  res_status : Z;
  res_body : json
}.

(** [res.json(b)]: status 200. *)
Definition json_ok (b : json) : Response := mkResponse 200 b.

(** [req.user] as [authenticate] attaches it. *)
Record ReqUser : Type := mkReqUser {
  ru_id : string;
  ru_email : string;
  ru_tenant_id : string;
  ru_tenant_name : string;
  ru_role : string;
  ru_first_name : string;
  ru_last_name : string;
  ru_data_region : string
}.

Record TenantRow : Type := mkTenant {
  t_id : string;
  t_name : string;
  t_status : string;
  t_data_region : string;
  t_hosting_type : string
}.

Record UserRow : Type := mkUser {
  u_id : string;
  u_tenant_id : string;
  u_email : string;
  u_role : string;
  u_status : string;
  u_first_name : string;
  u_last_name : string
}.

Record Request : Type := mkRequest {
  req_method : string;
  req_originalUrl : string;
  req_path : string;
  req_route_path : option string;
  req_authorization : option string;
  req_params_id : option string;
  req_query : json;
  req_body : option json;
  req_ip : option string;
  req_remoteAddress : option string;
  req_user_agent : option string;
  req_user : option ReqUser;
  req_tenant : option TenantRow;
  req_tenantId : option string
}.

Definition set_user (u : ReqUser) (r : Request) : Request :=
  mkRequest (req_method r) (req_originalUrl r) (req_path r) (req_route_path r)
    (req_authorization r) (req_params_id r) (req_query r) (req_body r)
    (req_ip r) (req_remoteAddress r) (req_user_agent r)
    (Some u) (req_tenant r) (req_tenantId r).

Definition set_tenant (t : TenantRow) (r : Request) : Request :=
  mkRequest (req_method r) (req_originalUrl r) (req_path r) (req_route_path r)
    (req_authorization r) (req_params_id r) (req_query r) (req_body r)
    (req_ip r) (req_remoteAddress r) (req_user_agent r)
    (req_user r) (Some t) (Some (t_id t)).

(** [req.body] as a sanitizer of a validation chain rewrites it. *)
Definition with_body (b : option json) (r : Request) : Request :=
  mkRequest (req_method r) (req_originalUrl r) (req_path r) (req_route_path r)
    (req_authorization r) (req_params_id r) (req_query r) b
    (req_ip r) (req_remoteAddress r) (req_user_agent r)
    (req_user r) (req_tenant r) (req_tenantId r).

(** A request carries [req.path], [req.params.id] and [req.route.path] as
    the handler of the matched route reads them: the path is relative to the
    router's mount point.  When a router hands an error on with [next(err)],
    Express restores [req.url] and [req.params]: from then on the path is
    the full path of the URL and there is no [id] parameter. *)
Definition passed_on (r : Request) : Request :=
  mkRequest (req_method r) (req_originalUrl r) (Js.pathname (req_originalUrl r))
    (req_route_path r) (req_authorization r) None (req_query r) (req_body r)
    (req_ip r) (req_remoteAddress r) (req_user_agent r)
    (req_user r) (req_tenant r) (req_tenantId r).

(** Before a route is matched there is neither [req.route] nor a
    parameter. *)
Definition unrouted (r : Request) : Request :=
  mkRequest (req_method r) (req_originalUrl r) (req_path r) None
    (req_authorization r) None (req_query r) (req_body r)
    (req_ip r) (req_remoteAddress r) (req_user_agent r)
    (req_user r) (req_tenant r) (req_tenantId r).

(** A request as it arrives: nothing has attached a user or a tenant yet. *)
Definition incoming (r : Request) : Request :=
  mkRequest (req_method r) (req_originalUrl r) (req_path r) (req_route_path r)
    (req_authorization r) (req_params_id r) (req_query r) (req_body r)
    (req_ip r) (req_remoteAddress r) (req_user_agent r)
    None None None.

(** What a middleware or handler does with a request: answer it, pass an
    error to [next], or call [next()] with the (possibly extended) request. *)
Inductive Outcome : Type :=
| Responded (r : Response)
| NextError (e : JsError)
| Next (req : Request).

(** A line written by [console.error(label, err)]. *)
Record ConsoleLine : Type := mkLine {
  line_label : string;
  line_error : JsError
}.

Definition error_body (error code : string) : json :=
  JObj [("error", JStr error); ("code", JStr code)].

End Express.

(** ** middleware/errorHandler.js *)

Module ErrorHandler.
Import Json Express.

(** The part of [process.env] the pipeline reads. *)
Record Env : Type := mkEnv {
  NODE_ENV : option string;
  DEFAULT_TENANT_ID : option string;
  API_VERSION : option string
}.

Definition is_development (env : Env) : bool :=
  match NODE_ENV env with
  | Some v => (v =? "development")%string
  | None => false
  end.

Definition code_is (e : JsError) (c : string) : bool :=
  match err_code e with
  | Some c' => (c' =? c)%string
  | None => false
  end.

Definition truthy_status (o : option Z) : option Z :=
  match o with
  | Some z => if z =? 0 then None else Some z
  | None => None
  end.

(** [err.statusCode || err.status || 500] *)
Definition status_of (e : JsError) : Z :=
  match truthy_status (err_statusCode e) with
  | Some z => z
  | None =>
      match truthy_status (err_status e) with
      | Some z => z
      | None => 500
      end
  end.

Definition message_of (e : JsError) : string :=
  if Js.truthy_string (err_message e) then err_message e else "Internal server error".

Definition code_of (e : JsError) : string :=
  match err_code e with
  | Some c => if Js.truthy_string c then c else "INTERNAL_ERROR"
  | None => "INTERNAL_ERROR"
  end.

(** The response [errorHandler] sends for [err]; it also writes
    [console.error('Error:', err)]. *)
Definition errorResponse (env : Env) (e : JsError) : Response :=
  if code_is e "23505" then
    mkResponse 409 (JObj (obj_of [("error", Some (JStr "Resource already exists"));
                                  ("code", Some (JStr "DUPLICATE_RESOURCE"));
                                  ("details", err_detail e)]))
  else if code_is e "23503" then
    mkResponse 400 (JObj (obj_of [("error", Some (JStr "Invalid reference"));
                                  ("code", Some (JStr "FOREIGN_KEY_VIOLATION"));
                                  ("details", err_detail e)]))
  else if (err_name e =? "ValidationError")%string then
    mkResponse 400 (JObj (obj_of [("error", Some (JStr "Validation failed"));
                                  ("code", Some (JStr "VALIDATION_ERROR"));
                                  ("details", or_else (err_errors e) (Some (JStr (err_message e))))]))
  else if (err_name e =? "JsonWebTokenError")%string then
    mkResponse 401 (error_body "Invalid token" "INVALID_TOKEN")
  else if (err_name e =? "TokenExpiredError")%string then
    mkResponse 401 (error_body "Token expired" "TOKEN_EXPIRED")
  else if code_is e "PERMISSION_DENIED" || Js.includes (err_message e) "permission" then
    mkResponse 403 (JObj [("error", JStr "Permission denied");
                          ("code", JStr "PERMISSION_DENIED");
                          ("details", JStr (err_message e))])
  else if code_is e "ECONNREFUSED" || code_is e "ETIMEDOUT" then
    mkResponse 503 (JObj [("error", JStr "External service unavailable");
                          ("code", JStr "SERVICE_UNAVAILABLE");
                          ("message", JStr "The requested service is temporarily unavailable. Please try again later.");
                          ("retryable", JBool true)])
  else
    mkResponse (status_of e)
      (JObj ([("error", JStr (message_of e)); ("code", JStr (code_of e))]
             ++ (if is_development env then [("stack", JStr (err_stack e))] else []))).

Definition errorHandler (env : Env) (e : JsError) : Response * list ConsoleLine :=
  (errorResponse env e, [mkLine "Error:" e]).

End ErrorHandler.

(** ** middleware/auth.js *)

Module Auth.
Import Json Express.

(** What [jwt.verify(token, process.env.JWT_SECRET)] does: return the decoded
    claims (of which only [userId] is read) or throw. *)
Inductive JwtResult : Type :=
| JwtDecoded (userId : string)
| JwtThrows (e : JsError).

Inductive Event : Type :=
| EvJwtVerify (token : string)
| EvQuery (table : string)
| EvHandler
| EvAuditInsert.

(** What one middleware did: its outcome, what it wrote to the console and
    the verifications and queries it issued, in order. *)
Record Step : Type := mkStep {
  step_out : Outcome;
  step_console : list ConsoleLine;
  step_events : list Event
}.

(** [SELECT u.*, t.id as tenant_id, t.name as tenant_name, t.data_region, ...
     FROM users u JOIN tenants t ON u.tenant_id = t.id
     WHERE u.id = $1 AND u.status = 'active' AND t.status = 'active'] *)
Definition active_user_rows (tenants : list TenantRow) (users : list UserRow)
  (userId : string) : list (UserRow * TenantRow) :=
  filter (fun ut => ((u_id (fst ut) =? userId) && (u_status (fst ut) =? "active")
                     && (t_status (snd ut) =? "active"))%string)
    (flat_map (fun u => map (fun t => (u, t))
                          (filter (fun t => (u_tenant_id u =? t_id t)%string) tenants))
       users).

Definition req_user_of (ut : UserRow * TenantRow) : ReqUser :=
  let (u, t) := ut in
  mkReqUser (u_id u) (u_email u) (t_id t) (t_name t) (u_role u)
    (u_first_name u) (u_last_name u) (t_data_region t).

Section Authenticate.
Variable jwt_verify : string -> JwtResult.
Variable tenants : list TenantRow.
Variable users : list UserRow.

Definition authenticate (req : Request) : Step :=
  match req_authorization req with
  | None =>
      mkStep (Responded (mkResponse 401 (error_body "Authentication required" "AUTH_REQUIRED"))) [] []
  | Some authHeader =>
      if negb (Js.truthy_string authHeader) || negb (Js.startsWith authHeader "Bearer ") then
        mkStep (Responded (mkResponse 401 (error_body "Authentication required" "AUTH_REQUIRED"))) [] []
      else
        let token := Js.substringFrom 7 authHeader in
        match jwt_verify token with
        | JwtDecoded userId =>
            match active_user_rows tenants users userId with
            | [] =>
                mkStep (Responded (mkResponse 401 (error_body "User not found or inactive" "USER_NOT_FOUND")))
                  [] [EvJwtVerify token; EvQuery "users"]
            | ut :: _ =>
                mkStep (Next (set_user (req_user_of ut) req)) [] [EvJwtVerify token; EvQuery "users"]
            end
        | JwtThrows e =>
            if ((err_name e =? "JsonWebTokenError") || (err_name e =? "TokenExpiredError"))%string then
              mkStep (Responded (mkResponse 401
                        (error_body "Invalid or expired token"
                           (if (err_name e =? "TokenExpiredError")%string
                            then "TOKEN_EXPIRED" else "INVALID_TOKEN"))))
                [] [EvJwtVerify token]
            else
              mkStep (Responded (mkResponse 500 (error_body "Authentication failed" "AUTH_ERROR")))
                [mkLine "Auth middleware error:" e] [EvJwtVerify token]
        end
  end.

End Authenticate.

(** [authorize(...allowedRoles)] *)
Definition authorize (allowedRoles : list string) (req : Request) : Outcome :=
  match req_user req with
  | None => Responded (mkResponse 401 (error_body "Authentication required" "AUTH_REQUIRED"))
  | Some u =>
      if negb (existsb (fun r => (r =? ru_role u)%string) allowedRoles) then
        Responded (mkResponse 403
          (JObj [("error", JStr "Insufficient permissions");
                 ("code", JStr "PERMISSION_DENIED");
                 ("required", JArr (map JStr allowedRoles));
                 ("current", JStr (ru_role u))]))
      else Next req
  end.

End Auth.

(** ** middleware/tenantMiddleware.js *)

Module Tenant.
Import Json Express ErrorHandler Auth.

(** [req.user?.tenant_id || req.user?.tenantId]; [req.user] has no
    [tenantId] property, so the second operand is always [undefined]. *)
Definition user_tenant (req : Request) : option string :=
  match req_user req with
  | Some u => if Js.truthy_string (ru_tenant_id u) then Some (ru_tenant_id u) else None
  | None => None
  end.

Definition truthy_id (o : option string) : option string :=
  match o with
  | Some s => if Js.truthy_string s then Some s else None
  | None => None
  end.

Definition tenantMiddleware (env : Env) (tenants : list TenantRow) (req : Request) : Step :=
  if Js.startsWith (req_originalUrl req) "/api/v1/auth" then mkStep (Next req) [] []
  else
    let tenantId :=
      match user_tenant req with
      | Some t => Some t
      | None => if is_development env then truthy_id (DEFAULT_TENANT_ID env) else None
      end in
    match tenantId with
    | None =>
        mkStep (Responded (mkResponse 401 (error_body "Tenant identification required" "TENANT_REQUIRED"))) [] []
    | Some tid =>
        match filter (fun t => (t_id t =? tid)%string) tenants with
        | [] =>
            mkStep (Responded (mkResponse 404 (error_body "Tenant not found" "TENANT_NOT_FOUND")))
              [] [EvQuery "tenants"]
        | tenant :: _ =>
            if negb (t_status tenant =? "active")%string then
              mkStep (Responded (mkResponse 403 (error_body "Tenant is not active" "TENANT_INACTIVE")))
                [] [EvQuery "tenants"]
            else mkStep (Next (set_tenant tenant req)) [] [EvQuery "tenants"]
        end
    end.

End Tenant.

(** ** middleware/auditLogger.js *)

Module Audit.
Import Json Express ErrorHandler Auth.

Definition AUDITABLE_ACTIONS : list string :=
  ["CREATE"; "UPDATE"; "DELETE"; "LOCK"; "UNLOCK";
   "APPROVE"; "REJECT"; "OVERRIDE"; "DOWNLOAD";
   "EXPORT"; "ACCESS_GRANT"; "ACCESS_REVOKE";
   "CONFIG_CHANGE"; "INTEGRATION_CREATE"; "INTEGRATION_UPDATE"].

Definition extractModule (path : string) : string :=
  if Js.includes path "/rfp" then "rfp"
  else if Js.includes path "/contract" then "contract"
  else if Js.includes path "/procurement" then "procurement"
  else if Js.includes path "/performance" then "performance"
  else if Js.includes path "/risk" then "risk"
  else if Js.includes path "/analytics" then "analytics"
  else if Js.includes path "/helpdesk" then "helpdesk"
  else if Js.includes path "/survey" then "survey"
  else if Js.includes path "/integration" then "integration"
  else if Js.includes path "/admin" then "admin"
  else "general".

Definition REDACTED : json := JStr "[REDACTED]".

(** [if (sanitized.k) sanitized.k = '[REDACTED]'] *)
Definition redact (k : string) (fields : list (string * json)) : list (string * json) :=
  if truthy_opt (assoc k fields) then set k REDACTED fields else fields.

Definition sanitizeBody (body : option json) : json :=
  match body with
  | None => JNull
  | Some b =>
      if negb (truthy b) then JNull
      else JObj (redact "token" (redact "password_hash" (redact "password" (spread b))))
  end.

(** [x.length] for the values a response's [data] can hold. *)
Definition length_of (j : json) : option json :=
  match j with
  | JArr items => Some (JNum (inject_Z (Z.of_nat (List.length items))))
  | JStr s => Some (JNum (inject_Z (Z.of_nat (String.length s))))
  | JObj fields => assoc "length" fields
  | _ => None
  end.

Definition opt_bind {A B : Type} (o : option A) (f : A -> option B) : option B :=
  match o with
  | Some a => f a
  | None => None
  end.

Definition sanitizeResponse (response : option json) : json :=
  match response with
  | None => JNull
  | Some r =>
      if negb (truthy r) then JNull
      else match r with
           | JObj _ | JArr _ =>
               JObj [("success", match get "success" r with Some v => v | None => JNull end);
                     ("error", or_null (get "error" r));
                     ("count", or_null (or_else (get "count" r)
                                          (opt_bind (get "data" r) length_of)))]
           | _ => JNull
           end
  end.

Record AuditRow : Type := mkAudit {
  a_tenant_id : string;
  a_user_id : option string;
  a_action : string;
  a_resource_type : string;
  a_resource_id : json;
  a_module : string;
  a_details : json;
  a_ip_address : option string;
  a_user_agent : option string;
  a_timestamp : Z
}.

(** [AUDITABLE_ACTIONS.some(...) || statusCode >= 400 || req.user] *)
Definition shouldAudit (req : Request) (statusCode : Z) : bool :=
  existsb (fun a => Js.includes (req_method req) a
                    || Js.includes (req_path req) (Js.toLowerCase a))
          AUDITABLE_ACTIONS
  || (400 <=? statusCode)
  || match req_user req with Some _ => true | None => false end.

Definition first_string (a b : option string) : option string :=
  match Tenant.truthy_id a with
  | Some s => Some s
  | None => b
  end.

(** What the ['finish'] listener does once a response has been sent. *)
Record Finish : Type := mkFinish {
  fin_attempts : list AuditRow;   (* rows handed to INSERT INTO audit_logs *)
  fin_inserted : list AuditRow;   (* rows the INSERT stored *)
  fin_console : list ConsoleLine
}.

Section Listener.
(** The outcome of [INSERT INTO audit_logs]: [None] when the row is stored,
    the rejection otherwise. *)
Variable audit_insert : AuditRow -> option JsError.
(** [new Date()] when the listener runs. *)
Variable now : Z.
(** [JSON.stringify]: [res.json(body)] serialises [body] and hands the text
    to [res.send], whose wrapper overwrites [res.locals.responseBody]. *)
Variable stringify : json -> string.

Definition responseBody (res : Response) : option json :=
  Some (JStr (stringify (res_body res))).

Definition auditData (req : Request) (res : Response) (tenant_id : string) : AuditRow :=
  let ip := first_string (req_ip req) (req_remoteAddress req) in
  mkAudit tenant_id
    (opt_bind (req_user req) (fun u => Tenant.truthy_id (Some (ru_id u))))
    (req_method req ++ " " ++ req_path req)
    (match Tenant.truthy_id (req_route_path req) with
     | Some p => p
     | None => req_path req
     end)
    (or_null (or_else (option_map JStr (Tenant.truthy_id (req_params_id req)))
                      (opt_bind (req_body req) (get "id"))))
    (extractModule (req_path req))
    (JObj (obj_of [("method", Some (JStr (req_method req)));
                   ("path", Some (JStr (req_path req)));
                   ("query", Some (req_query req));
                   ("body", Some (sanitizeBody (req_body req)));
                   ("status_code", Some (JNum (inject_Z (res_status res))));
                   ("response", Some (sanitizeResponse (responseBody res)));
                   ("ip_address", option_map JStr ip);
                   ("user_agent", option_map JStr (req_user_agent req))]))
    ip (req_user_agent req) now.

Definition onFinish (req : Request) (res : Response) : Finish :=
  match Tenant.truthy_id (req_tenantId req) with
  | Some tid =>
      if shouldAudit req (res_status res) then
        let row := auditData req res tid in
        match audit_insert row with
        | None => mkFinish [row] [row] []
        | Some err => mkFinish [row] [] [mkLine "Audit log insertion failed:" err]
        end
      else mkFinish [] [] []
  | None => mkFinish [] [] []
  end.

End Listener.

End Audit.

(** ** server.js: the middleware chain in front of every module route *)

Module App.
Import Json Express ErrorHandler Auth Audit.

(** [API_PREFIX = `/api/${process.env.API_VERSION || 'v1'}`] *)
Definition API_PREFIX (env : Env) : string :=
  "/api/" ++ match Tenant.truthy_id (API_VERSION env) with
             | Some v => v
             | None => "v1"
             end.

(** The routers mounted after [authenticate] and [tenantMiddleware]. *)
Inductive Mount : Type :=
| MRfp | MContracts | MProcurement | MPerformance | MRisk
| MAnalytics | MHelpdesk | MSurveys | MIntegrations | MAdmin.

Definition mount_path (m : Mount) : string :=
  match m with
  | MRfp => "/rfp"
  | MContracts => "/contracts"
  | MProcurement => "/procurement"
  | MPerformance => "/performance"
  | MRisk => "/risk"
  | MAnalytics => "/analytics"
  | MHelpdesk => "/helpdesk"
  | MSurveys => "/surveys"
  | MIntegrations => "/integrations"
  | MAdmin => "/admin"
  end.

(** What a route handler does: answer, or pass an error to [next]. *)
Inductive Handled : Type :=
| Sent (r : Response)
| Threw (e : JsError).

(** A validation chain without sanitizers leaves [req.body] as it was
    sent. *)
Definition as_sent (body : option json) : option json := body.

(** A route of one of the module routers: where the router is mounted, the
    roles of its [authorize(...)] guard when it has one, its handler over
    the module's tables [S], and what the sanitizers of its validation
    chain, which runs first, make of [req.body]. *)
Record Route (S : Type) : Type := mkRoute {
  route_mount : Mount;
  route_roles : option (list string);
  route_handler : Request -> S -> S * Handled;
  route_sanitize : option json -> option json
}.
Arguments route_mount {S} _.
Arguments route_roles {S} _.
Arguments route_handler {S} _.
Arguments route_sanitize {S} _.
Arguments mkRoute {S} _ _ _ _.

(** The request once the route's validation chain has run. *)
Definition sanitized {S : Type} (route : Route S) (req : Request) : Request :=
  with_body (route_sanitize route (req_body req)) req.

(** The result of serving one request. *)
Record Run (S : Type) : Type := mkRun {
  run_response : Response;
  run_req : Request;                 (* the request object when the response finished *)
  run_state : S;                     (* the module's tables afterwards *)
  run_events : list Event;
  run_console : list ConsoleLine;
  run_audit : Finish
}.
Arguments run_response {S} _.
Arguments run_req {S} _.
Arguments run_state {S} _.
Arguments run_events {S} _.
Arguments run_console {S} _.
Arguments run_audit {S} _.
Arguments mkRun {S} _ _ _ _ _ _.

Section Serve.
Variable env : Env.
Variable jwt_verify : string -> JwtResult.
Variable audit_insert : AuditRow -> option JsError.
Variable now : Z.
Variable stringify : json -> string.
Variable tenants : list TenantRow.
Variable users : list UserRow.
Context {S : Type}.
Variable route : Route S.

(** The response, with what led to it, before the ['finish'] listener runs. *)
Record Served : Type := mkServed {
  sv_response : Response;
  sv_req : Request;
  sv_state : S;
  sv_events : list Event;
  sv_console : list ConsoleLine
}.

(** The module router: its own [router.use(authenticate)], then the matched
    route: its validation chain, its [authorize] guard and its handler; and
    [errorHandler] for what is passed on with [next(err)].  The request
    recorded is the one the ['finish'] listener reads: [authenticate] runs
    before the route is matched and reads nothing the match sets. *)
Definition router (req : Request) (s : S) : Served :=
  let a := authenticate jwt_verify tenants users req in
  match step_out a with
  | Responded r => mkServed r (unrouted req) s (step_events a) (step_console a)
  | NextError e =>
      let (r, lines) := errorHandler env e in
      mkServed r (passed_on (unrouted req)) s (step_events a) (step_console a ++ lines)
  | Next req0 =>
      let req1 := sanitized route req0 in
      let guard := match route_roles route with
                   | Some roles => authorize roles req1
                   | None => Next req1
                   end in
      match guard with
      | Responded r => mkServed r req1 s (step_events a) (step_console a)
      | NextError e =>
          let (r, lines) := errorHandler env e in
          mkServed r (passed_on req1) s (step_events a) (step_console a ++ lines)
      | Next req2 =>
          match route_handler route req2 s with
          | (s', Sent r) =>
              mkServed r req2 s' (step_events a ++ [EvHandler]) (step_console a)
          | (s', Threw e) =>
              let (r, lines) := errorHandler env e in
              mkServed r (passed_on req2) s' (step_events a ++ [EvHandler])
                (step_console a ++ lines)
          end
      end
  end.

(** [app.use(authenticate); app.use(tenantMiddleware); app.use(prefix, router)],
    then the final 404 handler.  Outside the router the path is the full
    path and no route has been matched. *)
Definition dispatch (req : Request) (s : S) : Served :=
  let a := authenticate jwt_verify tenants users req in
  match step_out a with
  | Responded r => mkServed r (unrouted (passed_on req)) s (step_events a) (step_console a)
  | NextError e =>
      let (r, lines) := errorHandler env e in
      mkServed r (unrouted (passed_on req)) s (step_events a) (step_console a ++ lines)
  | Next req1 =>
      let t := Tenant.tenantMiddleware env tenants req1 in
      match step_out t with
      | Responded r =>
          mkServed r (unrouted (passed_on req1)) s (step_events a ++ step_events t)
            (step_console a ++ step_console t)
      | NextError e =>
          let (r, lines) := errorHandler env e in
          mkServed r (unrouted (passed_on req1)) s (step_events a ++ step_events t)
            (step_console a ++ step_console t ++ lines)
      | Next req2 =>
          if Js.startsWith (req_originalUrl req2) (API_PREFIX env ++ mount_path (route_mount route)) then
            let sv := router req2 s in
            mkServed (sv_response sv) (sv_req sv) (sv_state sv)
              (step_events a ++ step_events t ++ sv_events sv)
              (step_console a ++ step_console t ++ sv_console sv)
          else
            mkServed (mkResponse 404 (JObj [("error", JStr "Route not found")]))
              (unrouted (passed_on req2)) s
              (step_events a ++ step_events t) (step_console a ++ step_console t)
      end
  end.

(** One request through the application: [auditLogger] registers its
    listener and calls [next()], the chain above produces the response, and
    the listener runs when the response has been sent. *)
Definition serve (req : Request) (s : S) : Run S :=
  let sv := dispatch (incoming req) s in
  let fin := onFinish audit_insert now stringify (sv_req sv) (sv_response sv) in
  mkRun (sv_response sv) (sv_req sv) (sv_state sv)
    (sv_events sv ++ map (fun _ => EvAuditInsert) (fin_attempts fin))
    (sv_console sv ++ fin_console fin)
    fin.

End Serve.

End App.

(** ** Tables

    A row is the object node-postgres returns for it: column names with
    JSON values, [JNull] for SQL NULL.  A table is the list of its rows.
    [INSERT] appends and the relational constraints of [schema.sql] are not
    modelled, except where a definition names the rejection of a statement
    explicitly. *)

Module Db.
Import Json.

Definition Row : Type := list (string * json).
Definition Table : Type := list Row.

(** The value of a column, NULL when the row has no such column. *)
Definition col (k : string) (r : Row) : json :=
  match assoc k r with
  | Some v => v
  | None => JNull
  end.

(** [column = $n] for a text, uuid or varchar column and a string parameter. *)
Definition col_is (k : string) (v : string) (r : Row) : bool :=
  match assoc k r with
  | Some (JStr s) => (s =? v)%string
  | _ => false
  end.

(** [column = $n] when the parameter may be [undefined] (sent as NULL, which
    equals nothing). *)
Definition col_is_param (k : string) (v : option string) (r : Row) : bool :=
  match v with
  | Some s => col_is k s r
  | None => false
  end.

(** [a.k1 = b.k2] in a join condition; NULL joins nothing. *)
Definition cols_equal (k1 : string) (a : Row) (k2 : string) (b : Row) : bool :=
  match assoc k1 a, assoc k2 b with
  | Some (JStr x), Some (JStr y) => (x =? y)%string
  | _, _ => false
  end.

(** [UPDATE t SET ... WHERE p] *)
Definition update (p : Row -> bool) (f : Row -> Row) (t : Table) : Table :=
  map (fun r => if p r then f r else r) t.

(** [SET k = v] *)
Definition assign (k : string) (v : json) (r : Row) : Row := set k v r.

(** A statement parameter; [undefined] is sent as NULL. *)
Definition param (o : option json) : json :=
  match o with
  | Some v => v
  | None => JNull
  end.

End Db.

(** ** routes/contract.js: GET /api/v1/contracts/:id *)

Module Contract.
Import Json Express App Db.

Record Tables : Type := mkTables {
  contracts : Table;
  vendors : Table;
  contract_clauses : Table;
  contract_versions : Table;
  users : Table
}.

(** [SELECT c.*, v.name as vendor_name, v.vendor_code
     FROM contracts c JOIN vendors v ON c.vendor_id = v.id
     WHERE c.id = $1 AND c.tenant_id = $2] *)
Definition select_contract (db : Tables) (id tenantId : option string) : Table :=
  flat_map (fun c =>
    if col_is_param "id" id c && col_is_param "tenant_id" tenantId c then
      map (fun v => assign "vendor_code" (col "vendor_code" v)
                      (assign "vendor_name" (col "name" v) c))
          (filter (fun v => cols_equal "vendor_id" c "id" v) (vendors db))
    else [])
    (contracts db).

(** [u.first_name || ' ' || u.last_name], NULL when an operand is. *)
Definition full_name (u : Row) : json :=
  match col "first_name" u, col "last_name" u with
  | JStr f, JStr l => JStr (f ++ " " ++ l)
  | _, _ => JNull
  end.

Section GetContract.
(** [ORDER BY clause_number] and [ORDER BY cv.version_number DESC], under the
    database's collation. *)
Variable order_clauses : Table -> Table.
Variable order_versions : Table -> Table.

Definition select_clauses (db : Tables) (id : option string) : Table :=
  order_clauses (filter (col_is_param "contract_id" id) (contract_clauses db)).

(** [contract_versions cv LEFT JOIN users u ON cv.changed_by = u.id
     WHERE cv.contract_id = $1] *)
Definition select_versions (db : Tables) (id : option string) : Table :=
  order_versions
    (flat_map (fun cv =>
       match filter (fun u => cols_equal "changed_by" cv "id" u) (users db) with
       | [] => [assign "changed_by_name" JNull cv]
       | us => map (fun u => assign "changed_by_name" (full_name u) cv) us
       end)
       (filter (col_is_param "contract_id" id) (contract_versions db))).

Definition getContract (req : Request) (db : Tables) : Tables * Handled :=
  let id := req_params_id req in
  match select_contract db id (req_tenantId req) with
  | [] => (db, Sent (mkResponse 404 (JObj [("error", JStr "Contract not found")])))
  | contract :: _ =>
      (db, Sent (json_ok (JObj [("contract",
         JObj (set "versions" (JArr (map JObj (select_versions db id)))
                (set "clauses" (JArr (map JObj (select_clauses db id))) contract)))])))
  end.

Definition getContractRoute : Route Tables :=
  mkRoute MContracts None getContract as_sent.

End GetContract.

End Contract.

(** ** routes/rfp.js: POST /api/v1/rfp/:id/override-score *)

Module Rfp.
Import Json Express App Db.

Record Tables : Type := mkTables {
  rfps : Table;
  rfp_responses : Table;
  ai_evaluation_scores : Table;
  evaluation_overrides : Table
}.

(** The tenant that owns an evaluation score: the tenant of the RFP whose
    response the score evaluates. *)
Definition score_tenant (db : Tables) (score : Row) : option json :=
  match filter (fun rr => cols_equal "response_id" score "id" rr) (rfp_responses db) with
  | rr :: _ =>
      match filter (fun r => cols_equal "rfp_id" rr "id" r) (rfps db) with
      | r :: _ => Some (col "tenant_id" r)
      | [] => None
      end
  | [] => None
  end.

Definition body_field (k : string) (req : Request) : option json :=
  match req_body req with
  | Some b => get k b
  | None => None
  end.

Definition as_string (o : option json) : option string :=
  match o with
  | Some (JStr s) => Some s
  | _ => None
  end.

Section OverrideScore.
(** [validationResult(req).array()] for the route's validators. *)
Variable validationErrors : Request -> list json.
(** The id the database generates for the inserted override. *)
Variable new_id : string.
(** [CURRENT_TIMESTAMP], the default of [created_at]. *)
Variable now : Z.

Definition overrideScore (req : Request) (db : Tables) : Tables * Handled :=
  match validationErrors req with
  | _ :: _ as errors =>
      (db, Sent (mkResponse 400 (JObj [("errors", JArr errors)])))
  | [] =>
      let evaluation_id := as_string (body_field "evaluation_id" req) in
      match filter (col_is_param "id" evaluation_id) (ai_evaluation_scores db) with
      | [] => (db, Sent (mkResponse 404 (JObj [("error", JStr "Evaluation not found")])))
      | originalEval :: _ =>
          match req_user req with
          | None =>
              (db, Threw (mkError "TypeError" "Cannot read properties of undefined (reading 'id')"
                            None None None None None ""))
          | Some u =>
              let override : Row :=
                [("id", JStr new_id);
                 ("evaluation_id", param (body_field "evaluation_id" req));
                 ("overridden_by", JStr (ru_id u));
                 ("original_score", col "score" originalEval);
                 ("new_score", param (body_field "new_score" req));
                 ("rationale", param (body_field "rationale" req));
                 ("override_reason", param (body_field "override_reason" req));
                 ("created_at", JNum (inject_Z now))] in
              let db1 := mkTables (rfps db) (rfp_responses db) (ai_evaluation_scores db)
                           (evaluation_overrides db ++ [override])%list in
              let db2 := mkTables (rfps db1) (rfp_responses db1)
                           (update (col_is_param "id" evaluation_id)
                                   (assign "score" (param (body_field "new_score" req)))
                                   (ai_evaluation_scores db1))
                           (evaluation_overrides db1) in
              (db2, Sent (json_ok (JObj [("override", JObj override);
                                         ("message", JStr "Score overridden successfully. Override logged for audit.")])))
          end
      end
  end.

Definition overrideScoreRoute : Route Tables :=
  mkRoute MRfp (Some ["buyer_admin"; "evaluation_committee"]) overrideScore as_sent.

End OverrideScore.

End Rfp.

(** ** routes/procurement.js: purchase orders and their ERP hand-off *)

Module Procurement.
Import Json Express App Db.

(** Statements and remote exchanges, in the order they are issued. *)
Inductive Event : Type :=
| DbCountPO
| DbInsertPO (id : string)
| DbInsertPORejected
| DbSelectPO
| DbUpdatePO (id : string)
| DbInsertSyncLog
| ErpRemote (poId : string) (erpSystem : json).

Record World : Type := mkWorld {
  purchase_orders : Table;
  integration_sync_logs : Table;
  console : list ConsoleLine;
  trace : list Event
}.

Definition log_event (e : Event) (w : World) : World :=
  mkWorld (purchase_orders w) (integration_sync_logs w) (console w) (trace w ++ [e]).

Definition with_orders (t : Table) (w : World) : World :=
  mkWorld t (integration_sync_logs w) (console w) (trace w).

Definition with_sync_logs (t : Table) (w : World) : World :=
  mkWorld (purchase_orders w) t (console w) (trace w).

Definition console_error (label : string) (e : JsError) (w : World) : World :=
  mkWorld (purchase_orders w) (integration_sync_logs w) (console w ++ [mkLine label e]) (trace w).

Definition erp_calls (w : World) : list Event :=
  filter (fun e => match e with ErpRemote _ _ => true | _ => false end) (trace w).

Definition typeError (what : string) : JsError :=
  mkError "TypeError" what None None None None None "".

Section Routes.
(** The exchange with the ERP system for a purchase order: [None] when it
    completes, the error it throws otherwise.  The repository holds a
    placeholder there (a timer standing for the SAP, Oracle or NetSuite
    call); the oracle stands for the call the placeholder marks. *)
Variable erp_remote : string -> json -> option JsError.
(** The outcome of the INSERT into [integration_sync_logs], whose
    [integration_id] parameter is always [null] (the column is declared
    NOT NULL in schema.sql). *)
Variable sync_log_insert : option JsError.
(** Ids the database generates for the rows inserted by one request. *)
Variable new_po_id : string.
Variable new_log_id : string.
(** [CURRENT_TIMESTAMP] *)
Variable now : Z.
(** [`PO-${year}-${String(count + 1).padStart(5, '0')}`] for a row count. *)
Variable poNumber : nat -> string.
Variable validationErrors : Request -> list json.
(** The error PostgreSQL raises for a NULL offered to a NOT NULL column
    (class 23502), by the name of the column. *)
Variable not_null : string -> JsError.
(** The verdict of the database on the other constraints of
    [purchase_orders] (the foreign keys to vendors, contracts and users, the
    unique order number per tenant, the other NOT NULL columns and the
    column widths) for a row offered to the table: [None] when it is
    stored, the error of the rejection otherwise. *)
Variable po_insert : Table -> Row -> option JsError.

(** [syncPOToERP(poId, erpSystem)]: [None] when it returns, the thrown error
    otherwise; the state reached before a throw is kept. *)
Definition syncPOToERP (poId : string) (erpSystem : json) (w : World) : World * option JsError :=
  let w1 := log_event (ErpRemote poId erpSystem) w in
  match erp_remote poId erpSystem with
  | Some e => (w1, Some e)
  | None =>
      let erpPoId := "ERP-" ++ String.substring 0 8 poId in
      let w2 := log_event (DbUpdatePO poId)
                  (with_orders
                     (update (col_is "id" poId)
                        (fun r => assign "erp_po_id" (JStr erpPoId)
                                    (assign "erp_sync_status" (JStr "synced") r))
                        (purchase_orders w1)) w1) in
      let w3 := log_event DbInsertSyncLog w2 in
      match sync_log_insert with
      | Some e => (w3, Some e)
      | None =>
          (with_sync_logs
             (integration_sync_logs w3 ++
                [[("id", JStr new_log_id); ("integration_id", JNull);
                  ("sync_type", JStr "po"); ("direction", JStr "push");
                  ("status", JStr "success"); ("records_processed", JNum 1);
                  ("completed_at", JNum (inject_Z now))]])%list w3, None)
      end
  end.

Definition body_field (k : string) (req : Request) : option json :=
  match req_body req with
  | Some b => get k b
  | None => None
  end.

(** [body('currency').optional().default('USD')]: the chain of an optional
    field skips a body without the field, and [default] replaces a field
    that is [null] or the empty string. *)
Definition default_currency (body : option json) : option json :=
  match body with
  | Some (JObj fields) =>
      match assoc "currency" fields with
      | Some JNull | Some (JStr "") => Some (JObj (set "currency" (JStr "USD") fields))
      | _ => body
      end
  | _ => body
  end.

(** [const { ..., currency, ... } = req.body], as the sixth parameter of the
    INSERT: NULL when the body has no such field. *)
Definition currency_of (req : Request) : json := param (body_field "currency" req).

(** The number of purchase orders of the tenant of the request. *)
Definition countOrders (req : Request) (w : World) : nat :=
  List.length (filter (col_is_param "tenant_id" (req_tenantId req)) (purchase_orders w)).

(** The row [INSERT INTO purchase_orders ... RETURNING *] stores. *)
Definition new_po (req : Request) (u : ReqUser) (count : nat) : Row :=
  [("id", JStr new_po_id);
   ("tenant_id", of_option_string (req_tenantId req));
   ("po_number", JStr (poNumber count));
   ("contract_id", param (body_field "contract_id" req));
   ("vendor_id", param (body_field "vendor_id" req));
   ("status", JStr "draft");
   ("total_amount", param (body_field "total_amount" req));
   ("currency", currency_of req);
   ("line_items", param (body_field "line_items" req));
   ("erp_system", param (body_field "erp_system" req));
   ("erp_po_id", JNull);
   ("erp_sync_status", JStr "pending");
   ("erp_sync_error", JNull);
   ("created_by", JStr (ru_id u));
   ("created_at", JNum (inject_Z now));
   ("updated_at", JNum (inject_Z now))].

(** The answer of the database to the INSERT of a purchase order: the
    [currency] column is NOT NULL and the handler offers it whatever the
    body holds; the other constraints are [po_insert]'s. *)
Definition insertPurchaseOrder (orders : Table) (po : Row) : option JsError :=
  match col "currency" po with
  | JNull => Some (not_null "currency")
  | _ => po_insert orders po
  end.

(** POST /api/v1/procurement/purchase-orders *)
Definition createPurchaseOrder (req : Request) (w : World) : World * Handled :=
  match validationErrors req with
  | _ :: _ as errors => (w, Sent (mkResponse 400 (JObj [("errors", JArr errors)])))
  | [] =>
      let w1 := log_event DbCountPO w in
      let count := countOrders req w1 in
      match req_user req with
      | None => (w1, Threw (typeError "Cannot read properties of undefined (reading 'id')"))
      | Some u =>
          let po := new_po req u count in
          match insertPurchaseOrder (purchase_orders w1) po with
          | Some rejection => (log_event DbInsertPORejected w1, Threw rejection)
          | None =>
              let w2 := log_event (DbInsertPO new_po_id)
                          (with_orders (purchase_orders w1 ++ [po])%list w1) in
              let w3 :=
                if truthy_opt (body_field "erp_system" req) then
                  match syncPOToERP new_po_id (param (body_field "erp_system" req)) w2 with
                  | (w', None) => w'
                  | (w', Some erpError) =>
                      let w'' := console_error "ERP sync error:" erpError w' in
                      log_event (DbUpdatePO new_po_id)
                        (with_orders
                           (update (col_is "id" new_po_id)
                              (fun r => assign "erp_sync_error" (JStr (err_message erpError))
                                          (assign "erp_sync_status" (JStr "failed") r))
                              (purchase_orders w'')) w'')
                  end
                else w2 in
              (w3, Sent (mkResponse 201 (JObj [("purchase_order", JObj po)])))
          end
      end
  end.

(** POST /api/v1/procurement/purchase-orders/:id/sync *)
Definition syncPurchaseOrder (req : Request) (w : World) : World * Handled :=
  let id := req_params_id req in
  let w1 := log_event DbSelectPO w in
  match filter (fun r => col_is_param "id" id r && col_is_param "tenant_id" (req_tenantId req) r)
          (purchase_orders w1) with
  | [] => (w1, Sent (mkResponse 404 (JObj [("error", JStr "Purchase order not found")])))
  | po :: _ =>
      if negb (truthy (col "erp_system" po)) then
        (w1, Sent (mkResponse 400 (JObj [("error", JStr "No ERP system configured for this PO")])))
      else
        match id with
        | None => (w1, Threw (typeError "Cannot read properties of undefined (reading 'substring')"))
        | Some poId =>
            match syncPOToERP poId (col "erp_system" po) w1 with
            | (w', None) =>
                (w', Sent (json_ok (JObj [("message", JStr "PO synced to ERP successfully")])))
            | (w', Some error) =>
                (w', Sent (mkResponse 503 (JObj [("error", JStr "ERP sync failed");
                                                 ("message", JStr (err_message error));
                                                 ("retryable", JBool true)])))
            end
        end
  end.

Definition createPurchaseOrderRoute : Route World :=
  mkRoute MProcurement (Some ["buyer_admin"; "buyer_user"]) createPurchaseOrder
    default_currency.

Definition syncPurchaseOrderRoute : Route World :=
  mkRoute MProcurement (Some ["buyer_admin"]) syncPurchaseOrder as_sent.

End Routes.

End Procurement.

(** ** routes/performance.js: scorecards and penalties *)

Module Performance.
Import Json Express App Db.

Record Tables : Type := mkTables {
  vendors : Table;
  performance_scorecards : Table;
  performance_metrics : Table;
  penalties : Table
}.

Definition with_penalties (t : Table) (db : Tables) : Tables :=
  mkTables (vendors db) (performance_scorecards db) (performance_metrics db) t.

Definition body_field (k : string) (req : Request) : option json :=
  match req_body req with
  | Some b => get k b
  | None => None
  end.

(** [if (req.query.k) sql += ' AND column = $n'] *)
Definition where_query (k column : string) (req : Request) (r : Row) : bool :=
  match get k (req_query req) with
  | Some v =>
      if truthy v then
        match v with
        | JStr s => col_is column s r
        | _ => false
        end
      else true
  | None => true
  end.

(** [if (req.query.k) sql += ' AND column >= $n'] (or [<=]) with the
    database's comparison of dates. *)
Definition where_cmp (cmp : json -> json -> bool) (k column : string)
  (req : Request) (r : Row) : bool :=
  match get k (req_query req) with
  | Some v => if truthy v then cmp (col column r) v else true
  | None => true
  end.

Definition typeError (what : string) : JsError :=
  mkError "TypeError" what None None None None None "".

(** What [generateAIScorecard] returns. *)
Definition aiScorecard_overall_score : Q := 855 # 10.
Definition aiScorecard_confidence : Q := 88 # 100.
Definition aiScorecard_rationale : string :=
  "Score based on SLA compliance (95%), delivery timeliness (90%), and quality metrics (80%)".
Definition aiScorecard_data_sources : json :=
  JArr [JStr "SLA logs"; JStr "Delivery records"; JStr "Quality assessments"].
Definition aiScorecard_metrics : list Row :=
  [[("name", JStr "SLA Compliance"); ("value", JNum 95); ("target", JNum 98);
    ("unit", JStr "%"); ("score", JNum 92)];
   [("name", JStr "On-Time Delivery"); ("value", JNum 90); ("target", JNum 95);
    ("unit", JStr "%"); ("score", JNum 85)];
   [("name", JStr "Quality Score"); ("value", JNum 80); ("target", JNum 85);
    ("unit", JStr "points"); ("score", JNum 78)]].

(** What [checkBiasPatterns] returns. *)
Definition biasCheck_flagged : bool := false.
Definition biasCheck_rationale : string := "No bias patterns detected".

Section Routes.
Variable validationErrors : Request -> list json.
(** [ORDER BY ... DESC] of the two listings, and the database's [>=] and
    [<=] on dates. *)
Variable order_scorecards : Table -> Table.
Variable order_penalties : Table -> Table.
Variable date_ge : json -> json -> bool.
Variable date_le : json -> json -> bool.
(** Ids the database generates: for the row a request inserts, and for the
    metrics of a scorecard. *)
Variable new_id : string.
Variable metric_id : nat -> string.
Variable now : Z.

(** [x JOIN vendors v ON x.vendor_id = v.id], adding [v.name as vendor_name]
    and, when asked, [v.vendor_code]. *)
Definition join_vendor (with_code : bool) (db : Tables) (r : Row) : Table :=
  map (fun v =>
         let r1 := assign "vendor_name" (col "name" v) r in
         if with_code then assign "vendor_code" (col "vendor_code" v) r1 else r1)
      (filter (fun v => cols_equal "vendor_id" r "id" v) (vendors db)).

(** GET /api/v1/performance/scorecards *)
Definition listScorecards (req : Request) (db : Tables) : Tables * Handled :=
  let rows :=
    order_scorecards
      (filter (fun sc => where_query "vendor_id" "vendor_id" req sc
                         && where_query "contract_id" "contract_id" req sc
                         && where_cmp date_ge "period_start" "period_end" req sc
                         && where_cmp date_le "period_end" "period_start" req sc)
         (flat_map (join_vendor true db)
            (filter (col_is_param "tenant_id" (req_tenantId req)) (performance_scorecards db)))) in
  (db, Sent (json_ok (JObj [("scorecards",
     JArr (map (fun sc =>
                  JObj (set "metrics"
                          (JArr (map JObj (filter (fun m => cols_equal "scorecard_id" m "id" sc)
                                             (performance_metrics db))))
                          sc))
               rows))]))).

Fixpoint metric_rows (scorecard_id : string) (n : nat) (ms : list Row) : Table :=
  match ms with
  | [] => []
  | m :: rest =>
      [("id", JStr (metric_id n)); ("scorecard_id", JStr scorecard_id);
       ("metric_name", col "name" m); ("metric_value", col "value" m);
       ("target_value", col "target" m); ("unit", col "unit" m);
       ("score", col "score" m); ("created_at", JNum (inject_Z now))]
      :: metric_rows scorecard_id (S n) rest
  end.

(** POST /api/v1/performance/scorecards *)
Definition createScorecard (req : Request) (db : Tables) : Tables * Handled :=
  match validationErrors req with
  | _ :: _ as errors => (db, Sent (mkResponse 400 (JObj [("errors", JArr errors)])))
  | [] =>
      let scorecard : Row :=
        [("id", JStr new_id);
         ("tenant_id", of_option_string (req_tenantId req));
         ("vendor_id", param (body_field "vendor_id" req));
         ("contract_id", param (body_field "contract_id" req));
         ("period_start", param (body_field "period_start" req));
         ("period_end", param (body_field "period_end" req));
         ("overall_score", JNum aiScorecard_overall_score);
         ("ai_generated", JBool true);
         ("ai_confidence", JNum aiScorecard_confidence);
         ("ai_rationale", JStr aiScorecard_rationale);
         ("created_at", JNum (inject_Z now));
         ("updated_at", JNum (inject_Z now))] in
      (mkTables (vendors db)
         (performance_scorecards db ++ [scorecard])%list
         (performance_metrics db ++ metric_rows new_id 0 aiScorecard_metrics)%list
         (penalties db),
       Sent (mkResponse 201
         (JObj [("scorecard", JObj scorecard);
                ("ai_explanation",
                 JObj [("confidence", JNum aiScorecard_confidence);
                       ("rationale", JStr aiScorecard_rationale);
                       ("data_sources", aiScorecard_data_sources);
                       ("advisory_only", JBool true)])])))
  end.

(** GET /api/v1/performance/penalties *)
Definition listPenalties (req : Request) (db : Tables) : Tables * Handled :=
  (db, Sent (json_ok (JObj [("penalties",
     JArr (map JObj
       (order_penalties
          (filter (fun p => where_query "vendor_id" "vendor_id" req p
                            && where_query "status" "status" req p)
             (flat_map (join_vendor false db)
                (filter (col_is_param "tenant_id" (req_tenantId req)) (penalties db)))))))]))).

(** [currency || 'USD'] *)
Definition currency_of (req : Request) : json :=
  match or_else (body_field "currency" req) (Some (JStr "USD")) with
  | Some v => v
  | None => JStr "USD"
  end.

(** The row [INSERT INTO penalties ... RETURNING *] stores. *)
Definition new_penalty (req : Request) (u : ReqUser) : Row :=
  [("id", JStr new_id);
   ("tenant_id", of_option_string (req_tenantId req));
   ("vendor_id", param (body_field "vendor_id" req));
   ("contract_id", param (body_field "contract_id" req));
   ("penalty_type", param (body_field "penalty_type" req));
   ("amount", param (body_field "amount" req));
   ("currency", currency_of req);
   ("reason", param (body_field "reason" req));
   ("ai_suggested", JBool false);
   ("ai_rationale", JStr biasCheck_rationale);
   ("status", JStr "pending");
   ("approved_by", JNull);
   ("approved_at", JNull);
   ("created_by", JStr (ru_id u));
   ("created_at", JNum (inject_Z now))].

(** POST /api/v1/performance/penalties *)
Definition createPenalty (req : Request) (db : Tables) : Tables * Handled :=
  match validationErrors req with
  | _ :: _ as errors => (db, Sent (mkResponse 400 (JObj [("errors", JArr errors)])))
  | [] =>
      match req_user req with
      | None => (db, Threw (typeError "Cannot read properties of undefined (reading 'id')"))
      | Some u =>
          let row := new_penalty req u in
          let penalty :=
            if biasCheck_flagged then
              set "bias_flag" (JObj [("flagged", JBool true); ("requires_review", JBool true)]) row
            else row in
          (with_penalties (penalties db ++ [row])%list db,
           Sent (mkResponse 201
             (JObj [("penalty", JObj penalty);
                    ("message", JStr "Penalty created. Requires approval before enforcement.");
                    ("advisory_only", JBool true)])))
      end
  end.

(** The rows of [UPDATE penalties ... WHERE id = $2 AND tenant_id = $3 AND
    status = 'pending']. *)
Definition approvable (req : Request) (p : Row) : bool :=
  col_is_param "id" (req_params_id req) p
  && col_is_param "tenant_id" (req_tenantId req) p
  && col_is "status" "pending" p.

Definition approve (u : ReqUser) (p : Row) : Row :=
  assign "approved_at" (JNum (inject_Z now))
    (assign "approved_by" (JStr (ru_id u))
       (assign "status" (JStr "approved") p)).

(** POST /api/v1/performance/penalties/:id/approve *)
Definition approvePenalty (req : Request) (db : Tables) : Tables * Handled :=
  match req_user req with
  | None => (db, Threw (typeError "Cannot read properties of undefined (reading 'id')"))
  | Some u =>
      match map (approve u) (filter (approvable req) (penalties db)) with
      | [] => (db, Sent (mkResponse 404 (JObj [("error", JStr "Penalty not found or cannot be approved")])))
      | row :: _ =>
          (with_penalties (update (approvable req) (approve u) (penalties db)) db,
           Sent (json_ok (JObj [("penalty", JObj row); ("message", JStr "Penalty approved")])))
      end
  end.

(** The routes of the router. *)
Inductive Op : Type :=
| ListScorecards | CreateScorecard | ListPenalties | CreatePenalty | ApprovePenalty.

Definition route_of (op : Op) : Route Tables :=
  match op with
  | ListScorecards => mkRoute MPerformance None listScorecards as_sent
  | CreateScorecard => mkRoute MPerformance (Some ["buyer_admin"]) createScorecard as_sent
  | ListPenalties => mkRoute MPerformance None listPenalties as_sent
  | CreatePenalty => mkRoute MPerformance (Some ["buyer_admin"]) createPenalty as_sent
  | ApprovePenalty => mkRoute MPerformance (Some ["buyer_admin"]) approvePenalty as_sent
  end.

(** A route behind its [authorize] guard; no validation chain of this
    router has a sanitizer. *)
Definition perform (op : Op) (req : Request) (db : Tables) : Tables * Handled :=
  match match route_roles (route_of op) with
        | Some roles => Auth.authorize roles req
        | None => Next req
        end with
  | Responded r => (db, Sent r)
  | NextError e => (db, Threw e)
  | Next req' => route_handler (route_of op) req' db
  end.

End Routes.

End Performance.

(** ** routes/risk.js: risk assessments from an external provider *)

Module Risk.
Import Json Express App Db.

Record World : Type := mkWorld {
  vendors : Table;
  vendor_risk_assessments : Table;
  vendor_master_consolidated : Table;
  risk_alerts : Table
}.

(** What the provider returns: [{ risk_score, provider_data: { rating,
    last_updated } }]. *)
Record RiskData : Type := mkRiskData {
  risk_score : Q;
  last_updated : string
}.

Definition riskData_json (d : RiskData) : json :=
  JObj [("risk_score", JNum (risk_score d));
        ("provider_data", JObj [("rating", JStr "A"); ("last_updated", JStr (last_updated d))])].

(** One call of the provider's API. *)
Inductive ProviderResult : Type :=
| Fetched (d : RiskData)
| Failed (e : JsError).

(** What [fetchRiskData] does while it runs. *)
Inductive FetchEvent : Type :=
| ApiCall (attempts : nat)      (* the call made after that many failures *)
| Backoff (ms : Z).             (* [setTimeout(resolve, ms)] *)

Inductive FetchResult : Type :=
| Returned (d : RiskData)
| Thrown (e : JsError)
| Undefined.                    (* the loop ended without a [return] *)

Definition maxAttempts : nat := 3.

Section Fetch.
(** The provider's answer to the call made after [attempts] failures. *)
Variable provider_api : nat -> ProviderResult.

(** The [while (attempts < maxAttempts)] loop; [remaining] is
    [maxAttempts - attempts]. *)
Fixpoint fetch_loop (remaining attempts : nat) : FetchResult * list FetchEvent :=
  match remaining with
  | O => (Undefined, [])
  | S remaining' =>
      match provider_api attempts with
      | Fetched d => (Returned d, [ApiCall attempts])
      | Failed error =>
          let attempts' := S attempts in
          if Nat.leb maxAttempts attempts' then
            (Thrown (newError ("Failed to fetch risk data after " ++ decimal maxAttempts
                               ++ " attempts: " ++ err_message error)),
             [ApiCall attempts])
          else
            let (res, evs) := fetch_loop remaining' attempts' in
            (res, ApiCall attempts :: Backoff (2 ^ Z.of_nat attempts' * 1000) :: evs)
      end
  end.

Definition fetchRiskData : FetchResult * list FetchEvent :=
  fetch_loop (maxAttempts - 0) 0.

End Fetch.

Inductive RiskLevel : Type := critical | high | medium | low.

Definition level_name (l : RiskLevel) : string :=
  match l with
  | critical => "critical"
  | high => "high"
  | medium => "medium"
  | low => "low"
  end.

Definition calculateRiskLevel (riskScore : Q) : RiskLevel :=
  if Qle_bool 75 riskScore then critical
  else if Qle_bool 50 riskScore then high
  else if Qle_bool 25 riskScore then medium
  else low.

Definition body_field (k : string) (req : Request) : option json :=
  match req_body req with
  | Some b => get k b
  | None => None
  end.

Definition as_string (o : option json) : option string :=
  match o with
  | Some (JStr s) => Some s
  | _ => None
  end.

Section Routes.
Variable provider_api : nat -> ProviderResult.
Variable validationErrors : Request -> list json.
Variable new_assessment_id : string.
Variable new_master_id : string.
Variable now : Z.
(** The foreign-key violation (class 23503) PostgreSQL raises for a
    [vendor_id] that is the id of no vendor. *)
Variable unknown_vendor : string -> JsError.
(** The verdict of the database on the other constraints of
    [vendor_risk_assessments] (the foreign key to tenants, the NOT NULL
    columns, the type of each column, the range of DECIMAL(5,2)) for a row
    offered to the table: [None] when it is stored, the error of the
    rejection otherwise. *)
Variable assessment_insert : World -> Row -> option JsError.

(** [INSERT INTO vendor_master_consolidated ... SELECT ... FROM vendors v
     WHERE v.id = $3 ON CONFLICT (vendor_id) DO UPDATE SET ...] *)
Definition updateVendorMaster (vendorId : option string) (riskScore : Q) (riskLevel : RiskLevel)
  (w : World) : World :=
  match filter (col_is_param "id" vendorId) (vendors w) with
  | [] => w
  | v :: _ =>
      let master :=
        if existsb (col_is_param "vendor_id" vendorId) (vendor_master_consolidated w) then
          update (col_is_param "vendor_id" vendorId)
            (fun r => assign "last_updated" (JNum (inject_Z now))
                        (assign "risk_level" (JStr (level_name riskLevel))
                           (assign "risk_score" (JNum riskScore) r)))
            (vendor_master_consolidated w)
        else
          (vendor_master_consolidated w ++
             [[("id", JStr new_master_id); ("vendor_id", col "id" v);
               ("vendor_name", col "name" v); ("status", col "status" v);
               ("risk_score", JNum riskScore); ("risk_level", JStr (level_name riskLevel));
               ("last_updated", JNum (inject_Z now))]])%list in
      mkWorld (vendors w) (vendor_risk_assessments w) master (risk_alerts w)
  end.

(** [checkRiskThresholds(vendorId, riskScore, riskLevel)]: the parameter list
    of its INSERT starts with [req.tenantId], and the function has no [req]
    in scope, so evaluating the list throws before the statement is issued. *)
Definition checkRiskThresholds (vendorId : option string) (riskScore : Q) (riskLevel : RiskLevel)
  (w : World) : World * option JsError :=
  match riskLevel with
  | critical | high => (w, Some (referenceError "req"))
  | medium | low => (w, None)
  end.

(** The row [INSERT INTO vendor_risk_assessments ... RETURNING *] stores. *)
Definition new_assessment (req : Request) (d : RiskData) : Row :=
  [("id", JStr new_assessment_id);
   ("tenant_id", of_option_string (req_tenantId req));
   ("vendor_id", param (body_field "vendor_id" req));
   ("risk_score", JNum (risk_score d));
   ("risk_level", JStr (level_name (calculateRiskLevel (risk_score d))));
   ("assessment_date", JNum (inject_Z now));
   ("provider", param (body_field "provider" req));
   ("provider_data", riskData_json d);
   ("alerts", JArr [])].

(** The answer of the database to the INSERT of an assessment:
    [vendor_id] refers to [vendors(id)], whatever the tenant of the
    vendor, and the route checks no more than the shape of the id. *)
Definition insertAssessment (w : World) (assessment : Row) : option JsError :=
  match col "vendor_id" assessment with
  | JStr id =>
      if existsb (col_is "id" id) (vendors w) then assessment_insert w assessment
      else Some (unknown_vendor id)
  | _ => assessment_insert w assessment
  end.

(** POST /api/v1/risk/assessments *)
Definition createAssessment (req : Request) (w : World) : World * Handled :=
  match validationErrors req with
  | _ :: _ as errors => (w, Sent (mkResponse 400 (JObj [("errors", JArr errors)])))
  | [] =>
      match fst (fetchRiskData provider_api) with
      | Thrown error =>
          (w, Sent (mkResponse 503 (JObj [("error", JStr "Risk provider unavailable");
                                          ("message", JStr (err_message error));
                                          ("retryable", JBool true)])))
      | Undefined =>
          (w, Threw (mkError "TypeError" "Cannot read properties of undefined (reading 'risk_score')"
                       None None None None None ""))
      | Returned riskData =>
          let riskLevel := calculateRiskLevel (risk_score riskData) in
          let assessment := new_assessment req riskData in
          let vendor_id := as_string (body_field "vendor_id" req) in
          match insertAssessment w assessment with
          | Some rejection => (w, Threw rejection)
          | None =>
              let w1 := mkWorld (vendors w) (vendor_risk_assessments w ++ [assessment])%list
                          (vendor_master_consolidated w) (risk_alerts w) in
              let w2 := updateVendorMaster vendor_id (risk_score riskData) riskLevel w1 in
              match checkRiskThresholds vendor_id (risk_score riskData) riskLevel w2 with
              | (w3, Some error) => (w3, Threw error)
              | (w3, None) =>
                  (w3, Sent (mkResponse 201 (JObj [("assessment", JObj assessment)])))
              end
          end
      end
  end.

Definition createAssessmentRoute : Route World :=
  mkRoute MRisk (Some ["buyer_admin"]) createAssessment as_sent.

End Routes.

End Risk.

(** ** Statements and sample data used by the properties below *)

Module Scenario.
Import Json Express ErrorHandler Auth Audit App Db.

(** Ids of the sample rows. *)
Definition tenant_a_id : string := "a1a1a1a1-0000-4000-8000-000000000001".
Definition tenant_b_id : string := "b2b2b2b2-0000-4000-8000-000000000002".
Definition alice_id : string := "a1a1a1a1-0000-4000-8000-0000000000aa".
Definition bob_id : string := "b2b2b2b2-0000-4000-8000-0000000000bb".
Definition vendor_1 : string := "a1a1a1a1-0000-4000-8000-0000000000f1".
Definition vendor_9 : string := "b2b2b2b2-0000-4000-8000-0000000000f9".
Definition penalty_1 : string := "a1a1a1a1-0000-4000-8000-0000000000e1".
Definition penalty_2 : string := "a1a1a1a1-0000-4000-8000-0000000000e2".
Definition rfp_a : string := "a1a1a1a1-0000-4000-8000-0000000000c0".
Definition rfp_b : string := "b2b2b2b2-0000-4000-8000-0000000000c1".
Definition response_b : string := "b2b2b2b2-0000-4000-8000-0000000000c2".
Definition score_b : string := "b2b2b2b2-0000-4000-8000-0000000000c3".
Definition override_1 : string := "a1a1a1a1-0000-4000-8000-0000000000c4".
Definition po_1 : string := "7c9e6679-7425-40de-944b-e07fc1f90ae7".
Definition assessment_1 : string := "a1a1a1a1-0000-4000-8000-0000000000d1".
Definition master_1 : string := "a1a1a1a1-0000-4000-8000-0000000000d2".

(** A request turned away with 401 and the given code, having done nothing
    but the listed verifications: the module's tables are untouched, nothing
    is written to the console, and no audit row is attempted. *)
Definition rejected_without_effect {S : Type} (run : Run S) (s : S)
  (message code : string) (verifications : list Event) : Prop :=
  run_response run = mkResponse 401 (error_body message code)
  /\ run_state run = s
  /\ run_events run = verifications
  /\ run_console run = []
  /\ fin_attempts (run_audit run) = [].

Definition env0 : Env := mkEnv (Some "production") None None.

Definition expiredError : JsError :=
  mkError "TokenExpiredError" "jwt expired" None None None None None "".

Definition signatureError : JsError :=
  mkError "JsonWebTokenError" "invalid signature" None None None None None "".

(** Two tokens are valid; one has expired; anything else fails verification. *)
Definition jwt0 (token : string) : JwtResult :=
  if (token =? "jwt-alice")%string then JwtDecoded alice_id
  else if (token =? "jwt-bob")%string then JwtDecoded bob_id
  else if (token =? "jwt-old")%string then JwtThrows expiredError
  else JwtThrows signatureError.

Definition tenants0 : list TenantRow :=
  [mkTenant tenant_a_id "Acme" "active" "us" "cloud";
   mkTenant tenant_b_id "Bolt" "active" "eu" "cloud"].

Definition users0 : list UserRow :=
  [mkUser alice_id tenant_a_id "alice@acme.test" "buyer_admin" "active" "Alice" "A";
   mkUser bob_id tenant_b_id "bob@bolt.test" "buyer_admin" "active" "Bob" "B"].

Definition stringify0 (j : json) : string := "{}".

Definition request0 (method url path : string) (authorization : option string)
  (id : option string) (body : option json) : Request :=
  mkRequest method url path (Some path) authorization id (JObj []) body
    (Some "10.0.0.1") None (Some "curl") None None None.

(** The field names [sanitizeBody] treats as secrets, and every value stored
    under one of them at any depth of a JSON value. *)
Definition secret_names : list string := ["password"; "password_hash"; "token"].

Definition is_secret (k : string) : bool :=
  existsb (fun n => (n =? k)%string) secret_names.

Fixpoint secret_values (j : json) : list json :=
  match j with
  | JObj fields =>
      (fix in_fields (fs : list (string * json)) : list json :=
         match fs with
         | [] => []
         | (k, v) :: rest =>
             ((if is_secret k then [v] else []) ++ secret_values v ++ in_fields rest)%list
         end) fields
  | JArr items =>
      (fix in_items (l : list json) : list json :=
         match l with
         | [] => []
         | x :: rest => (secret_values x ++ in_items rest)%list
         end) items
  | _ => []
  end.

Definition no_errors (req : Request) : list json := [].
Definition keep_order (t : Table) : Table := t.
Definition never_compared (a b : json) : bool := false.
Definition metric_id0 (n : nat) : string := ("metric-" ++ decimal n)%string.

Definition perf0 : Performance.Tables :=
  Performance.mkTables
    [[("id", JStr vendor_1); ("tenant_id", JStr tenant_a_id); ("name", JStr "Initech")]]
    [] []
    [[("id", JStr penalty_1); ("tenant_id", JStr tenant_a_id); ("vendor_id", JStr vendor_1);
      ("amount", JNum 100); ("ai_suggested", JBool true); ("status", JStr "pending");
      ("approved_by", JNull); ("approved_at", JNull)]].

Definition perf_route (op : Performance.Op) : Route Performance.Tables :=
  Performance.route_of no_errors keep_order keep_order never_compared never_compared
    penalty_2 metric_id0 0 op.

(** A penalty creation whose body carries a secret one level down. *)
Definition nested_secret_request : Request :=
  request0 "POST" "/api/v1/performance/penalties" "/penalties" (Some "Bearer jwt-alice") None
    (Some (JObj [("vendor_id", JStr vendor_1); ("penalty_type", JStr "late_delivery");
                 ("amount", JNum 250); ("reason", JStr "missed SLA");
                 ("password", JStr "top-level");
                 ("integration", JObj [("token", JStr "s3cr3t")])])).

(** Tenant B owns an RFP with one evaluated response; tenant A's admin sends
    the id of B's evaluation score to the override route of the RFP router. *)
Definition rfp0 : Rfp.Tables :=
  Rfp.mkTables
    [[("id", JStr rfp_b); ("tenant_id", JStr tenant_b_id); ("title", JStr "Fleet renewal")]]
    [[("id", JStr response_b); ("rfp_id", JStr rfp_b); ("vendor_id", JStr vendor_9)]]
    [[("id", JStr score_b); ("response_id", JStr response_b);
      ("criterion", JStr "cost"); ("score", JNum 90)]]
    [].

Definition override_request : Request :=
  request0 "POST" ("/api/v1/rfp/" ++ rfp_a ++ "/override-score")%string
    ("/" ++ rfp_a ++ "/override-score")%string (Some "Bearer jwt-alice") (Some rfp_a)
    (Some (JObj [("evaluation_id", JStr score_b); ("new_score", JNum 1);
                 ("rationale", JStr "re-scored")])).

Definition override_route : Route Rfp.Tables :=
  Rfp.overrideScoreRoute no_errors override_1 0.

(** A purchase order of tenant A created with an ERP system, and its manual
    re-sync. *)
Definition proc0 : Procurement.World := Procurement.mkWorld [] [] [] [].

Definition po_number0 (count : nat) : string := ("PO-2026-" ++ decimal count)%string.

Definition erp_up (poId : string) (erpSystem : json) : option JsError := None.

Definition erp_down (poId : string) (erpSystem : json) : option JsError :=
  Some (mkError "Error" "connect ETIMEDOUT" (Some "ETIMEDOUT") None None None None "").

Definition create_po_request : Request :=
  request0 "POST" "/api/v1/procurement/purchase-orders" "/purchase-orders"
    (Some "Bearer jwt-alice") None
    (Some (JObj [("vendor_id", JStr vendor_1); ("total_amount", JNum 1200);
                 ("currency", JStr "EUR");
                 ("line_items", JArr [JObj [("sku", JStr "A-1"); ("qty", JNum 3)]]);
                 ("erp_system", JStr "SAP")])).

(** The same order without a currency. *)
Definition create_po_request_without_currency : Request :=
  request0 "POST" "/api/v1/procurement/purchase-orders" "/purchase-orders"
    (Some "Bearer jwt-alice") None
    (Some (JObj [("vendor_id", JStr vendor_1); ("total_amount", JNum 1200);
                 ("line_items", JArr [JObj [("sku", JStr "A-1"); ("qty", JNum 3)]]);
                 ("erp_system", JStr "SAP")])).

(** The same order with the currency sent as [null]. *)
Definition create_po_request_null_currency : Request :=
  request0 "POST" "/api/v1/procurement/purchase-orders" "/purchase-orders"
    (Some "Bearer jwt-alice") None
    (Some (JObj [("vendor_id", JStr vendor_1); ("total_amount", JNum 1200);
                 ("currency", JNull);
                 ("line_items", JArr [JObj [("sku", JStr "A-1"); ("qty", JNum 3)]]);
                 ("erp_system", JStr "SAP")])).

(** The rejection of a NULL by a NOT NULL column. *)
Definition not_null_in (column : string) : JsError :=
  mkError "error" ("null value in column " ++ column ++ " violates not-null constraint")
    (Some "23502") None None None None "".

(** The vendor and the creator of the order are rows of their tables and
    the order number is new: the INSERT is accepted. *)
Definition po_accepted (orders : Table) (po : Row) : option JsError := None.

Definition resync_request : Request :=
  request0 "POST" ("/api/v1/procurement/purchase-orders/" ++ po_1 ++ "/sync")%string
    ("/purchase-orders/" ++ po_1 ++ "/sync")%string (Some "Bearer jwt-alice") (Some po_1) None.

Definition create_po_route (erp : string -> json -> option JsError) : Route Procurement.World :=
  Procurement.createPurchaseOrderRoute erp None po_1 "log-1" 0 po_number0 no_errors
    not_null_in po_accepted.

Definition resync_route (log_id : string) : Route Procurement.World :=
  Procurement.syncPurchaseOrderRoute erp_up None log_id 0.

(** The rejection of a NULL [integration_id] by the sync-log table. *)
Definition not_null_violation : JsError := not_null_in "integration_id".

(** Tenant A's order as the table holds it once it has been synced. *)
Definition proc_synced : Procurement.World :=
  Procurement.mkWorld
    [[("id", JStr po_1); ("tenant_id", JStr tenant_a_id); ("po_number", JStr "PO-2026-0");
      ("contract_id", JNull); ("vendor_id", JStr vendor_1); ("status", JStr "draft");
      ("total_amount", JNum 1200); ("currency", JStr "EUR");
      ("line_items", JArr [JObj [("sku", JStr "A-1"); ("qty", JNum 3)]]);
      ("erp_system", JStr "SAP"); ("erp_po_id", JStr "ERP-7c9e6679");
      ("erp_sync_status", JStr "synced"); ("erp_sync_error", JNull);
      ("created_by", JStr alice_id); ("created_at", JNum 0); ("updated_at", JNum 0)]]
    [] [] [].

Definition resync_route_unlogged (log_id : string) : Route Procurement.World :=
  Procurement.syncPurchaseOrderRoute erp_up (Some not_null_violation) log_id 0.

Definition serve0 {S : Type} (route : Route S) (req : Request) (s : S) : Run S :=
  serve env0 jwt0 (fun _ => None) 0 stringify0 tenants0 users0 route req s.

(** A request as a handler of tenant A sees it once the chain has resolved
    Alice and her tenant. *)
Definition alice : ReqUser :=
  mkReqUser alice_id "alice@acme.test" tenant_a_id "Acme" "buyer_admin" "Alice" "A" "us".

Definition tenant_a : TenantRow := mkTenant tenant_a_id "Acme" "active" "us" "cloud".

Definition as_alice (req : Request) : Request :=
  set_user alice (set_tenant tenant_a (set_user alice (incoming req))).

Definition expired_request : Request :=
  request0 "POST" ("/api/v1/performance/penalties/" ++ penalty_1 ++ "/approve")%string
    ("/penalties/" ++ penalty_1 ++ "/approve")%string (Some "Bearer jwt-old") (Some penalty_1) None.

Definition approve_request : Request :=
  request0 "POST" ("/api/v1/performance/penalties/" ++ penalty_1 ++ "/approve")%string
    ("/penalties/" ++ penalty_1 ++ "/approve")%string (Some "Bearer jwt-alice") (Some penalty_1) None.

Definition penalty1 : Row :=
  [("id", JStr penalty_1); ("tenant_id", JStr tenant_a_id); ("vendor_id", JStr vendor_1);
   ("amount", JNum 100); ("ai_suggested", JBool true); ("status", JStr "pending");
   ("approved_by", JNull); ("approved_at", JNull)].

(** A provider that is down, and one that rates the vendor at 80. *)
Definition provider_down (attempts : nat) : Risk.ProviderResult :=
  Risk.Failed (newError "socket hang up").

Definition provider_80 (attempts : nat) : Risk.ProviderResult :=
  Risk.Fetched (Risk.mkRiskData 80 "2026-01-01T00:00:00.000Z").

Definition risk0 : Risk.World :=
  Risk.mkWorld [[("id", JStr vendor_1); ("tenant_id", JStr tenant_a_id);
                 ("name", JStr "Initech"); ("status", JStr "active")]] [] [] [].

Definition assessment_request : Request :=
  request0 "POST" "/api/v1/risk/assessments" "/assessments" (Some "Bearer jwt-alice") None
    (Some (JObj [("vendor_id", JStr vendor_1); ("provider", JStr "Moodys")])).

(** The same request for an id that is the id of no vendor. *)
Definition unknown_vendor_request : Request :=
  request0 "POST" "/api/v1/risk/assessments" "/assessments" (Some "Bearer jwt-alice") None
    (Some (JObj [("vendor_id", JStr vendor_9); ("provider", JStr "Moodys")])).

(** The rejection of a [vendor_id] that refers to no vendor. *)
Definition foreign_key_violation (id : string) : JsError :=
  mkError "error"
    "insert or update on table vendor_risk_assessments violates foreign key constraint"
    (Some "23503") None None
    (Some (JStr ("Key (vendor_id)=(" ++ id ++ ") is not present in table vendors.")))
    None "".

(** The tenant of the request exists and the score fits its column: the
    other constraints accept the row. *)
Definition assessment_accepted (w : Risk.World) (a : Row) : option JsError := None.

Definition assessment_route : Route Risk.World :=
  Risk.createAssessmentRoute provider_80 no_errors assessment_1 master_1 0
    foreign_key_violation assessment_accepted.

(** The provider calls and the waits of a run of [fetchRiskData]. *)
Definition api_calls (evs : list Risk.FetchEvent) : nat :=
  List.length (filter (fun e => match e with Risk.ApiCall _ => true | Risk.Backoff _ => false end) evs).

Definition backoffs (evs : list Risk.FetchEvent) : list Z :=
  flat_map (fun e => match e with Risk.ApiCall _ => [] | Risk.Backoff ms => [ms] end) evs.

Definition disk_full : JsError :=
  mkError "error" "could not extend file" (Some "53100") None None None None "".

End Scenario.

(** ** A route behind its guard, and a session of requests *)

Module Guard.
Import Express Auth App.

(** A route whose validation chain has no sanitizer, as its router runs it
    for a request [authenticate] has let through: the [authorize(...)] guard
    when the route has one, then the handler, on the body as it was sent. *)
Definition guarded {S : Type} (route : Route S) (req : Request) (s : S) : S * Handled :=
  match match route_roles route with
        | Some roles => authorize roles req
        | None => Next req
        end with
  | Responded r => (s, Sent r)
  | NextError e => (s, Threw e)
  | Next req' => route_handler route req' s
  end.

(** Requests served one after the other, each on the state the one before
    left, with what each was answered. *)
Fixpoint session {S Op : Type} (perform : Op -> Request -> S -> S * Handled)
  (calls : list (Op * Request)) (s : S) : S * list Handled :=
  match calls with
  | [] => (s, [])
  | (op, req) :: rest =>
      let (s1, h) := perform op req s in
      let (s2, hs) := session perform rest s1 in
      (s2, h :: hs)
  end.

End Guard.

(** ** routes/contract.js: listing, creating and locking contracts *)

Module ContractWrites.
Import Json Express App Db Contract.

Definition body_field (k : string) (req : Request) : option json :=
  match req_body req with
  | Some b => get k b
  | None => None
  end.

Definition typeError (what : string) : JsError :=
  mkError "TypeError" what None None None None None "".

Definition with_contracts (t : Table) (db : Tables) : Tables :=
  mkTables t (vendors db) (contract_clauses db) (contract_versions db) (users db).

Definition with_clauses (t : Table) (db : Tables) : Tables :=
  mkTables (contracts db) (vendors db) t (contract_versions db) (users db).

Definition with_versions (t : Table) (db : Tables) : Tables :=
  mkTables (contracts db) (vendors db) (contract_clauses db) t (users db).

Definition q_max (a b : Q) : Q := if Qle_bool a b then b else a.

(** [MAX(...)]: NULL over no row. *)
Definition sql_max (qs : list Q) : option Q :=
  match qs with
  | [] => None
  | q :: rest => Some (fold_left q_max rest q)
  end.

(** The non-NULL [version_number]s of the versions of a contract. *)
Definition version_numbers (id : option string) (versions : Table) : list Q :=
  flat_map (fun v => match col "version_number" v with
                     | JNum q => [q]
                     | _ => []
                     end)
    (filter (col_is_param "contract_id" id) versions).

(** [COALESCE((SELECT MAX(version_number) FROM contract_versions
     WHERE contract_id = $1), 0) + 1] *)
Definition next_version (id : option string) (versions : Table) : Q :=
  match sql_max (version_numbers id versions) with
  | Some m => m
  | None => 0
  end + 1.

Section Routes.
Variable validationErrors : Request -> list json.
(** [ORDER BY c.created_at DESC] *)
Variable order_contracts : Table -> Table.
(** [`${contract_type}-${year}-${String(count + 1).padStart(5, '0')}`] for
    the type sent and the row count of the tenant. *)
Variable contractNumber : option json -> nat -> string.
(** What a template literal makes of a value that is not a string. *)
Variable interpolated : json -> string.
(** The text the database stores for a parameter that is not a string. *)
Variable stored_text : json -> string.
(** The database's verdict on the INSERT into [contracts]: the error of a
    violated constraint, [None] when the row is accepted. *)
Variable contract_insert : Tables -> Row -> option JsError.
Variable new_contract_id : string.
Variable new_clause_id : string.
Variable new_version_id : nat -> string.
Variable now : Z.

(** [`${v}`] *)
Definition interpolate (v : option json) : string :=
  match v with
  | Some (JStr s) => s
  | Some v => interpolated v
  | None => "undefined"
  end.

(** A parameter bound to a text column. *)
Definition text_param (v : option json) : json :=
  match v with
  | Some (JStr s) => JStr s
  | Some JNull | None => JNull
  | Some v => JStr (stored_text v)
  end.

(** [c JOIN vendors v ON c.vendor_id = v.id], adding [v.name as vendor_name]
    and [v.vendor_code]. *)
Definition join_vendor (db : Tables) (c : Row) : Table :=
  map (fun v => assign "vendor_code" (col "vendor_code" v)
                  (assign "vendor_name" (col "name" v) c))
      (filter (fun v => cols_equal "vendor_id" c "id" v) (vendors db)).

(** GET /api/v1/contracts *)
Definition listContracts (req : Request) (db : Tables) : Tables * Handled :=
  (db, Sent (json_ok (JObj [("contracts",
     JArr (map JObj
       (order_contracts
          (filter (fun c => Performance.where_query "status" "status" req c
                            && Performance.where_query "vendor_id" "vendor_id" req c
                            && Performance.where_query "contract_type" "contract_type" req c)
             (flat_map (join_vendor db)
                (filter (col_is_param "tenant_id" (req_tenantId req)) (contracts db)))))))]))).

(** [generateAIContract(vendorId, contractType, templateVersion)]: the
    content and the rationale. *)
Definition generateAIContract (vendorId contractType templateVersion : option json)
  : string * string :=
  ("[AI-generated " ++ interpolate contractType ++ " content based on template "
     ++ interpolate (or_else templateVersion (Some (JStr "default"))) ++ "]",
   "Generated based on preferred " ++ interpolate contractType ++ " template, version "
     ++ interpolate (or_else templateVersion (Some (JStr "V2.5")))).

(** [extractClauses(contractId, content, aiGenerated, aiRationale)]: [None]
    when it returns, the error thrown by [content.substring(0, 500)]
    otherwise. *)
Definition extractClauses (contractId : json) (content : json) (aiGenerated : bool)
  (aiRationale : json) (db : Tables) : Tables * option JsError :=
  match content with
  | JStr s =>
      (with_clauses
         (contract_clauses db ++
            [[("id", JStr new_clause_id); ("contract_id", contractId);
              ("clause_number", JStr "1"); ("title", JStr "General Terms");
              ("content", JStr (String.substring 0 500 s));
              ("clause_type", JStr "standard"); ("source", JStr "template");
              ("source_version", JNull);
              ("ai_generated", JBool aiGenerated); ("ai_rationale", aiRationale);
              ("bias_flags", JArr []);
              ("created_at", JNum (inject_Z now)); ("updated_at", JNum (inject_Z now))]])%list
         db, None)
  | JNull => (db, Some (typeError "Cannot read properties of null (reading 'substring')"))
  | _ => (db, Some (typeError "content.substring is not a function"))
  end.

(** What the handler has computed when it issues the INSERT: the final
    content, whether it was generated, and the rationale. *)
Definition finalContent (req : Request) : json :=
  if truthy_opt (body_field "content" req) then param (body_field "content" req)
  else JStr (fst (generateAIContract (body_field "vendor_id" req)
                    (body_field "contract_type" req) (body_field "template_version" req))).

Definition aiGenerated (req : Request) : bool :=
  negb (truthy_opt (body_field "content" req)).

Definition aiRationale (req : Request) : json :=
  if truthy_opt (body_field "content" req) then JNull
  else JStr (snd (generateAIContract (body_field "vendor_id" req)
                    (body_field "contract_type" req) (body_field "template_version" req))).

(** The row [INSERT INTO contracts ... RETURNING *] stores. *)
Definition new_contract (req : Request) (u : ReqUser) (count : nat) : Row :=
  [("id", JStr new_contract_id);
   ("tenant_id", of_option_string (req_tenantId req));
   ("contract_number", JStr (contractNumber (body_field "contract_type" req) count));
   ("rfp_id", param (body_field "rfp_id" req));
   ("vendor_id", param (body_field "vendor_id" req));
   ("contract_type", text_param (body_field "contract_type" req));
   ("status", JStr "draft");
   ("template_version", text_param (body_field "template_version" req));
   ("content", text_param (Some (finalContent req)));
   ("ai_generated", JBool (aiGenerated req));
   ("ai_rationale", aiRationale req);
   ("locked_by", JNull);
   ("locked_at", JNull);
   ("signed_at", JNull);
   ("effective_date", param (body_field "effective_date" req));
   ("expiration_date", param (body_field "expiration_date" req));
   ("created_by", JStr (ru_id u));
   ("created_at", JNum (inject_Z now));
   ("updated_at", JNum (inject_Z now))].

(** POST /api/v1/contracts *)
Definition createContract (req : Request) (db : Tables) : Tables * Handled :=
  match validationErrors req with
  | _ :: _ as errors => (db, Sent (mkResponse 400 (JObj [("errors", JArr errors)])))
  | [] =>
      let count := List.length (filter (col_is_param "tenant_id" (req_tenantId req))
                                  (contracts db)) in
      match req_user req with
      | None => (db, Threw (typeError "Cannot read properties of undefined (reading 'id')"))
      | Some u =>
          let contract := new_contract req u count in
          match contract_insert db contract with
          | Some e => (db, Threw e)
          | None =>
              let db1 := with_contracts (contracts db ++ [contract])%list db in
              let created :=
                Sent (mkResponse 201
                        (JObj [("contract", JObj contract);
                               ("ai_generated", JBool (aiGenerated req));
                               ("message",
                                JStr (if aiGenerated req
                                      then "Contract draft created with AI assistance"
                                      else "Contract created"))])) in
              if truthy (finalContent req) then
                match extractClauses (col "id" contract) (finalContent req)
                        (aiGenerated req) (aiRationale req) db1 with
                | (db2, Some e) => (db2, Threw e)
                | (db2, None) => (db2, created)
                end
              else (db1, created)
          end
      end
  end.

(** The rows of [UPDATE contracts ... WHERE id = $2 AND tenant_id = $3 AND
    status = 'in_review']. *)
Definition lockable (req : Request) (c : Row) : bool :=
  col_is_param "id" (req_params_id req) c
  && col_is_param "tenant_id" (req_tenantId req) c
  && col_is "status" "in_review" c.

Definition lock (u : ReqUser) (c : Row) : Row :=
  assign "locked_at" (JNum (inject_Z now))
    (assign "locked_by" (JStr (ru_id u))
       (assign "status" (JStr "locked") c)).

(** The rows of [INSERT INTO contract_versions (...) SELECT id, <next>,
    content, $2, 'Contract locked' FROM contracts WHERE id = $1]. *)
Fixpoint snapshots (n : nat) (version : Q) (u : ReqUser) (cs : Table) : Table :=
  match cs with
  | [] => []
  | c :: rest =>
      [("id", JStr (new_version_id n)); ("contract_id", col "id" c);
       ("version_number", JNum version); ("content", col "content" c);
       ("changed_by", JStr (ru_id u)); ("change_summary", JStr "Contract locked");
       ("created_at", JNum (inject_Z now))]
      :: snapshots (S n) version u rest
  end.

(** POST /api/v1/contracts/:id/lock *)
Definition lockContract (req : Request) (db : Tables) : Tables * Handled :=
  match req_user req with
  | None => (db, Threw (typeError "Cannot read properties of undefined (reading 'id')"))
  | Some u =>
      match map (lock u) (filter (lockable req) (contracts db)) with
      | [] => (db, Sent (mkResponse 404
                           (JObj [("error", JStr "Contract not found or cannot be locked")])))
      | row :: _ =>
          let db1 := with_contracts (update (lockable req) (lock u) (contracts db)) db in
          let db2 :=
            with_versions
              (contract_versions db1 ++
                 snapshots 0 (next_version (req_params_id req) (contract_versions db1)) u
                   (filter (col_is_param "id" (req_params_id req)) (contracts db1)))%list
              db1 in
          (db2, Sent (json_ok (JObj [("contract", JObj row);
                                     ("message", JStr "Contract locked successfully")])))
      end
  end.

(** The routes of the router. *)
Inductive Op : Type :=
| ListContracts | CreateContract | GetContract | LockContract.

Variable order_clauses : Table -> Table.
Variable order_versions : Table -> Table.

Definition route_of (op : Op) : Route Tables :=
  match op with
  | ListContracts => mkRoute MContracts None listContracts as_sent
  | CreateContract => mkRoute MContracts (Some ["buyer_admin"; "buyer_user"]) createContract as_sent
  | GetContract => mkRoute MContracts None (getContract order_clauses order_versions) as_sent
  | LockContract => mkRoute MContracts (Some ["buyer_admin"]) lockContract as_sent
  end.

Definition perform (op : Op) : Request -> Tables -> Tables * Handled :=
  Guard.guarded (route_of op).

End Routes.

End ContractWrites.

(** ** routes/risk.js: the listings and the acknowledgement of alerts *)

Module RiskAlerts.
Import Json Express App Db Risk.

Definition typeError (what : string) : JsError :=
  mkError "TypeError" what None None None None None "".

Definition with_alerts (t : Table) (w : World) : World :=
  mkWorld (vendors w) (vendor_risk_assessments w) (vendor_master_consolidated w) t.

(** [ra JOIN vendors v ON ra.vendor_id = v.id], adding [v.name as
    vendor_name] and, when asked, [v.vendor_code]. *)
Definition join_vendor (with_code : bool) (w : World) (r : Row) : Table :=
  map (fun v =>
         let r1 := assign "vendor_name" (col "name" v) r in
         if with_code then assign "vendor_code" (col "vendor_code" v) r1 else r1)
      (filter (fun v => cols_equal "vendor_id" r "id" v) (vendors w)).

Section Routes.
Variable provider_api : nat -> ProviderResult.
Variable validationErrors : Request -> list json.
Variable new_assessment_id : string.
Variable new_master_id : string.
Variable now : Z.
(** [ORDER BY ra.assessment_date DESC] and [ORDER BY ra.created_at DESC] *)
Variable order_assessments : Table -> Table.
Variable order_alerts : Table -> Table.
(** The database's verdicts on the INSERT of an assessment. *)
Variable unknown_vendor : string -> JsError.
Variable assessment_insert : World -> Row -> option JsError.

(** GET /api/v1/risk/assessments *)
Definition listAssessments (req : Request) (w : World) : World * Handled :=
  (w, Sent (json_ok (JObj [("assessments",
     JArr (map JObj
       (order_assessments
          (filter (Performance.where_query "vendor_id" "vendor_id" req)
             (flat_map (join_vendor true w)
                (filter (col_is_param "tenant_id" (req_tenantId req))
                   (vendor_risk_assessments w)))))))]))).

(** GET /api/v1/risk/alerts *)
Definition listAlerts (req : Request) (w : World) : World * Handled :=
  (w, Sent (json_ok (JObj [("alerts",
     JArr (map JObj
       (order_alerts
          (filter (fun a => Performance.where_query "vendor_id" "vendor_id" req a
                            && Performance.where_query "severity" "severity" req a
                            && Performance.where_query "status" "status" req a)
             (flat_map (join_vendor false w)
                (filter (col_is_param "tenant_id" (req_tenantId req)) (risk_alerts w)))))))]))).

(** The rows of [UPDATE risk_alerts ... WHERE id = $2 AND tenant_id = $3 AND
    status = 'active']. *)
Definition acknowledgeable (req : Request) (a : Row) : bool :=
  col_is_param "id" (req_params_id req) a
  && col_is_param "tenant_id" (req_tenantId req) a
  && col_is "status" "active" a.

Definition acknowledge (u : ReqUser) (a : Row) : Row :=
  assign "acknowledged_at" (JNum (inject_Z now))
    (assign "acknowledged_by" (JStr (ru_id u))
       (assign "status" (JStr "acknowledged") a)).

(** POST /api/v1/risk/alerts/:id/acknowledge *)
Definition acknowledgeAlert (req : Request) (w : World) : World * Handled :=
  match req_user req with
  | None => (w, Threw (typeError "Cannot read properties of undefined (reading 'id')"))
  | Some u =>
      match map (acknowledge u) (filter (acknowledgeable req) (risk_alerts w)) with
      | [] => (w, Sent (mkResponse 404
                          (JObj [("error", JStr "Alert not found or cannot be acknowledged")])))
      | row :: _ =>
          (with_alerts (update (acknowledgeable req) (acknowledge u) (risk_alerts w)) w,
           Sent (json_ok (JObj [("alert", JObj row); ("message", JStr "Alert acknowledged")])))
      end
  end.

(** The routes of the router. *)
Inductive Op : Type :=
| ListAssessments | CreateAssessment | ListAlerts | AcknowledgeAlert.

Definition route_of (op : Op) : Route World :=
  match op with
  | ListAssessments => mkRoute MRisk None listAssessments as_sent
  | CreateAssessment =>
      createAssessmentRoute provider_api validationErrors new_assessment_id new_master_id now
        unknown_vendor assessment_insert
  | ListAlerts => mkRoute MRisk None listAlerts as_sent
  | AcknowledgeAlert => mkRoute MRisk (Some ["buyer_admin"]) acknowledgeAlert as_sent
  end.

Definition perform (op : Op) : Request -> World -> World * Handled :=
  Guard.guarded (route_of op).

End Routes.

End RiskAlerts.

(** ** routes/procurement.js: vendor onboarding *)

Module Onboarding.
Import Json Express App Db.

Record Tables : Type := mkTables {
  vendor_onboarding : Table;
  vendors : Table
}.

Definition body_field (k : string) (req : Request) : option json :=
  match req_body req with
  | Some b => get k b
  | None => None
  end.

Definition as_string (o : option json) : option string :=
  match o with
  | Some (JStr s) => Some s
  | _ => None
  end.

Definition typeError (what : string) : JsError :=
  mkError "TypeError" what None None None None None "".

(** The steps used when the body names none. *)
Definition defaultSteps : json :=
  JArr [JObj [("step", JStr "vendor_info"); ("status", JStr "pending")];
        JObj [("step", JStr "tax_documents"); ("status", JStr "pending")];
        JObj [("step", JStr "bank_details"); ("status", JStr "pending")];
        JObj [("step", JStr "contract_signing"); ("status", JStr "pending")]].

(** [o.vendor_id = v AND o.tenant_id = t AND o.status != 'completed'] *)
Definition in_progress (vendor_id tenantId : option string) (o : Row) : bool :=
  col_is_param "vendor_id" vendor_id o
  && col_is_param "tenant_id" tenantId o
  && match col "status" o with
     | JStr s => negb (s =? "completed")%string
     | _ => false
     end.

Section Routes.
Variable validationErrors : Request -> list json.
(** The database's verdict on the INSERT into [vendor_onboarding]: the error
    of a violated constraint, [None] when the row is accepted. *)
Variable onboarding_insert : Tables -> Row -> option JsError.
Variable new_id : string.
Variable now : Z.

(** The row [INSERT INTO vendor_onboarding ... RETURNING *] stores. *)
Definition new_onboarding (req : Request) (u : ReqUser) : Row :=
  [("id", JStr new_id);
   ("tenant_id", of_option_string (req_tenantId req));
   ("vendor_id", param (body_field "vendor_id" req));
   ("status", JStr "initiated");
   ("onboarding_steps",
    param (or_else (body_field "onboarding_steps" req) (Some defaultSteps)));
   ("documents", JArr []);
   ("erp_vendor_id", JNull);
   ("erp_sync_status", JStr "pending");
   ("initiated_by", JStr (ru_id u));
   ("completed_at", JNull);
   ("created_at", JNum (inject_Z now));
   ("updated_at", JNum (inject_Z now))].

(** POST /api/v1/procurement/onboarding *)
Definition initiateOnboarding (req : Request) (db : Tables) : Tables * Handled :=
  match validationErrors req with
  | _ :: _ as errors => (db, Sent (mkResponse 400 (JObj [("errors", JArr errors)])))
  | [] =>
      match filter (in_progress (as_string (body_field "vendor_id" req)) (req_tenantId req))
              (vendor_onboarding db) with
      | _ :: _ =>
          (db, Sent (mkResponse 409 (JObj [("error", JStr "Onboarding already in progress")])))
      | [] =>
          match req_user req with
          | None => (db, Threw (typeError "Cannot read properties of undefined (reading 'id')"))
          | Some u =>
              let row := new_onboarding req u in
              match onboarding_insert db row with
              | Some e => (db, Threw e)
              | None =>
                  (mkTables (vendor_onboarding db ++ [row])%list (vendors db),
                   Sent (mkResponse 201 (JObj [("onboarding", JObj row)])))
              end
          end
      end
  end.

Definition initiateOnboardingRoute : Route Tables :=
  mkRoute MProcurement (Some ["buyer_admin"]) initiateOnboarding as_sent.

End Routes.

End Onboarding.

(** ** routes/rfp.js: sections, invitations and publication *)

Module RfpAuthoring.
Import Json Express App Db.

Record Tables : Type := mkTables {
  rfps : Table;
  rfp_sections : Table;
  rfp_invitations : Table;
  vendors : Table
}.

Definition body_field (k : string) (req : Request) : option json :=
  match req_body req with
  | Some b => get k b
  | None => None
  end.

Definition as_string (o : option json) : option string :=
  match o with
  | Some (JStr s) => Some s
  | _ => None
  end.

Definition typeError (what : string) : JsError :=
  mkError "TypeError" what None None None None None "".

Definition with_rfps (t : Table) (db : Tables) : Tables :=
  mkTables t (rfp_sections db) (rfp_invitations db) (vendors db).

Definition with_sections (t : Table) (db : Tables) : Tables :=
  mkTables (rfps db) t (rfp_invitations db) (vendors db).

Definition with_invitations (t : Table) (db : Tables) : Tables :=
  mkTables (rfps db) (rfp_sections db) t (vendors db).

(** [WHERE id = $1 AND tenant_id = $2 AND owner_id = $3] *)
Definition owned (req : Request) (u : ReqUser) (r : Row) : bool :=
  col_is_param "id" (req_params_id req) r
  && col_is_param "tenant_id" (req_tenantId req) r
  && col_is "owner_id" (ru_id u) r.

(** [WHERE id = $1 AND tenant_id = $2] *)
Definition of_tenant (req : Request) (r : Row) : bool :=
  col_is_param "id" (req_params_id req) r
  && col_is_param "tenant_id" (req_tenantId req) r.

(** [for (const x of v)]: the elements of an array, the characters of a
    string; nothing else a JSON body can hold is iterable. *)
Definition iterate (v : option json) : option (list json) :=
  match v with
  | Some (JArr items) => Some items
  | Some (JStr s) =>
      Some (map (fun c => JStr (String c EmptyString)) (list_ascii_of_string s))
  | _ => None
  end.

Section Routes.
Variable validationErrors : Request -> list json.
(** What a template literal makes of a value that is not a string. *)
Variable interpolated : json -> string.
(** [sectionCount.rows[0].count + 1] for a row count, as it is stored. *)
Variable sectionNumber : nat -> json.
(** The database's verdict on the INSERT into [rfp_sections] and on one into
    [rfp_invitations]: the error of a violated constraint or of a value it
    cannot read, [None] when the row is accepted. *)
Variable section_insert : Tables -> Row -> option JsError.
Variable invitation_insert : Table -> Row -> option JsError.
Variable new_section_id : string.
(** The id of the n-th invitation a request inserts. *)
Variable new_invitation_id : nat -> string.
Variable now : Z.

(** [`${v}`] *)
Definition interpolate (v : option json) : string :=
  match v with
  | Some (JStr s) => s
  | Some v => interpolated v
  | None => "undefined"
  end.

(** [generateAISectionContent(rfpId, title, sectionType)]: the content and
    the rationale. *)
Definition generateAISectionContent (rfpId : option string) (title sectionType : option json)
  : string * string :=
  ("[AI-generated content for " ++ interpolate title ++ " - " ++ interpolate sectionType
     ++ " section]",
   "Generated based on standard " ++ interpolate sectionType
     ++ " requirements and past RFP patterns").

(** The row [INSERT INTO rfp_sections ... RETURNING *] stores. *)
Definition new_section (req : Request) (count : nat) : Row :=
  let content := body_field "content" req in
  let ai := generateAISectionContent (req_params_id req) (body_field "title" req)
              (body_field "section_type" req) in
  [("id", JStr new_section_id);
   ("rfp_id", of_option_string (req_params_id req));
   ("section_number", sectionNumber count);
   ("title", param (body_field "title" req));
   ("content", if truthy_opt content then param content else JStr (fst ai));
   ("section_type", param (body_field "section_type" req));
   ("ai_generated", JBool (negb (truthy_opt content)));
   ("ai_rationale", if truthy_opt content then JNull else JStr (snd ai));
   ("created_at", JNum (inject_Z now));
   ("updated_at", JNum (inject_Z now))].

(** POST /api/v1/rfp/:id/sections *)
Definition addSection (req : Request) (db : Tables) : Tables * Handled :=
  match validationErrors req with
  | _ :: _ as errors => (db, Sent (mkResponse 400 (JObj [("errors", JArr errors)])))
  | [] =>
      match req_user req with
      | None => (db, Threw (typeError "Cannot read properties of undefined (reading 'id')"))
      | Some u =>
          match filter (owned req u) (rfps db) with
          | [] => (db, Sent (mkResponse 404 (JObj [("error", JStr "RFP not found or access denied")])))
          | rfp :: _ =>
              if negb (col_is "status" "draft" rfp) then
                (db, Sent (mkResponse 400
                             (JObj [("error", JStr "RFP is locked and cannot be modified")])))
              else
                let count := List.length (filter (col_is_param "rfp_id" (req_params_id req))
                                            (rfp_sections db)) in
                let section := new_section req count in
                match section_insert db section with
                | Some e => (db, Threw e)
                | None =>
                    (with_sections (rfp_sections db ++ [section])%list db,
                     Sent (mkResponse 201
                             (JObj [("section", JObj section);
                                    ("message",
                                     JStr (if negb (truthy_opt (body_field "content" req))
                                           then "Section created with AI assistance"
                                           else "Section created"))])))
                end
          end
      end
  end.

(** The row [INSERT INTO rfp_invitations ... RETURNING *] stores. *)
Definition new_invitation (req : Request) (u : ReqUser) (n : nat) (vendorId : json)
  (deadline : json) : Row :=
  [("id", JStr (new_invitation_id n));
   ("rfp_id", of_option_string (req_params_id req));
   ("vendor_id", vendorId);
   ("invited_by", JStr (ru_id u));
   ("invited_at", JNum (inject_Z now));
   ("status", JStr "pending");
   ("response_deadline", deadline)].

(** The loop over [vendor_ids]: the invitations table, the rows inserted so
    far, and the error that ended the loop, if any. *)
Fixpoint invite_loop (req : Request) (vendors : Table) (deadline : json)
  (vendor_ids : list json) (invitations : Table) (inserted : list Row)
  : Table * list Row * option JsError :=
  match vendor_ids with
  | [] => (invitations, inserted, None)
  | vendorId :: rest =>
      match filter (fun v => col_is_param "id" (as_string (Some vendorId)) v
                             && col_is_param "tenant_id" (req_tenantId req) v)
              vendors with
      | [] => invite_loop req vendors deadline rest invitations inserted
      | _ :: _ =>
          match filter (fun i => col_is_param "rfp_id" (req_params_id req) i
                                 && col_is_param "vendor_id" (as_string (Some vendorId)) i)
                  invitations with
          | _ :: _ => invite_loop req vendors deadline rest invitations inserted
          | [] =>
              match req_user req with
              | None =>
                  (invitations, inserted,
                   Some (typeError "Cannot read properties of undefined (reading 'id')"))
              | Some u =>
                  let row := new_invitation req u (List.length inserted) vendorId deadline in
                  match invitation_insert invitations row with
                  | Some e => (invitations, inserted, Some e)
                  | None =>
                      invite_loop req vendors deadline rest (invitations ++ [row])%list
                        (inserted ++ [row])%list
                  end
              end
          end
      end
  end.

(** POST /api/v1/rfp/:id/invite *)
Definition inviteVendors (req : Request) (db : Tables) : Tables * Handled :=
  match validationErrors req with
  | _ :: _ as errors => (db, Sent (mkResponse 400 (JObj [("errors", JArr errors)])))
  | [] =>
      match filter (of_tenant req) (rfps db) with
      | [] => (db, Sent (mkResponse 404 (JObj [("error", JStr "RFP not found")])))
      | rfp :: _ =>
          let deadline :=
            param (or_else (body_field "response_deadline" req) (Some (col "due_date" rfp))) in
          match iterate (body_field "vendor_ids" req) with
          | None => (db, Threw (typeError "vendor_ids is not iterable"))
          | Some vendor_ids =>
              match invite_loop req (vendors db) deadline vendor_ids (rfp_invitations db) [] with
              | (invitations, _, Some e) => (with_invitations invitations db, Threw e)
              | (invitations, inserted, None) =>
                  (with_invitations invitations db,
                   Sent (mkResponse 201
                           (JObj [("invitations", JArr (map JObj inserted));
                                  ("count", JNum (inject_Z (Z.of_nat (List.length inserted))));
                                  ("message",
                                   JStr (decimal (List.length inserted)
                                         ++ " vendor(s) invited"))])))
              end
          end
      end
  end.

Definition publish (r : Row) : Row :=
  assign "lock_date" (JNum (inject_Z now)) (assign "status" (JStr "published") r).

(** POST /api/v1/rfp/:id/publish *)
Definition publishRfp (req : Request) (db : Tables) : Tables * Handled :=
  match req_user req with
  | None => (db, Threw (typeError "Cannot read properties of undefined (reading 'id')"))
  | Some u =>
      match filter (owned req u) (rfps db) with
      | [] => (db, Sent (mkResponse 404 (JObj [("error", JStr "RFP not found or access denied")])))
      | rfp :: _ =>
          if negb (col_is "status" "draft" rfp) then
            (db, Sent (mkResponse 400
                         (JObj [("error", JStr "RFP is already published or locked")])))
          else
            (with_rfps (update (col_is_param "id" (req_params_id req)) publish (rfps db)) db,
             Sent (json_ok (JObj [("message", JStr "RFP published successfully")])))
      end
  end.

(** The routes modelled here; all are guarded by
    [authorize('buyer_admin', 'buyer_user')]. *)
Inductive Op : Type :=
| AddSection | InviteVendors | PublishRfp.

Definition route_of (op : Op) : Route Tables :=
  mkRoute MRfp (Some ["buyer_admin"; "buyer_user"])
    match op with
    | AddSection => addSection
    | InviteVendors => inviteVendors
    | PublishRfp => publishRfp
    end
    as_sent.

Definition perform (op : Op) : Request -> Tables -> Tables * Handled :=
  Guard.guarded (route_of op).

End Routes.

End RfpAuthoring.

(** ** routes/rfp.js: the AI evaluation *)

Module RfpEvaluation.
Import Json Express App Db.

Record Tables : Type := mkTables {
  rfp_responses : Table;
  vendors : Table;
  ai_evaluation_scores : Table
}.

Definition criteria : list string :=
  ["technical_capability"; "cost"; "timeline"; "experience"].

(** [criterion === 'cost' ? 0.3 : 0.23] *)
Definition weight (criterion : string) : Q :=
  if (criterion =? "cost")%string then 3 # 10 else 23 # 100.

Section Routes.
(** [Math.random() * 100] for the n-th score a request inserts, and the
    product of two numbers as JavaScript computes it. *)
Variable drawn : nat -> Q.
Variable times : Q -> Q -> Q.
Variable new_score_id : nat -> string.
Variable now : Z.

(** The rows [generateAIEvaluation] inserts for the criteria [cs], the
    first of them being the n-th insertion of the request. *)
Fixpoint score_rows (responseId : json) (n : nat) (cs : list string) : Table :=
  match cs with
  | [] => []
  | criterion :: rest =>
      [("id", JStr (new_score_id n)); ("response_id", responseId);
       ("criterion", JStr criterion); ("score", JNum (drawn n));
       ("weight", JNum (weight criterion));
       ("weighted_score", JNum (times (drawn n) (weight criterion)));
       ("ai_confidence", JNum (85 # 100));
       ("ai_rationale",
        JStr ("AI evaluation based on response content analysis for " ++ criterion));
       ("anomalies", JArr []); ("bias_flags", JArr []);
       ("created_at", JNum (inject_Z now))]
      :: score_rows responseId (S n) rest
  end.

(** [generateAIEvaluation(responseId, rfpId)] *)
Definition generateAIEvaluation (responseId : json) (rfpId : option string) (n : nat) : Table :=
  score_rows responseId n criteria.

(** [SELECT rr.*, v.name as vendor_name FROM rfp_responses rr
     JOIN vendors v ON rr.vendor_id = v.id
     WHERE rr.rfp_id = $1 AND rr.status = 'submitted'] *)
Definition submitted (req : Request) (db : Tables) : Table :=
  flat_map (fun rr =>
    if col_is_param "rfp_id" (req_params_id req) rr && col_is "status" "submitted" rr then
      map (fun v => assign "vendor_name" (col "name" v) rr)
          (filter (fun v => cols_equal "vendor_id" rr "id" v) (vendors db))
    else [])
    (rfp_responses db).

(** The loop over the responses: the evaluations of each, in order. *)
Fixpoint evaluate_loop (rfpId : option string) (responses : Table) (n : nat) : list Table :=
  match responses with
  | [] => []
  | response :: rest =>
      generateAIEvaluation (col "id" response) rfpId n
      :: evaluate_loop rfpId rest (n + List.length criteria)
  end.

(** POST /api/v1/rfp/:id/evaluate *)
Definition evaluateRfp (req : Request) (db : Tables) : Tables * Handled :=
  match submitted req db with
  | [] => (db, Sent (mkResponse 400 (JObj [("error", JStr "No submitted responses to evaluate")])))
  | responses =>
      let evaluations := evaluate_loop (req_params_id req) responses 0 in
      (mkTables (rfp_responses db) (vendors db)
         (ai_evaluation_scores db ++ concat evaluations)%list,
       Sent (json_ok
               (JObj [("evaluations", JArr (map (fun rows => JArr (map JObj rows)) evaluations));
                      ("message",
                       JStr "AI evaluation completed. Review and override as needed.");
                      ("advisory_only", JBool true)])))
  end.

Definition evaluateRfpRoute : Route Tables :=
  mkRoute MRfp (Some ["buyer_admin"; "evaluation_committee"]) evaluateRfp as_sent.

End Routes.

End RfpEvaluation.

(** ** routes/auth.js: login *)

Module Login.
Import Json Express App Db.

Record Tables : Type := mkTables {
  users : Table;
  tenants : Table
}.

Definition body_field (k : string) (req : Request) : option json :=
  match req_body req with
  | Some b => get k b
  | None => None
  end.

Definition as_string (o : option json) : option string :=
  match o with
  | Some (JStr s) => Some s
  | _ => None
  end.

(** What [bcrypt.compare(password, hash)] resolves to, or throws. *)
Inductive Compared : Type :=
| Matches
| Differs
| CompareThrows (e : JsError).

(** What [jwt.sign(payload, secret, options)] returns, or throws. *)
Inductive Signed : Type :=
| Token (token : string)
| SignThrows (e : JsError).

(** [SELECT u.*, t.id as tenant_id, t.name as tenant_name, t.status as
     tenant_status FROM users u JOIN tenants t ON u.tenant_id = t.id
     WHERE u.email = $1] *)
Definition select_user (email : option string) (db : Tables) : Table :=
  flat_map (fun u =>
    if col_is_param "email" email u then
      map (fun t => assign "tenant_status" (col "status" t)
                      (assign "tenant_name" (col "name" t)
                         (assign "tenant_id" (col "id" t) u)))
          (filter (fun t => cols_equal "tenant_id" u "id" t) (tenants db))
    else [])
    (users db).

Definition refusal (status : Z) (error code : string) : Handled :=
  Sent (mkResponse status (error_body error code)).

Section Routes.
Variable validationErrors : Request -> list json.
Variable bcrypt_compare : option json -> json -> Compared.
Variable jwt_sign : json -> Signed.
Variable now : Z.

(** The payload of the token. *)
Definition payload (user : Row) : json :=
  JObj [("userId", col "id" user); ("email", col "email" user);
        ("tenantId", col "tenant_id" user); ("role", col "role" user)].

(** The [user] object of the response. *)
Definition user_json (user : Row) : json :=
  JObj [("id", col "id" user); ("email", col "email" user);
        ("first_name", col "first_name" user); ("last_name", col "last_name" user);
        ("role", col "role" user); ("tenant_id", col "tenant_id" user);
        ("tenant_name", col "tenant_name" user)].

(** [UPDATE users SET last_login = CURRENT_TIMESTAMP WHERE id = $1] *)
Definition touch (user : Row) (db : Tables) : Tables :=
  mkTables (update (fun r => cols_equal "id" r "id" user)
              (assign "last_login" (JNum (inject_Z now))) (users db))
           (tenants db).

(** POST /api/v1/auth/login; [req] is the request as the validation chain
    hands it to the handler, with the email normalized. *)
Definition login (req : Request) (db : Tables) : Tables * Handled :=
  match validationErrors req with
  | _ :: _ as errors => (db, Sent (mkResponse 400 (JObj [("errors", JArr errors)])))
  | [] =>
      match select_user (as_string (body_field "email" req)) db with
      | [] => (db, refusal 401 "Invalid credentials" "INVALID_CREDENTIALS")
      | user :: _ =>
          if negb (col_is "tenant_status" "active" user) then
            (db, refusal 403 "Tenant is not active" "TENANT_INACTIVE")
          else if negb (col_is "status" "active" user) then
            (db, refusal 403 "User account is not active" "USER_INACTIVE")
          else if negb (truthy (col "password_hash" user)) then
            (db, refusal 401 "Password not set. Please use SSO login." "SSO_REQUIRED")
          else
            match bcrypt_compare (body_field "password" req) (col "password_hash" user) with
            | CompareThrows e => (db, Threw e)
            | Differs => (db, refusal 401 "Invalid credentials" "INVALID_CREDENTIALS")
            | Matches =>
                match jwt_sign (payload user) with
                | SignThrows e => (touch user db, Threw e)
                | Token token =>
                    (touch user db,
                     Sent (json_ok (JObj [("token", JStr token); ("user", user_json user)])))
                end
            end
      end
  end.

End Routes.

End Login.

(** ** Further statements and sample data *)

Module Samples.
Import Json Express ErrorHandler Auth Audit App Db Scenario.

(** The levels in increasing order of severity. *)
Definition level_rank (l : Risk.RiskLevel) : nat :=
  match l with
  | Risk.low => 0
  | Risk.medium => 1
  | Risk.high => 2
  | Risk.critical => 3
  end.

(** Tenant B's contract, which Alice of tenant A asks for by id. *)
Definition contract_b : string := "b2b2b2b2-0000-4000-8000-0000000000a7".

Definition contracts0 : Contract.Tables :=
  Contract.mkTables
    [[("id", JStr contract_b); ("tenant_id", JStr tenant_b_id); ("vendor_id", JStr vendor_9);
      ("contract_type", JStr "MSA"); ("status", JStr "draft"); ("content", JStr "terms")]]
    [[("id", JStr vendor_9); ("tenant_id", JStr tenant_b_id); ("name", JStr "Globex");
      ("vendor_code", JStr "GLX")]]
    [] [] [].

Definition contract_request : Request :=
  request0 "GET" ("/api/v1/contracts/" ++ contract_b)%string ("/" ++ contract_b)%string
    (Some "Bearer jwt-alice") (Some contract_b) None.

(** The tenant a request carries after [tenantMiddleware]: the one it came
    with, when the middleware resolved none, or an active tenant of the
    table. *)
Definition tenant_resolved (tenants : list TenantRow) (before after : Request) : Prop :=
  req_tenantId after = req_tenantId before
  \/ exists t, In t tenants /\ t_status t = "active" /\ Js.truthy_string (t_id t) = true
               /\ req_tenantId after = Some (t_id t).

(** A request nobody has authenticated. *)
Definition anonymous_request : Request :=
  request0 "GET" "/api/v1/contracts" "/" None None None.


(** Tenant A's contract under review, with two versions on file, and the
    requests that create and lock contracts. *)
Definition contract_a : string := "a1a1a1a1-0000-4000-8000-0000000000a1".

Definition contracts1 : Contract.Tables :=
  Contract.mkTables
    [[("id", JStr contract_a); ("tenant_id", JStr tenant_a_id); ("vendor_id", JStr vendor_1);
      ("contract_type", JStr "MSA"); ("status", JStr "in_review"); ("content", JStr "terms")]]
    [[("id", JStr vendor_1); ("tenant_id", JStr tenant_a_id); ("name", JStr "Initech");
      ("vendor_code", JStr "INI")]]
    []
    [[("id", JStr "a1a1a1a1-0000-4000-8000-0000000000b1"); ("contract_id", JStr contract_a);
      ("version_number", JNum 1); ("content", JStr "first draft")];
     [("id", JStr "a1a1a1a1-0000-4000-8000-0000000000b2"); ("contract_id", JStr contract_a);
      ("version_number", JNum 2); ("content", JStr "terms")]]
    [].


Definition lock_request : Request :=
  request0 "POST" ("/api/v1/contracts/" ++ contract_a ++ "/lock")%string
    ("/" ++ contract_a ++ "/lock")%string (Some "Bearer jwt-alice") (Some contract_a) None.



Definition shown_as_object (v : json) : string := "[object Object]".
Definition version_id0 (n : nat) : string := ("version-" ++ decimal n)%string.







(** The risk router with a provider that rates every vendor at 80, and a
    buyer_admin who requests an assessment and then acknowledges an alert. *)
Definition alert_1 : string := "a1a1a1a1-0000-4000-8000-0000000000d3".

Definition risk_perform (op : RiskAlerts.Op)
  : Request -> Risk.World -> Risk.World * Handled :=
  RiskAlerts.perform provider_80 no_errors assessment_1 master_1 0 keep_order keep_order
    foreign_key_violation assessment_accepted op.

Definition acknowledge_request : Request :=
  request0 "POST" ("/api/v1/risk/alerts/" ++ alert_1 ++ "/acknowledge")%string
    ("/alerts/" ++ alert_1 ++ "/acknowledge")%string (Some "Bearer jwt-alice") (Some alert_1) None.

Definition assess_then_acknowledge : list (RiskAlerts.Op * Request) :=
  [(RiskAlerts.CreateAssessment, as_alice assessment_request);
   (RiskAlerts.AcknowledgeAlert, as_alice acknowledge_request)].

(** The status each request of a session was answered with; 500 for an
    error passed to the error handler. *)
Definition statuses (hs : list Handled) : list Z :=
  map (fun h => match h with Sent r => res_status r | Threw _ => 500 end) hs.

(** An onboarding request for tenant A's vendor. *)
Definition onboarding_1 : string := "a1a1a1a1-0000-4000-8000-0000000000e5".

Definition onboarding_request : Request :=
  request0 "POST" "/api/v1/procurement/onboarding" "/onboarding" (Some "Bearer jwt-alice") None
    (Some (JObj [("vendor_id", JStr vendor_1)])).

Definition onboarding_accepted (db : Onboarding.Tables) (r : Row) : option JsError := None.

Definition onboarding0 : Onboarding.Tables :=
  Onboarding.mkTables []
    [[("id", JStr vendor_1); ("tenant_id", JStr tenant_a_id); ("name", JStr "Initech")]].


(** What identifies an invitation: the RFP and the vendor. *)
Definition invitation_key (i : Row) : json * json := (col "rfp_id" i, col "vendor_id" i).

(** An invitation for the RFP of the path, pending, for a vendor id of the
    list that belongs to a vendor of the caller's tenant. *)
Definition invited (req : Request) (vendors : Table) (ids : list json) (r : Row) : Prop :=
  col "rfp_id" r = of_option_string (req_params_id req)
  /\ col "status" r = JStr "pending"
  /\ In (col "vendor_id" r) ids
  /\ exists v, In v vendors
               /\ col_is_param "tenant_id" (req_tenantId req) v = true
               /\ col "id" v = col "vendor_id" r.

(** Tenant A's draft RFP, owned by Alice, with a vendor of each tenant on
    file. *)
Definition invitation_id0 (n : nat) : string := ("invitation-" ++ decimal n)%string.
Definition section_1 : string := "a1a1a1a1-0000-4000-8000-0000000000c5".
Definition section_number0 (count : nat) : json := JNum (inject_Z (Z.of_nat (S count))).

Definition section_accepted (db : RfpAuthoring.Tables) (r : Row) : option JsError := None.
Definition invitation_accepted (t : Table) (r : Row) : option JsError := None.

Definition authoring0 : RfpAuthoring.Tables :=
  RfpAuthoring.mkTables
    [[("id", JStr rfp_a); ("tenant_id", JStr tenant_a_id); ("owner_id", JStr alice_id);
      ("title", JStr "Fleet renewal"); ("status", JStr "draft"); ("due_date", JNull)]]
    [] []
    [[("id", JStr vendor_1); ("tenant_id", JStr tenant_a_id); ("name", JStr "Initech")];
     [("id", JStr vendor_9); ("tenant_id", JStr tenant_b_id); ("name", JStr "Globex")]].

Definition publish_request : Request :=
  request0 "POST" ("/api/v1/rfp/" ++ rfp_a ++ "/publish")%string
    ("/" ++ rfp_a ++ "/publish")%string (Some "Bearer jwt-alice") (Some rfp_a) None.

Definition section_request : Request :=
  request0 "POST" ("/api/v1/rfp/" ++ rfp_a ++ "/sections")%string
    ("/" ++ rfp_a ++ "/sections")%string (Some "Bearer jwt-alice") (Some rfp_a)
    (Some (JObj [("title", JStr "Scope"); ("section_type", JStr "technical")])).

(** Alice invites her vendor twice and a vendor of tenant B. *)
Definition invite_request : Request :=
  request0 "POST" ("/api/v1/rfp/" ++ rfp_a ++ "/invite")%string
    ("/" ++ rfp_a ++ "/invite")%string (Some "Bearer jwt-alice") (Some rfp_a)
    (Some (JObj [("vendor_ids", JArr [JStr vendor_1; JStr vendor_9; JStr vendor_1])])).

(** Accounts for the login route: Alice of the active tenant A, and Carol of
    a suspended tenant. *)
Definition tenant_c_id : string := "c3c3c3c3-0000-4000-8000-000000000003".
Definition carol_id : string := "c3c3c3c3-0000-4000-8000-0000000000cc".

Definition accounts0 : Login.Tables :=
  Login.mkTables
    [[("id", JStr alice_id); ("tenant_id", JStr tenant_a_id); ("email", JStr "alice@acme.test");
      ("password_hash", JStr "$2a$10$alice"); ("role", JStr "buyer_admin");
      ("status", JStr "active"); ("last_login", JNull)];
     [("id", JStr carol_id); ("tenant_id", JStr tenant_c_id); ("email", JStr "carol@cyber.test");
      ("password_hash", JStr "$2a$10$carol"); ("role", JStr "buyer_admin");
      ("status", JStr "active"); ("last_login", JNull)]]
    [[("id", JStr tenant_a_id); ("name", JStr "Acme"); ("status", JStr "active")];
     [("id", JStr tenant_c_id); ("name", JStr "Cyberdyne"); ("status", JStr "suspended")]].

Definition login_request (email password : string) : Request :=
  request0 "POST" "/api/v1/auth/login" "/login" None None
    (Some (JObj [("email", JStr email); ("password", JStr password)])).

(** Every password is wrong. *)
Definition never_matches (password : option json) (hash : json) : Login.Compared :=
  Login.Differs.

Definition sign0 (payload : json) : Login.Signed := Login.Token "jwt-alice".

(** The codes with which the login route answers on the state of an
    account. *)
Definition account_state_codes : list string :=
  ["TENANT_INACTIVE"; "USER_INACTIVE"; "SSO_REQUIRED"].


(** The performance tables with a vendor of each tenant, Alice's listing of
    her tenant's penalties, and her penalty against tenant B's vendor. *)
Definition perf1 : Performance.Tables :=
  Performance.mkTables
    [[("id", JStr vendor_1); ("tenant_id", JStr tenant_a_id); ("name", JStr "Initech")];
     [("id", JStr vendor_9); ("tenant_id", JStr tenant_b_id); ("name", JStr "Globex")]]
    [] []
    [[("id", JStr penalty_1); ("tenant_id", JStr tenant_a_id); ("vendor_id", JStr vendor_1);
      ("amount", JNum 100); ("ai_suggested", JBool true); ("status", JStr "pending");
      ("approved_by", JNull); ("approved_at", JNull)]].

Definition list_penalties_request : Request :=
  request0 "GET" "/api/v1/performance/penalties" "/penalties" (Some "Bearer jwt-alice") None None.

Definition foreign_vendor_penalty_request : Request :=
  request0 "POST" "/api/v1/performance/penalties" "/penalties" (Some "Bearer jwt-alice") None
    (Some (JObj [("vendor_id", JStr vendor_9); ("penalty_type", JStr "late_delivery");
                 ("amount", JNum 250); ("reason", JStr "missed SLA")])).

(** Two purchase orders of tenant A whose ids start with the same eight
    characters; the first has failed to sync. *)
Definition po_2 : string := "7c9e6679-0000-4000-8000-0000000000e8".

Definition proc1 : Procurement.World :=
  Procurement.mkWorld
    [[("id", JStr po_1); ("tenant_id", JStr tenant_a_id); ("vendor_id", JStr vendor_1);
      ("erp_system", JStr "SAP"); ("erp_po_id", JNull); ("erp_sync_status", JStr "failed");
      ("erp_sync_error", JStr "connect ETIMEDOUT")];
     [("id", JStr po_2); ("tenant_id", JStr tenant_a_id); ("vendor_id", JStr vendor_1);
      ("erp_system", JStr "SAP"); ("erp_po_id", JNull); ("erp_sync_status", JStr "pending");
      ("erp_sync_error", JNull)]]
    [] [] [].


(** Tenant B's RFP has one submitted response; Alice, of tenant A, asks for
    its evaluation. *)
Definition evaluation0 : RfpEvaluation.Tables :=
  RfpEvaluation.mkTables
    [[("id", JStr response_b); ("rfp_id", JStr rfp_b); ("vendor_id", JStr vendor_9);
      ("status", JStr "submitted")]]
    [[("id", JStr vendor_9); ("tenant_id", JStr tenant_b_id); ("name", JStr "Globex")]]
    [].

Definition evaluate_request : Request :=
  request0 "POST" ("/api/v1/rfp/" ++ rfp_b ++ "/evaluate")%string
    ("/" ++ rfp_b ++ "/evaluate")%string (Some "Bearer jwt-alice") (Some rfp_b) None.

Definition drawn_50 (n : nat) : Q := 50.
Definition score_id0 (n : nat) : string := ("score-" ++ decimal n)%string.

(** The weights stored with the rows of one evaluation. *)
Definition weights (rows : Table) : list Q :=
  flat_map (fun r => match col "weight" r with JNum q => [q] | _ => [] end) rows.

End Samples.

(** * Properties *)

Import Json Express ErrorHandler Auth Audit App Db Scenario Samples.
Open Scope list_scope.

(** ** Strings and JSON objects *)

Lemma substring_all : forall s, String.substring 0 (String.length s) s = s.
Proof.
  induction s as [|c s IH]; simpl; [reflexivity | now rewrite IH].
Qed.

Lemma bearer_token : forall token,
  Js.substringFrom 7 ("Bearer " ++ token)%string = token.
Proof.
  intros token. unfold Js.substringFrom. simpl.
  rewrite Nat.sub_0_r. apply substring_all.
Qed.

Lemma bearer_accepted : forall token,
  negb (Js.truthy_string ("Bearer " ++ token)%string)
  || negb (Js.startsWith ("Bearer " ++ token)%string "Bearer ") = false.
Proof.
  intros token. unfold Js.startsWith. simpl. now destruct token.
Qed.

Lemma assoc_set_same : forall k v fields, assoc k (set k v fields) = Some v.
Proof.
  induction fields as [|[k' v'] rest IH]; simpl.
  - now rewrite String.eqb_refl.
  - destruct (String.eqb_spec k' k) as [->|Hne]; simpl.
    + now rewrite String.eqb_refl.
    + destruct (String.eqb_spec k' k); [contradiction | exact IH].
Qed.

Lemma assoc_set_other : forall k k' v fields,
  k <> k' -> assoc k (set k' v fields) = assoc k fields.
Proof.
  induction fields as [|[k0 v0] rest IH]; intros Hne; simpl.
  - destruct (String.eqb_spec k' k); [congruence | reflexivity].
  - destruct (String.eqb_spec k0 k') as [->|Hk0]; simpl.
    + destruct (String.eqb_spec k' k); [congruence | reflexivity].
    + destruct (String.eqb_spec k0 k); [reflexivity | now apply IH].
Qed.

Lemma set_known : forall k v fields, assoc k fields = Some v -> set k v fields = fields.
Proof.
  induction fields as [|[k' v'] rest IH]; simpl; intros H; [discriminate|].
  destruct (String.eqb_spec k' k) as [->|Hne].
  - now inversion H.
  - now rewrite IH.
Qed.

Lemma col_is_assign_other : forall k k' s v r,
  k <> k' -> col_is k s (assign k' v r) = col_is k s r.
Proof.
  intros. unfold col_is, assign. now rewrite assoc_set_other.
Qed.

Lemma col_assign_same : forall k v r, col k (assign k v r) = v.
Proof.
  intros. unfold col, assign. now rewrite assoc_set_same.
Qed.

Lemma col_assign_other : forall k k' v r,
  k <> k' -> col k (assign k' v r) = col k r.
Proof.
  intros. unfold col, assign. now rewrite assoc_set_other.
Qed.

Lemma update_none : forall p f (t : Table),
  (forall r, In r t -> p r = false) -> update p f t = t.
Proof.
  unfold update. induction t as [|r t IH]; simpl; intros H; [reflexivity|].
  rewrite (H r) by now left. f_equal. apply IH. intros; apply H; now right.
Qed.

Lemma update_app : forall p f (t1 t2 : Table),
  update p f (t1 ++ t2) = update p f t1 ++ update p f t2.
Proof.
  intros. unfold update. apply map_app.
Qed.

(** ** C3: the authorization gate *)

(** C3.  [authorize(...allowedRoles)] on a request that carries a resolved
    user is exactly the membership test of the user's role in the declared
    roles: a member proceeds, anyone else receives 403 PERMISSION_DENIED
    naming the required roles and the caller's role; with no role declared
    nobody proceeds, whatever the role, and no request at all is let
    through. *)
Theorem authorize_is_membership_test :
  forall (allowedRoles : list string) (u : ReqUser) (req : Request),
    authorize allowedRoles (set_user u req)
    = (if in_dec string_dec (ru_role u) allowedRoles
       then Next (set_user u req)
       else Responded (mkResponse 403
              (JObj [("error", JStr "Insufficient permissions");
                     ("code", JStr "PERMISSION_DENIED");
                     ("required", JArr (map JStr allowedRoles));
                     ("current", JStr (ru_role u))])))
    /\ authorize [] (set_user u req)
       = Responded (mkResponse 403
              (JObj [("error", JStr "Insufficient permissions");
                     ("code", JStr "PERMISSION_DENIED");
                     ("required", JArr []);
                     ("current", JStr (ru_role u))]))
    /\ (forall r r', authorize [] r <> Next r').
Proof.
  intros allowedRoles u req. split; [|split].
  - unfold authorize. cbn [req_user set_user].
    destruct (in_dec string_dec (ru_role u) allowedRoles) as [Hin|Hout].
    + assert (E : existsb (fun r => (r =? ru_role u)%string) allowedRoles = true).
      { apply existsb_exists. exists (ru_role u). split; [exact Hin | apply String.eqb_refl]. }
      now rewrite E.
    + assert (E : existsb (fun r => (r =? ru_role u)%string) allowedRoles = false).
      { apply not_true_is_false. intros H. apply existsb_exists in H.
        destruct H as [r [Hin Heq]]. apply String.eqb_eq in Heq. subst r. contradiction. }
      now rewrite E.
  - reflexivity.
  - intros r r'. unfold authorize. destruct (req_user r); simpl; discriminate.
Qed.

(** ** C2: the credential verifier *)

Section Credential.
Variable env : Env.
Variable jwt_verify : string -> JwtResult.
Variable audit_insert : AuditRow -> option JsError.
Variable now : Z.
Variable stringify : json -> string.
Variable tenants : list TenantRow.
Variable users : list UserRow.
Context {S : Type}.
Variable route : Route S.

Lemma serve_missing_credential : forall req s,
  req_authorization req = None ->
  rejected_without_effect
    (serve env jwt_verify audit_insert now stringify tenants users route req s) s
    "Authentication required" "AUTH_REQUIRED" [].
Proof.
  intros req s H. unfold rejected_without_effect, serve, dispatch, authenticate.
  cbn. rewrite H. cbn. repeat split; reflexivity.
Qed.

Lemma serve_rejected_token : forall req s token e,
  req_authorization req = Some ("Bearer " ++ token)%string ->
  jwt_verify token = JwtThrows e ->
  (err_name e = "TokenExpiredError" \/ err_name e = "JsonWebTokenError") ->
  rejected_without_effect
    (serve env jwt_verify audit_insert now stringify tenants users route req s) s
    "Invalid or expired token"
    (if (err_name e =? "TokenExpiredError")%string then "TOKEN_EXPIRED" else "INVALID_TOKEN")
    [EvJwtVerify token].
Proof.
  intros req s token e Hh Hj Hn.
  unfold rejected_without_effect, serve, dispatch, authenticate.
  cbn [incoming req_authorization]. rewrite Hh, bearer_accepted, bearer_token, Hj.
  assert (E : ((err_name e =? "JsonWebTokenError") || (err_name e =? "TokenExpiredError"))%string = true).
  { destruct Hn as [-> | ->]; reflexivity. }
  rewrite E. cbn. repeat split; reflexivity.
Qed.

Lemma verification_precedes_lookup : forall req s,
  let run := serve env jwt_verify audit_insert now stringify tenants users route req s in
  run_events run = [] \/ exists token rest, run_events run = EvJwtVerify token :: rest.
Proof.
  intros req s. unfold serve, dispatch, authenticate. cbn [incoming req_authorization].
  destruct (req_authorization req) as [h|]; [|left; reflexivity].
  destruct (negb (Js.truthy_string h) || negb (Js.startsWith h "Bearer ")); [left; reflexivity|].
  right. exists (Js.substringFrom 7 h).
  destruct (jwt_verify (Js.substringFrom 7 h)) as [uid|e].
  - destruct (active_user_rows tenants users uid) as [|ut rows]; cbn; [eexists; reflexivity|].
    match goal with
    | |- context [Tenant.tenantMiddleware ?a ?b ?c] => destruct (Tenant.tenantMiddleware a b c) as [o c' ev]
    end.
    cbn. destruct o as [r|err|req']; cbn.
    all: try (eexists; reflexivity).
    all: match goal with |- context [if ?b then _ else _] => destruct b end; cbn; eexists; reflexivity.
  - destruct ((err_name e =? "JsonWebTokenError") || (err_name e =? "TokenExpiredError"))%string;
      cbn; eexists; reflexivity.
Qed.

(** C2.  On a protected endpoint the verifier answers before anything else
    runs: without an [Authorization] header the response is 401
    AUTH_REQUIRED and not even a verification happened; with a bearer token
    that [jwt.verify] rejects as expired it is 401 TOKEN_EXPIRED, and as
    otherwise invalid (bad signature) 401 INVALID_TOKEN.  In the three cases
    no query was issued, no handler was entered, the module's tables are as
    before, nothing went to the console and no audit row was attempted.
    Whenever a request causes any verification or query at all, the first
    of them is the token verification. *)
Theorem credential_failures_are_distinguished_and_effect_free :
  forall (req : Request) (s : S),
    let run := serve env jwt_verify audit_insert now stringify tenants users route req s in
    (req_authorization req = None ->
     rejected_without_effect run s "Authentication required" "AUTH_REQUIRED" [])
    /\ (forall token e,
          req_authorization req = Some ("Bearer " ++ token)%string ->
          jwt_verify token = JwtThrows e ->
          err_name e = "TokenExpiredError" ->
          rejected_without_effect run s "Invalid or expired token" "TOKEN_EXPIRED"
            [EvJwtVerify token])
    /\ (forall token e,
          req_authorization req = Some ("Bearer " ++ token)%string ->
          jwt_verify token = JwtThrows e ->
          err_name e = "JsonWebTokenError" ->
          rejected_without_effect run s "Invalid or expired token" "INVALID_TOKEN"
            [EvJwtVerify token])
    /\ (run_events run = [] \/ exists token rest, run_events run = EvJwtVerify token :: rest).
Proof.
  intros req s run. subst run. split; [|split; [|split]].
  - now apply serve_missing_credential.
  - intros token e Hh Hj Hn.
    pose proof (serve_rejected_token req s token e Hh Hj (or_introl Hn)) as H.
    now rewrite Hn in H.
  - intros token e Hh Hj Hn.
    pose proof (serve_rejected_token req s token e Hh Hj (or_intror Hn)) as H.
    now rewrite Hn in H.
  - apply verification_precedes_lookup.
Qed.

End Credential.

(** ** The chain in front of a handler *)

Lemma prefix_split : forall p s,
  String.prefix p s = true -> exists rest, s = (p ++ rest)%string.
Proof.
  induction p as [|c p IH]; intros s H; simpl in *.
  - now exists s.
  - destruct s as [|c' s]; [discriminate|]. simpl in H.
    destruct (ascii_dec c c') as [<-|]; [|discriminate].
    destruct (IH s H) as [rest ->]. now exists rest.
Qed.

(** No module router is mounted under the prefix [tenantMiddleware] skips. *)
Lemma mount_not_under_auth : forall url m,
  Js.startsWith url "/api/v1/auth" = true ->
  Js.startsWith url ("/api/v1" ++ mount_path m)%string = false.
Proof.
  unfold Js.startsWith. intros url m H.
  destruct (prefix_split _ _ H) as [rest ->].
  destruct m; reflexivity.
Qed.

Lemma filter_head : forall (A : Type) (p : A -> bool) (l : list A) x rest,
  filter p l = x :: rest -> p x = true /\ In x l.
Proof.
  intros A p l x rest H.
  assert (Hin : In x (filter p l)) by (rewrite H; now left).
  apply filter_In in Hin. tauto.
Qed.

Section Chain.
Variable env : Env.
Variable jwt_verify : string -> JwtResult.
Variable audit_insert : AuditRow -> option JsError.
Variable now : Z.
Variable stringify : json -> string.
Variable tenants : list TenantRow.
Variable users : list UserRow.
Context {S : Type}.
Variable route : Route S.
Hypothesis default_prefix : API_PREFIX env = "/api/v1".

(** [authenticate] reads the [Authorization] header and nothing else of the
    request. *)
Lemma authenticate_again : forall req req1 u,
  req_authorization req1 = req_authorization req ->
  step_out (authenticate jwt_verify tenants users req) = Next (set_user u req) ->
  authenticate jwt_verify tenants users req1
  = mkStep (Next (set_user u req1)) []
      (step_events (authenticate jwt_verify tenants users req)).
Proof.
  intros req req1 u Hh. unfold authenticate. rewrite Hh.
  destruct (req_authorization req) as [h|]; cbn; [|discriminate].
  destruct (negb (Js.truthy_string h) || negb (Js.startsWith h "Bearer ")); cbn; [discriminate|].
  destruct (jwt_verify (Js.substringFrom 7 h)) as [uid|e].
  - destruct (active_user_rows tenants users uid) as [|ut rows]; cbn; [discriminate|].
    intros H. injection H as ->. reflexivity.
  - destruct ((err_name e =? "JsonWebTokenError") || (err_name e =? "TokenExpiredError"))%string;
      cbn; discriminate.
Qed.

Lemma authenticate_next : forall req req',
  step_out (authenticate jwt_verify tenants users req) = Next req' ->
  exists u, req' = set_user u req.
Proof.
  intros req req'. unfold authenticate.
  destruct (req_authorization req) as [h|]; cbn; [|discriminate].
  destruct (negb (Js.truthy_string h) || negb (Js.startsWith h "Bearer ")); cbn; [discriminate|].
  destruct (jwt_verify (Js.substringFrom 7 h)) as [uid|e].
  - destruct (active_user_rows tenants users uid) as [|ut rows]; cbn; [discriminate|].
    intros H. injection H as <-. now exists (req_user_of ut).
  - destruct ((err_name e =? "JsonWebTokenError") || (err_name e =? "TokenExpiredError"))%string;
      cbn; discriminate.
Qed.

Lemma authenticate_events : forall req,
  ~ In EvHandler (step_events (authenticate jwt_verify tenants users req)).
Proof.
  intros req. unfold authenticate.
  repeat match goal with
         | |- context [match ?x with _ => _ end] => destruct x
         end; cbn; intuition discriminate.
Qed.

Lemma tenantMiddleware_events : forall req,
  ~ In EvHandler (step_events (Tenant.tenantMiddleware env tenants req)).
Proof.
  intros req. unfold Tenant.tenantMiddleware.
  repeat match goal with
         | |- context [match ?x with _ => _ end] => destruct x
         end; cbn; intuition discriminate.
Qed.

(** What [tenantMiddleware] attaches when it lets a request through to a
    module router: an active tenant of the table, with a non-empty id. *)
Lemma tenantMiddleware_next : forall req req',
  Js.startsWith (req_originalUrl req) "/api/v1/auth" = false ->
  step_out (Tenant.tenantMiddleware env tenants req) = Next req' ->
  exists t, req' = set_tenant t req /\ In t tenants
            /\ t_status t = "active" /\ Js.truthy_string (t_id t) = true.
Proof.
  intros req req' Hurl. unfold Tenant.tenantMiddleware. rewrite Hurl.
  set (tid := match Tenant.user_tenant req with
              | Some t => Some t
              | None => if is_development env then Tenant.truthy_id (DEFAULT_TENANT_ID env) else None
              end).
  assert (Htid : forall x, tid = Some x -> Js.truthy_string x = true).
  { subst tid. intros x. unfold Tenant.user_tenant, Tenant.truthy_id.
    destruct (req_user req) as [u|].
    - destruct (Js.truthy_string (ru_tenant_id u)) eqn:E.
      + intros H; inversion H; now subst.
      + destruct (is_development env); [|discriminate].
        destruct (DEFAULT_TENANT_ID env) as [d|]; [|discriminate].
        destruct (Js.truthy_string d) eqn:E'; [|discriminate].
        intros H; inversion H; now subst.
    - destruct (is_development env); [|discriminate].
      destruct (DEFAULT_TENANT_ID env) as [d|]; [|discriminate].
      destruct (Js.truthy_string d) eqn:E'; [|discriminate].
      intros H; inversion H; now subst. }
  destruct tid as [x|]; cbn; [|discriminate].
  destruct (filter (fun t => (t_id t =? x)%string) tenants) as [|t rest] eqn:F; cbn; [discriminate|].
  destruct (filter_head _ _ _ _ _ F) as [Hid Hin].
  apply String.eqb_eq in Hid.
  destruct (t_status t =? "active")%string eqn:Est; cbn; [|discriminate].
  intros H. injection H as <-. exists t. repeat split; try assumption.
  - now apply String.eqb_eq.
  - rewrite Hid. now apply Htid.
Qed.

(** The handler is given the request as the validation chain left it; the
    listener reads that request, or, when the handler threw, that request
    with the path and the parameters restored. *)
Lemma router_handler_reached : forall req u s,
  step_out (authenticate jwt_verify tenants users req) = Next (set_user u req) ->
  forall req2, req_authorization req2 = req_authorization req ->
  In EvHandler (sv_events (router env jwt_verify tenants users route req2 s)) ->
  exists handled,
    handled = sanitized route (set_user u req2)
    /\ (sv_req (router env jwt_verify tenants users route req2 s) = handled
        \/ sv_req (router env jwt_verify tenants users route req2 s) = passed_on handled)
    /\ sv_state (router env jwt_verify tenants users route req2 s)
       = fst (route_handler route handled s).
Proof.
  intros req u s Ha req2 Hh. unfold router.
  rewrite (authenticate_again req req2 u Hh Ha). cbn [step_out step_events step_console].
  destruct (match route_roles route with
            | Some roles => authorize roles (sanitized route (set_user u req2))
            | None => Next (sanitized route (set_user u req2))
            end) as [r|e|req3] eqn:G; cbn.
  - intros H. now apply authenticate_events in H.
  - intros H. now apply authenticate_events in H.
  - assert (E : req3 = sanitized route (set_user u req2)).
    { destruct (route_roles route) as [roles|].
      - unfold authorize in G. cbn in G.
        destruct (negb (existsb (fun r => (r =? ru_role u)%string) roles)); [discriminate|].
        now inversion G.
      - now inversion G. }
    subst req3. intros _. exists (sanitized route (set_user u req2)).
    split; [reflexivity|].
    destruct (route_handler route (sanitized route (set_user u req2)) s) as [s' [r|e]];
      cbn; split; auto.
Qed.

(** A request that enters a handler carries, when its response finishes, the
    user [authenticate] resolved, an active tenant of the table and the body
    the route's validation chain left. *)
Lemma dispatch_handler_reached : forall req s,
  In EvHandler (sv_events (dispatch env jwt_verify tenants users route req s)) ->
  exists u t handled,
    handled = sanitized route (set_user u (set_tenant t (set_user u req)))
    /\ (sv_req (dispatch env jwt_verify tenants users route req s) = handled
        \/ sv_req (dispatch env jwt_verify tenants users route req s) = passed_on handled)
    /\ sv_state (dispatch env jwt_verify tenants users route req s)
       = fst (route_handler route handled s)
    /\ In t tenants /\ t_status t = "active" /\ Js.truthy_string (t_id t) = true.
Proof.
  intros req s. unfold dispatch. rewrite default_prefix.
  pose proof (authenticate_events req) as Ha.
  pose proof (authenticate_next req) as Hn.
  destruct (authenticate jwt_verify tenants users req) as [o c ev] eqn:A.
  cbn [step_out step_events step_console] in *.
  destruct o as [r|e|req1]; cbn [sv_events sv_req errorHandler]; try (intros H; contradiction).
  destruct (Hn req1 eq_refl) as [u ->].
  pose proof (tenantMiddleware_events (set_user u req)) as Ht.
  pose proof (tenantMiddleware_next (set_user u req)) as Htn.
  destruct (Tenant.tenantMiddleware env tenants (set_user u req)) as [o' c' ev'] eqn:T.
  cbn [step_out step_events step_console] in *.
  destruct o' as [r|e|req2]; cbn [sv_events sv_req errorHandler].
  - intros H. apply in_app_or in H. tauto.
  - intros H. apply in_app_or in H. tauto.
  - destruct (Js.startsWith (req_originalUrl req2) ("/api/v1" ++ mount_path (route_mount route))%string) eqn:M;
      cbn [sv_events sv_req].
    + destruct (Js.startsWith (req_originalUrl req) "/api/v1/auth") eqn:U.
      * exfalso. unfold Tenant.tenantMiddleware in T.
        change (req_originalUrl (set_user u req)) with (req_originalUrl req) in T.
        rewrite U in T. inversion T; subst.
        change (req_originalUrl (set_user u req)) with (req_originalUrl req) in M.
        rewrite (mount_not_under_auth _ _ U) in M. discriminate.
      * destruct (Htn req2 U eq_refl) as [t [-> [Hin [Hst Hid]]]].
        intros H. apply in_app_or in H. destruct H as [H|H]; [contradiction|].
        apply in_app_or in H. destruct H as [H|H]; [contradiction|].
        destruct (router_handler_reached req u s) with (req2 := set_tenant t (set_user u req))
          as [handled [Hh [Hr Hs]]];
          [now rewrite A | reflexivity | exact H |].
        exists u, t, handled. tauto.
    + intros H. apply in_app_or in H. tauto.
Qed.

End Chain.

(** ** C4 and C5: the audit recorder *)

Lemma redact_same : forall k fields,
  truthy_opt (assoc k fields) = true -> assoc k (redact k fields) = Some REDACTED.
Proof.
  intros k fields H. unfold redact. rewrite H. apply assoc_set_same.
Qed.

Lemma redact_other : forall k k' fields,
  k <> k' -> assoc k (redact k' fields) = assoc k fields.
Proof.
  intros k k' fields H. unfold redact.
  destruct (truthy_opt (assoc k' fields)); [now apply assoc_set_other | reflexivity].
Qed.

Lemma redact_falsy : forall k fields,
  truthy_opt (assoc k fields) = false -> redact k fields = fields.
Proof.
  intros k fields H. unfold redact. now rewrite H.
Qed.

(** What [sanitizeBody] does to the top-level fields of a truthy body. *)
Lemma sanitizeBody_fields : forall b,
  truthy b = true ->
  exists fields,
    sanitizeBody (Some b) = JObj fields
    /\ forall k,
         (In k secret_names -> truthy_opt (assoc k (spread b)) = true ->
          assoc k fields = Some REDACTED)
         /\ (In k secret_names -> truthy_opt (assoc k (spread b)) = false ->
             assoc k fields = assoc k (spread b))
         /\ (~ In k secret_names -> assoc k fields = assoc k (spread b)).
Proof.
  intros b Hb. unfold sanitizeBody. rewrite Hb. cbn [negb].
  eexists. split; [reflexivity|]. intros k. unfold secret_names. cbn [In].
  split; [|split].
  - intros [<-|[<-|[<-|[]]]] H.
    + rewrite !redact_other by discriminate. now apply redact_same.
    + rewrite redact_other by discriminate. apply redact_same.
      now rewrite redact_other by discriminate.
    + apply redact_same. now rewrite !redact_other by discriminate.
  - intros [<-|[<-|[<-|[]]]] H.
    + rewrite !redact_other by discriminate. now rewrite redact_falsy.
    + rewrite redact_other by discriminate.
      rewrite redact_falsy; [apply redact_other; discriminate|].
      now rewrite redact_other by discriminate.
    + rewrite redact_falsy; [now rewrite !redact_other by discriminate|].
      now rewrite !redact_other by discriminate.
  - intros H.
    assert (k <> "password" /\ k <> "password_hash" /\ k <> "token") as [H1 [H2 H3]].
    { repeat split; intros ->; apply H; tauto. }
    now rewrite !redact_other by assumption.
Qed.

(** C4, as the code has it.  A request that enters a handler behind the
    chain (with the routers mounted under the default prefix) has exactly one
    audit row handed to the INSERT, whether the handler answered or threw and
    whether the INSERT then stores the row or fails.  The row's detail holds
    [sanitizeBody(req.body)] of the body the listener finds, which is the
    body as the sanitizers of the route's validation chain left it (the sent
    body on a route without sanitizers).  It is computed on a copy (the
    request keeps that body) before the INSERT is attempted: every top-level
    field of that body named password, password_hash or token whose value is
    truthy holds the placeholder ['[REDACTED]'], and every other top-level
    field of it, a falsy secret included, is stored unchanged. *)
Theorem privileged_request_audited_once_with_top_level_redaction :
  forall (env : Env) (jwt_verify : string -> JwtResult)
         (audit_insert : AuditRow -> option JsError) (now : Z) (stringify : json -> string)
         (tenants : list TenantRow) (users : list UserRow)
         (S : Type) (route : Route S) (req : Request) (s : S),
    API_PREFIX env = "/api/v1" ->
    let run := serve env jwt_verify audit_insert now stringify tenants users route req s in
    In EvHandler (run_events run) ->
    exists row,
      fin_attempts (run_audit run) = [row]
      /\ fin_inserted (run_audit run)
         = match audit_insert row with None => [row] | Some _ => [] end
      /\ req_body (run_req run) = route_sanitize route (req_body req)
      /\ get "body" (a_details row)
         = Some (sanitizeBody (route_sanitize route (req_body req)))
      /\ forall b, route_sanitize route (req_body req) = Some b -> truthy b = true ->
           exists fields,
             sanitizeBody (route_sanitize route (req_body req)) = JObj fields
             /\ forall k,
                  (In k secret_names -> truthy_opt (assoc k (spread b)) = true ->
                   assoc k fields = Some REDACTED)
                  /\ (In k secret_names -> truthy_opt (assoc k (spread b)) = false ->
                      assoc k fields = assoc k (spread b))
                  /\ (~ In k secret_names -> assoc k fields = assoc k (spread b)).
Proof.
  intros env jwt_verify audit_insert now stringify tenants users S route req s Hp run Hin.
  subst run. unfold serve in *. cbn [run_events run_audit run_req] in *.
  apply in_app_or in Hin. destruct Hin as [Hin|Hin].
  2:{ apply in_map_iff in Hin. destruct Hin as [x [Hx _]]. discriminate. }
  destruct (dispatch_handler_reached env jwt_verify tenants users route Hp _ _ Hin)
    as [u [t [handled [Hh [Hreq [_ [_ [_ Hid]]]]]]]].
  assert (E : Tenant.truthy_id (Some (t_id t)) = Some (t_id t)).
  { unfold Tenant.truthy_id. now rewrite Hid. }
  destruct Hreq as [Hreq|Hreq]; rewrite Hreq, Hh; unfold onFinish, sanitized;
    cbn [req_tenantId req_user req_body passed_on with_body set_user set_tenant incoming];
    rewrite E; unfold shouldAudit;
    cbn [req_user passed_on with_body set_user]; rewrite orb_true_r;
    match goal with
    | |- context [auditData now stringify ?r ?res (t_id t)] =>
        set (row := auditData now stringify r res (t_id t))
    end;
    (exists row; split; [|split; [|split; [|split]]];
     [ destruct (audit_insert row); reflexivity
     | destruct (audit_insert row); reflexivity
     | reflexivity
     | reflexivity
     | intros b Hb Ht; rewrite Hb; now apply sanitizeBody_fields ]).
Qed.

(** C5.  The response and the module's tables a request ends with are the
    ones it would end with had the audit INSERT succeeded, and the same row
    is handed to the INSERT; when the INSERT rejects the row, nothing is
    stored and the rejection is written to the process's error log as
    ['Audit log insertion failed:'] with the error. *)
Theorem audit_failure_spares_response_and_is_logged :
  forall (env : Env) (jwt_verify : string -> JwtResult)
         (audit_insert : AuditRow -> option JsError) (now : Z) (stringify : json -> string)
         (tenants : list TenantRow) (users : list UserRow)
         (S : Type) (route : Route S) (req : Request) (s : S),
    let run := serve env jwt_verify audit_insert now stringify tenants users route req s in
    let undisturbed := serve env jwt_verify (fun _ => None) now stringify tenants users route req s in
    run_response run = run_response undisturbed
    /\ run_state run = run_state undisturbed
    /\ fin_attempts (run_audit run) = fin_attempts (run_audit undisturbed)
    /\ forall row err,
         In row (fin_attempts (run_audit run)) -> audit_insert row = Some err ->
         fin_inserted (run_audit run) = []
         /\ In (mkLine "Audit log insertion failed:" err) (run_console run).
Proof.
  intros env jwt_verify audit_insert now stringify tenants users S route req s run undisturbed.
  subst run undisturbed. unfold serve. cbn [run_response run_state run_audit run_console].
  set (sv := dispatch env jwt_verify tenants users route (incoming req) s).
  unfold onFinish.
  destruct (Tenant.truthy_id (req_tenantId (sv_req sv))) as [tid|].
  2:{ repeat split; try reflexivity; cbn in *; contradiction. }
  destruct (shouldAudit (sv_req sv) (res_status (sv_response sv))).
  2:{ repeat split; try reflexivity; cbn in *; contradiction. }
  set (row := auditData now stringify (sv_req sv) (sv_response sv) tid).
  destruct (audit_insert row) as [e|] eqn:E; cbn [fin_attempts fin_inserted fin_console].
  - split; [reflexivity|]. split; [reflexivity|]. split; [reflexivity|].
    intros row' err [<-|[]] H. rewrite E in H. inversion H; subst.
    split; [reflexivity|]. apply in_or_app. right. now left.
  - split; [reflexivity|]. split; [reflexivity|]. split; [reflexivity|].
    intros row' err [<-|[]] H. rewrite E in H. discriminate.
Qed.

(** ** C6 and C7: purchase orders and the ERP hand-off *)

Lemma update_last : forall p f (old : Table) r,
  (forall x, In x old -> p x = false) -> p r = true ->
  update p f (old ++ [r]) = old ++ [f r].
Proof.
  intros p f old r Hold Hr. rewrite update_app, update_none by assumption.
  unfold update. cbn. now rewrite Hr.
Qed.

Lemma filter_last : forall (p : Row -> bool) (old : Table) r,
  (forall x, In x old -> p x = false) -> p r = true ->
  filter p (old ++ [r]) = [r].
Proof.
  intros p old r Hold Hr. rewrite filter_app. cbn. rewrite Hr.
  replace (filter p old) with (@nil Row); [reflexivity|].
  symmetry. induction old as [|x old IH]; cbn; [reflexivity|].
  rewrite (Hold x) by now left. apply IH. intros; apply Hold; now right.
Qed.

Section PurchaseOrders.
Import Procurement.
Variable new_po_id : string.
Variable poNumber : nat -> string.
Variable validationErrors : Request -> list json.

(** C6.  A request to create a purchase order with an ERP system named in
    the body starts no exchange with the ERP before the order's row is
    stored.  When the database rejects the row (it does when the body has
    no currency: the column is NOT NULL and the handler offers what the
    body holds) the request ends in the error handler with nothing stored
    and no exchange started.  When the database accepts the row, it is
    inserted before the ERP exchange starts.  When the hand-off then
    throws (the exchange fails, or it succeeds and the sync-log INSERT is
    rejected) the request still answers 201 and the table is the old table
    followed by the new row, with erp_sync_status 'failed', the error's
    message as erp_sync_error, and total_amount and line_items as sent.  A
    later manual sync of that order by its tenant whose exchange succeeds
    leaves the old rows and changes the order's row to erp_sync_status
    'synced' with total_amount and line_items as before; it answers 200
    when the sync-log INSERT is accepted. *)
Theorem failed_sync_is_annotated_and_resync_marks_synced :
  forall (erp_remote1 erp_remote2 : string -> json -> option JsError)
         (sync_log_insert1 sync_log_insert2 : option JsError)
         (log_id1 log_id2 : string) (now1 now2 : Z)
         (not_null : string -> JsError) (po_insert : Table -> Row -> option JsError)
         (req sync_req : Request) (u : ReqUser) (tid : string) (erp : json)
         (err : JsError) (w : World),
    validationErrors req = [] ->
    req_user req = Some u ->
    req_tenantId req = Some tid ->
    body_field "erp_system" req = Some erp ->
    truthy erp = true ->
    (forall r, In r (purchase_orders w) -> col_is "id" new_po_id r = false) ->
    (erp_remote1 new_po_id erp = Some err
     \/ (erp_remote1 new_po_id erp = None /\ sync_log_insert1 = Some err)) ->
    req_params_id sync_req = Some new_po_id ->
    req_tenantId sync_req = Some tid ->
    erp_remote2 new_po_id erp = None ->
    let offered := new_po new_po_id now1 poNumber req u (countOrders req w) in
    let verdict := insertPurchaseOrder not_null po_insert (purchase_orders w) offered in
    let created :=
      createPurchaseOrder erp_remote1 sync_log_insert1 new_po_id log_id1 now1 poNumber
        validationErrors not_null po_insert req w in
    let synced :=
      syncPurchaseOrder erp_remote2 sync_log_insert2 log_id2 now2 sync_req (fst created) in
    (currency_of req = JNull -> verdict = Some (not_null "currency"))
    /\ (forall rejection, verdict = Some rejection ->
          snd created = Threw rejection
          /\ purchase_orders (fst created) = purchase_orders w
          /\ trace (fst created) = trace w ++ [DbCountPO; DbInsertPORejected])
    /\ (verdict = None ->
        (exists po,
            snd created = Sent (mkResponse 201 (JObj [("purchase_order", JObj po)])))
        /\ (exists after,
              trace (fst created)
              = trace w ++ [DbCountPO; DbInsertPO new_po_id; ErpRemote new_po_id erp] ++ after)
        /\ (exists po,
              purchase_orders (fst created) = purchase_orders w ++ [po]
              /\ col "id" po = JStr new_po_id
              /\ col "erp_sync_status" po = JStr "failed"
              /\ col "erp_sync_error" po = JStr (err_message err)
              /\ col "total_amount" po = param (body_field "total_amount" req)
              /\ col "line_items" po = param (body_field "line_items" req))
        /\ (exists po,
              purchase_orders (fst synced) = purchase_orders w ++ [po]
              /\ col "id" po = JStr new_po_id
              /\ col "erp_sync_status" po = JStr "synced"
              /\ col "total_amount" po = param (body_field "total_amount" req)
              /\ col "line_items" po = param (body_field "line_items" req))
        /\ (sync_log_insert2 = None ->
            snd synced
            = Sent (json_ok (JObj [("message", JStr "PO synced to ERP successfully")])))).
Proof.
  intros erp_remote1 erp_remote2 log1 log2 log_id1 log_id2 now1 now2 not_null po_insert
    req sync_req u tid erp
    err w Hv Hu Ht Herp Htruthy Hfresh Hfail Hid Hst Hok offered verdict created synced.
  assert (Hstart : created
            = match verdict with
              | Some rejection =>
                  (log_event DbInsertPORejected (log_event DbCountPO w), Threw rejection)
              | None => created
              end).
  { subst created verdict offered. unfold createPurchaseOrder. rewrite Hv, Hu.
    change (countOrders req (log_event DbCountPO w)) with (countOrders req w).
    change (purchase_orders (log_event DbCountPO w)) with (purchase_orders w).
    destruct (insertPurchaseOrder not_null po_insert (purchase_orders w)
                (new_po new_po_id now1 poNumber req u (countOrders req w))); reflexivity. }
  split; [|split].
  { intros Hc. subst verdict offered. unfold insertPurchaseOrder.
    change (col "currency" (new_po new_po_id now1 poNumber req u (countOrders req w)))
      with (currency_of req).
    now rewrite Hc. }
  { intros rejection Hrej. rewrite Hstart, Hrej. cbn [fst snd]. unfold log_event.
    cbn [purchase_orders trace]. rewrite <- app_assoc. repeat split. }
  intros Hacc. clear Hstart.
  assert (Hcreated : exists po after,
    created = (mkWorld (purchase_orders w ++ [po]) (integration_sync_logs w)
                 (console w ++ [mkLine "ERP sync error:" err])
                 (trace w ++ [DbCountPO; DbInsertPO new_po_id; ErpRemote new_po_id erp] ++ after),
               Sent (mkResponse 201 (JObj [("purchase_order",
                  JObj (new_po new_po_id now1 poNumber req u (countOrders req w)))])))
    /\ col_is "id" new_po_id po = true
    /\ col_is "tenant_id" tid po = true
    /\ col "erp_system" po = erp
    /\ col "id" po = JStr new_po_id
    /\ col "erp_sync_status" po = JStr "failed"
    /\ col "erp_sync_error" po = JStr (err_message err)
    /\ col "total_amount" po = param (body_field "total_amount" req)
    /\ col "line_items" po = param (body_field "line_items" req)).
  { subst created. unfold createPurchaseOrder. rewrite Hv, Hu.
    change (countOrders req (log_event DbCountPO w)) with (countOrders req w).
    change (purchase_orders (log_event DbCountPO w)) with (purchase_orders w).
    subst verdict offered. rewrite Hacc.
    unfold log_event at 1. cbn [purchase_orders]. rewrite Herp. cbn [truthy_opt]. rewrite Htruthy.
    cbn [param]. unfold syncPOToERP.
    set (po0 := new_po new_po_id now1 poNumber req u _).
    assert (Hpo0 : col_is "id" new_po_id po0 = true).
    { unfold col_is. cbn. apply String.eqb_refl. }
    destruct Hfail as [Hr | [Hr Hl]]; rewrite Hr.
    - unfold log_event, with_orders, console_error.
      cbn [purchase_orders integration_sync_logs console trace].
      rewrite (update_last _ _ _ _ Hfresh Hpo0).
      eexists. exists [DbUpdatePO new_po_id]. split.
      + rewrite <- !app_assoc. reflexivity.
      + subst po0. unfold col_is, col, new_po. cbn. rewrite Ht, Herp. cbn.
        rewrite !String.eqb_refl. repeat split; reflexivity.
    - rewrite Hl. unfold log_event, with_orders, console_error.
      cbn [purchase_orders integration_sync_logs console trace].
      rewrite (update_last _ _ _ _ Hfresh Hpo0).
      rewrite update_last; [|exact Hfresh|unfold col_is; cbn; apply String.eqb_refl].
      eexists. exists [DbUpdatePO new_po_id; DbInsertSyncLog; DbUpdatePO new_po_id]. split.
      + rewrite <- !app_assoc. reflexivity.
      + subst po0. unfold col_is, col, new_po. cbn. rewrite Ht, Herp. cbn.
        rewrite !String.eqb_refl. repeat split; reflexivity. }
  destruct Hcreated as [po [after [Hc [Hpid [Hptid [Hperp [H1 [H2 [H3 [H4 H5]]]]]]]]]].
  assert (Hsel : forall x, In x (purchase_orders w) ->
            col_is_param "id" (Some new_po_id) x && col_is_param "tenant_id" (Some tid) x = false).
  { intros x Hx. cbn. now rewrite (Hfresh x Hx). }
  split; [|split; [|split; [|split]]].
  - rewrite Hc. eexists. reflexivity.
  - rewrite Hc. exists after. reflexivity.
  - rewrite Hc. exists po. cbn. tauto.
  - subst synced. rewrite Hc. cbn [fst]. unfold syncPurchaseOrder. rewrite Hid, Hst.
    unfold log_event at 1. cbn [purchase_orders].
    rewrite (filter_last _ _ po Hsel) by (cbn; now rewrite Hpid, Hptid).
    rewrite Hperp, Htruthy. cbn [negb]. unfold syncPOToERP. rewrite Hok.
    unfold log_event, with_orders, with_sync_logs. cbn [purchase_orders].
    rewrite (update_last _ _ _ _ Hfresh Hpid).
    eexists. split.
    + destruct log2; reflexivity.
    + repeat split.
      * rewrite !col_assign_other by discriminate. exact H1.
      * rewrite col_assign_other by discriminate. apply col_assign_same.
      * rewrite !col_assign_other by discriminate. exact H4.
      * rewrite !col_assign_other by discriminate. exact H5.
  - intros Hl2. subst synced. rewrite Hc. cbn [fst]. unfold syncPurchaseOrder. rewrite Hid, Hst.
    unfold log_event at 1. cbn [purchase_orders].
    rewrite (filter_last _ _ po Hsel) by (cbn; now rewrite Hpid, Hptid).
    rewrite Hperp, Htruthy. cbn [negb]. unfold syncPOToERP. rewrite Hok, Hl2. reflexivity.
Qed.

End PurchaseOrders.

Lemma filter_update : forall (p q : Row -> bool) f (t : Table),
  (forall r, p (f r) = p r) ->
  filter p (update q f t) = map (fun r => if q r then f r else r) (filter p t).
Proof.
  intros p q f t Hp. unfold update. induction t as [|r t IH]; cbn; [reflexivity|].
  assert (E : p (if q r then f r else r) = p r) by (destruct (q r); [apply Hp | reflexivity]).
  rewrite E. destruct (p r); cbn; now rewrite IH.
Qed.

Lemma update_idem : forall (q : Row -> bool) f (t : Table),
  (forall r, f (f r) = f r) -> (forall r, q (f r) = q r) ->
  update q f (update q f t) = update q f t.
Proof.
  intros q f t Hf Hq. unfold update. rewrite map_map. apply map_ext. intros r.
  destruct (q r) eqn:E; [now rewrite Hq, E, Hf | now rewrite E].
Qed.

Lemma assign_twice : forall a x b y (r : Row),
  a <> b ->
  assign a x (assign b y (assign a x (assign b y r))) = assign a x (assign b y r).
Proof.
  intros a x b y r Hab. unfold assign.
  rewrite (set_known b y (set a x (set b y r))).
  - apply set_known. apply assoc_set_same.
  - rewrite assoc_set_other by congruence. apply assoc_set_same.
Qed.

Section Resync.
Import Procurement.

Lemma sync_once : forall erp_remote sync_log_insert log_id now req id tid po rest w,
  req_params_id req = Some id ->
  req_tenantId req = Some tid ->
  filter (fun r => col_is "id" id r && col_is "tenant_id" tid r) (purchase_orders w) = po :: rest ->
  truthy (col "erp_system" po) = true ->
  erp_remote id (col "erp_system" po) = None ->
  let w' := fst (syncPurchaseOrder erp_remote sync_log_insert log_id now req w) in
  purchase_orders w'
  = update (col_is "id" id)
      (fun r => assign "erp_po_id" (JStr ("ERP-" ++ String.substring 0 8 id))
                  (assign "erp_sync_status" (JStr "synced") r))
      (purchase_orders w)
  /\ trace w' = trace w ++ [DbSelectPO; ErpRemote id (col "erp_system" po);
                             DbUpdatePO id; DbInsertSyncLog].
Proof.
  intros erp_remote log log_id now req id tid po rest w Hid Ht Hsel Herp Hok w'.
  subst w'. unfold syncPurchaseOrder. rewrite Hid, Ht.
  unfold log_event. cbn [purchase_orders col_is_param].
  rewrite Hsel, Herp. cbn [negb]. unfold syncPOToERP. rewrite Hok.
  unfold log_event, with_orders, with_sync_logs.
  destruct log; cbn; rewrite <- ?app_assoc; split; reflexivity.
Qed.

(** C7, as the code has it.  The manual sync route looks at neither
    erp_po_id nor erp_sync_status: for an order of the caller's tenant with
    an ERP system, each invocation whose exchange succeeds performs the ERP
    exchange once more, so two invocations in a row add two exchanges for the
    same order.  What is idempotent is the local record: after the second
    invocation the table of purchase orders is what it was after the first. *)
Theorem resync_repeats_exchange_and_keeps_local_row :
  forall (erp_remote : string -> json -> option JsError)
         (sync_log_insert1 sync_log_insert2 : option JsError)
         (log_id1 log_id2 : string) (now1 now2 : Z)
         (req : Request) (id tid : string) (po : Row) (rest : Table) (w : World),
    req_params_id req = Some id ->
    req_tenantId req = Some tid ->
    filter (fun r => col_is "id" id r && col_is "tenant_id" tid r) (purchase_orders w) = po :: rest ->
    truthy (col "erp_system" po) = true ->
    erp_remote id (col "erp_system" po) = None ->
    let first := fst (syncPurchaseOrder erp_remote sync_log_insert1 log_id1 now1 req w) in
    let second := fst (syncPurchaseOrder erp_remote sync_log_insert2 log_id2 now2 req first) in
    erp_calls second
    = erp_calls w ++ [ErpRemote id (col "erp_system" po); ErpRemote id (col "erp_system" po)]
    /\ purchase_orders second = purchase_orders first.
Proof.
  intros erp_remote log1 log2 log_id1 log_id2 now1 now2 req id tid po rest w
    Hid Ht Hsel Herp Hok first second.
  set (f := fun r : Row => assign "erp_po_id" (JStr ("ERP-" ++ String.substring 0 8 id))
                             (assign "erp_sync_status" (JStr "synced") r)).
  destruct (sync_once erp_remote log1 log_id1 now1 req id tid po rest w Hid Ht Hsel Herp Hok)
    as [Hpo1 Htr1].
  fold first in Hpo1, Htr1. fold f in Hpo1.
  assert (Hkeep : forall r, col_is "id" id (f r) && col_is "tenant_id" tid (f r)
                            = col_is "id" id r && col_is "tenant_id" tid r).
  { intros r. unfold f. now rewrite !col_is_assign_other by discriminate. }
  assert (Hsel1 : filter (fun r => col_is "id" id r && col_is "tenant_id" tid r)
                    (purchase_orders first)
                  = f po :: map (fun r => if col_is "id" id r then f r else r) rest).
  { rewrite Hpo1, filter_update by exact Hkeep. rewrite Hsel. cbn [map].
    destruct (filter_head _ _ _ _ _ Hsel) as [Hp _].
    apply andb_true_iff in Hp. destruct Hp as [Hp _]. now rewrite Hp. }
  assert (Herp1 : col "erp_system" (f po) = col "erp_system" po).
  { unfold f. now rewrite !col_assign_other by discriminate. }
  destruct (sync_once erp_remote log2 log_id2 now2 req id tid (f po) _ first Hid Ht Hsel1)
    as [Hpo2 Htr2].
  { now rewrite Herp1. }
  { now rewrite Herp1. }
  fold second in Hpo2, Htr2. fold f in Hpo2. split.
  - unfold erp_calls. rewrite Htr2, Htr1, Herp1, !filter_app. cbn.
    now rewrite <- app_assoc.
  - rewrite Hpo2, Hpo1. apply update_idem.
    + intros r. unfold f. apply assign_twice. discriminate.
    + intros r. unfold f. now rewrite !col_is_assign_other by discriminate.
Qed.

End Resync.

(** ** C8: penalties *)

Lemma authorize_admin : forall req req',
  authorize ["buyer_admin"] req = Next req' ->
  req' = req /\ exists u, req_user req = Some u /\ ru_role u = "buyer_admin".
Proof.
  intros req req'. unfold authorize. destruct (req_user req) as [u|]; [|discriminate].
  cbn [existsb]. rewrite orb_false_r.
  destruct (String.eqb_spec "buyer_admin" (ru_role u)) as [E|E]; cbn [negb]; [|discriminate].
  intros H. inversion H. split; [reflexivity|]. exists u. now split.
Qed.

Section Penalties.
Import Performance.
Variable validationErrors : Request -> list json.
Variable order_scorecards : Table -> Table.
Variable order_penalties : Table -> Table.
Variable date_ge : json -> json -> bool.
Variable date_le : json -> json -> bool.
Variable new_id : string.
Variable metric_id : nat -> string.
Variable now : Z.

Local Abbreviation perform' :=
  (perform validationErrors order_scorecards order_penalties date_ge date_le new_id metric_id now).

(** What a route of the router can do to the table of penalties: nothing,
    append the new pending row (creation), or run the approval UPDATE for a
    buyer_admin. *)
Lemma perform_on_penalties : forall op req db,
  penalties (fst (perform' op req db)) = penalties db
  \/ (op = CreatePenalty
      /\ exists u, req_user req = Some u
                   /\ penalties (fst (perform' op req db))
                      = penalties db ++ [new_penalty new_id now req u])
  \/ (op = ApprovePenalty
      /\ exists u, req_user req = Some u /\ ru_role u = "buyer_admin"
                   /\ penalties (fst (perform' op req db))
                      = update (approvable req) (approve now u) (penalties db)).
Proof.
  intros op req db. unfold perform.
  destruct op; cbn [route_of route_roles route_handler].
  - left. reflexivity.
  - destruct (authorize ["buyer_admin"] req) as [r|e|req'] eqn:G; try (left; reflexivity).
    left. unfold createScorecard. destruct (validationErrors req'); reflexivity.
  - left. reflexivity.
  - destruct (authorize ["buyer_admin"] req) as [r|e|req'] eqn:G; try (left; reflexivity).
    destruct (authorize_admin _ _ G) as [-> [u [Hu Hr]]].
    unfold createPenalty. destruct (validationErrors req); [|left; reflexivity].
    rewrite Hu. right. left. split; [reflexivity|]. exists u. split; reflexivity.
  - destruct (authorize ["buyer_admin"] req) as [r|e|req'] eqn:G; try (left; reflexivity).
    destruct (authorize_admin _ _ G) as [-> [u [Hu Hr]]].
    unfold approvePenalty. rewrite Hu.
    destruct (map (approve now u) (filter (approvable req) (penalties db))); [left; reflexivity|].
    right. right. split; [reflexivity|]. exists u. repeat split; assumption.
Qed.

(** C8.  A penalty created through POST /penalties is stored with status
    'pending' whatever the body holds, and the rows already there are kept
    as they are.  Across the routes of the performance router (the only
    statements on the table), a row that was 'pending' before a request and
    is 'approved' after it was changed by the approve route, called by a
    buyer_admin for that row's id and tenant; and that route does approve
    a pending row of the caller's tenant. *)
Theorem penalties_start_pending_and_only_approve_approves :
  forall (op : Op) (req : Request) (db : Tables),
    let db' := fst (perform' op req db) in
    (forall u,
        op = CreatePenalty -> validationErrors req = [] ->
        req_user req = Some u -> ru_role u = "buyer_admin" ->
        exists row,
          penalties db' = penalties db ++ [row]
          /\ col "status" row = JStr "pending"
          /\ col "ai_rationale" row = JStr biasCheck_rationale)
    /\ (forall i p p',
          nth_error (penalties db) i = Some p ->
          nth_error (penalties db') i = Some p' ->
          col "status" p = JStr "pending" ->
          col "status" p' = JStr "approved" ->
          op = ApprovePenalty
          /\ approvable req p = true
          /\ exists u, req_user req = Some u /\ ru_role u = "buyer_admin")
    /\ (forall u p,
          op = ApprovePenalty ->
          req_user req = Some u -> ru_role u = "buyer_admin" ->
          In p (penalties db) -> approvable req p = true ->
          In (approve now u p) (penalties db')
          /\ col "status" (approve now u p) = JStr "approved").
Proof.
  intros op req db db'. split; [|split].
  - intros u -> Hv Hu Hr. subst db'. unfold perform.
    cbn [route_of route_roles route_handler]. unfold authorize. rewrite Hu, Hr. cbn.
    unfold createPenalty. rewrite Hv, Hu. cbn.
    eexists. split; [reflexivity|]. split; reflexivity.
  - intros i p p' Hp Hp' Hs Hs'.
    destruct (perform_on_penalties op req db) as [E | [[-> [u [Hu E]]] | [-> [u [Hu [Hr E]]]]]];
      fold db' in E; rewrite E in Hp'.
    + rewrite Hp in Hp'. inversion Hp'; subst. rewrite Hs in Hs'. discriminate.
    + rewrite nth_error_app1 in Hp' by (apply nth_error_Some; congruence).
      rewrite Hp in Hp'. inversion Hp'; subst. rewrite Hs in Hs'. discriminate.
    + unfold update in Hp'. rewrite nth_error_map, Hp in Hp'. cbn in Hp'.
      destruct (approvable req p) eqn:A.
      * split; [reflexivity|]. split; [reflexivity|]. exists u. now split.
      * inversion Hp'; subst. rewrite Hs in Hs'. discriminate.
  - intros u p -> Hu Hr Hin Ha. subst db'. unfold perform.
    cbn [route_of route_roles route_handler]. unfold authorize. rewrite Hu, Hr. cbn.
    unfold approvePenalty. rewrite Hu.
    destruct (map (approve now u) (filter (approvable req) (penalties db))) as [|row rows] eqn:M.
    + exfalso. assert (In (approve now u p) []) as [].
      rewrite <- M. apply in_map. apply filter_In. now split.
    + cbn [fst with_penalties penalties]. split.
      * unfold update. apply in_map_iff. exists p. now rewrite Ha.
      * unfold approve. rewrite !col_assign_other by discriminate. apply col_assign_same.
Qed.

End Penalties.

(** ** C9: the bounded retry of the risk provider *)

Section RiskProvider.
Import Risk.

(** The loop entered after [attempts] failures, with [remaining] iterations
    left before [attempts] reaches [maxAttempts], calls the provider at most
    [remaining] times and waits fewer times than that; its k-th wait lasts
    [2 ^ (attempts + k)] seconds. *)
Lemma fetch_loop_bounded : forall provider_api remaining attempts,
  (attempts + remaining = maxAttempts)%nat ->
  (api_calls (snd (fetch_loop provider_api remaining attempts)) <= remaining)%nat
  /\ exists n,
       backoffs (snd (fetch_loop provider_api remaining attempts))
       = map (fun k => 2 ^ Z.of_nat (attempts + S k) * 1000) (seq 0 n)
       /\ (n <= remaining - 1)%nat.
Proof.
  intros provider_api remaining. induction remaining as [|remaining IH]; intros attempts Hinv.
  - cbn. split; [lia|]. exists 0%nat. split; [reflexivity | lia].
  - cbn [fetch_loop]. destruct (provider_api attempts) as [d|e].
    + cbn. split; [lia|]. exists 0%nat. split; [reflexivity | lia].
    + destruct (Nat.leb_spec maxAttempts (S attempts)) as [Hle|Hlt].
      * cbn. split; [lia|]. exists 0%nat. split; [reflexivity | lia].
      * destruct (IH (S attempts)) as [Hc [n [Hb Hn]]]; [lia|].
        destruct (fetch_loop provider_api remaining (S attempts)) as [res evs].
        cbn [snd] in *. unfold api_calls, backoffs in *. cbn. split; [lia|].
        exists (S n). split; [|lia]. rewrite Hb. cbn [seq map]. f_equal.
        -- now rewrite Nat.add_1_r.
        -- rewrite <- seq_shift, map_map. apply map_ext. intros k.
           do 3 f_equal. lia.
Qed.

(** C9.  Whatever the provider answers, [fetchRiskData] ends after at most
    three calls and never falls out of its loop without a result.  A first
    answer is returned at once; after the first failure it waits 2 seconds
    and after the second 4 seconds before calling again; the third failure
    in a row is thrown as an error whose message carries the provider's last
    message, and the route answers it with 503, that message and
    [retryable: true], leaving its tables untouched. *)
Theorem fetchRiskData_retries_with_backoff_within_bound :
  forall (provider_api : nat -> ProviderResult),
    (api_calls (snd (fetchRiskData provider_api)) <= maxAttempts)%nat
    /\ fst (fetchRiskData provider_api) <> Undefined
    /\ (exists n, (n < maxAttempts)%nat
                  /\ backoffs (snd (fetchRiskData provider_api))
                     = map (fun k => 2 ^ Z.of_nat (S k) * 1000) (seq 0 n))
    /\ (forall d, provider_api 0%nat = Fetched d ->
          fetchRiskData provider_api = (Returned d, [ApiCall 0]))
    /\ (forall e1 d, provider_api 0%nat = Failed e1 -> provider_api 1%nat = Fetched d ->
          fetchRiskData provider_api = (Returned d, [ApiCall 0; Backoff 2000; ApiCall 1]))
    /\ (forall e1 e2 d,
          provider_api 0%nat = Failed e1 -> provider_api 1%nat = Failed e2 ->
          provider_api 2%nat = Fetched d ->
          fetchRiskData provider_api
          = (Returned d, [ApiCall 0; Backoff 2000; ApiCall 1; Backoff 4000; ApiCall 2]))
    /\ (forall e1 e2 e3,
          provider_api 0%nat = Failed e1 -> provider_api 1%nat = Failed e2 ->
          provider_api 2%nat = Failed e3 ->
          fetchRiskData provider_api
          = (Thrown (newError ("Failed to fetch risk data after 3 attempts: "
                               ++ err_message e3)%string),
             [ApiCall 0; Backoff 2000; ApiCall 1; Backoff 4000; ApiCall 2])
          /\ forall validationErrors new_assessment_id new_master_id now
                    unknown_vendor assessment_insert req w,
               validationErrors req = [] ->
               createAssessment provider_api validationErrors new_assessment_id
                 new_master_id now unknown_vendor assessment_insert req w
               = (w, Sent (mkResponse 503
                       (JObj [("error", JStr "Risk provider unavailable");
                              ("message", JStr ("Failed to fetch risk data after 3 attempts: "
                                                ++ err_message e3)%string);
                              ("retryable", JBool true)])))).
Proof.
  intros provider_api. split; [|split; [|split; [|split; [|split; [|split]]]]].
  - now apply (fetch_loop_bounded provider_api maxAttempts 0).
  - unfold fetchRiskData. cbn.
    destruct (provider_api 0%nat); [discriminate|]. cbn.
    destruct (provider_api 1%nat); [discriminate|]. cbn.
    destruct (provider_api 2%nat); discriminate.
  - destruct (fetch_loop_bounded provider_api maxAttempts 0 eq_refl) as [_ [n [Hb Hn]]].
    exists n. split; [unfold maxAttempts in *; lia | exact Hb].
  - intros d H. unfold fetchRiskData. cbn. now rewrite H.
  - intros e1 d H0 H1. unfold fetchRiskData. cbn. rewrite H0. cbn. now rewrite H1.
  - intros e1 e2 d H0 H1 H2. unfold fetchRiskData. cbn. rewrite H0. cbn. rewrite H1. cbn.
    now rewrite H2.
  - intros e1 e2 e3 H0 H1 H2.
    assert (E : fetchRiskData provider_api
                = (Thrown (newError ("Failed to fetch risk data after 3 attempts: "
                                     ++ err_message e3)%string),
                   [ApiCall 0; Backoff 2000; ApiCall 1; Backoff 4000; ApiCall 2])).
    { unfold fetchRiskData. cbn. rewrite H0. cbn. rewrite H1. cbn. now rewrite H2. }
    split; [exact E|].
    intros validationErrors new_assessment_id new_master_id now unknown_vendor
      assessment_insert req w Hv.
    unfold createAssessment. now rewrite Hv, E.
Qed.

End RiskProvider.

(** ** C10: a high or critical assessment is stored and then fails *)

Section RiskAssessment.
Import Risk.

Lemma level_of_score : forall q,
  ((50 <= q)%Q -> calculateRiskLevel q = high \/ calculateRiskLevel q = critical)
  /\ ((q < 50)%Q -> calculateRiskLevel q = low \/ calculateRiskLevel q = medium).
Proof.
  intros q. unfold calculateRiskLevel. split; intros H.
  - destruct (Qle_bool 75 q); [now right|].
    apply Qle_bool_iff in H. rewrite H. now left.
  - assert (H75 : Qle_bool 75 q = false).
    { apply not_true_is_false. intros C. apply Qle_bool_iff in C.
      apply (Qlt_irrefl 50%Q). apply Qle_lt_trans with q; [|exact H].
      apply Qle_trans with 75%Q; [discriminate | exact C]. }
    assert (H50 : Qle_bool 50 q = false).
    { apply not_true_is_false. intros C. apply Qle_bool_iff in C.
      apply (Qlt_irrefl 50%Q). now apply Qle_lt_trans with q. }
    rewrite H75, H50. destruct (Qle_bool 25 q); [now right | now left].
Qed.

Lemma updateVendorMaster_keeps_assessments :
  forall new_master_id now vendorId score level w,
    vendor_risk_assessments (updateVendorMaster new_master_id now vendorId score level w)
    = vendor_risk_assessments w
    /\ risk_alerts (updateVendorMaster new_master_id now vendorId score level w)
       = risk_alerts w.
Proof.
  intros. unfold updateVendorMaster.
  destruct (filter (col_is_param "id" vendorId) (vendors w)); split; reflexivity.
Qed.

(** C10, as the code has it.  The route checks the shape of [vendor_id]
    and no more, and the assessments table refers to the vendors: when the
    database rejects the row (it does for an id of no vendor) the request
    ends in the error handler with that rejection and the tables as they
    were, whatever the score.  When the database accepts the row and the
    provider's score is at least 50, the level is 'high' or 'critical' and
    the handler throws the ReferenceError of [checkRiskThresholds] ([req]
    is not defined there) after the assessment row has been inserted: the
    client gets the error handler's 500 INTERNAL_ERROR, the new row stays in
    vendor_risk_assessments, and no alert is stored.  Below 50 the level is
    'low' or 'medium' and the request answers 201 with the row; in every
    case a response is only ever sent by the handler for those two
    levels. *)
Theorem high_risk_assessment_is_stored_then_request_fails :
  forall (env : Env) (provider_api : nat -> ProviderResult)
         (validationErrors : Request -> list json)
         (new_assessment_id new_master_id : string) (now : Z)
         (unknown_vendor : string -> JsError)
         (assessment_insert : World -> Row -> option JsError)
         (req : Request) (w : World) (d : RiskData),
    validationErrors req = [] ->
    fst (fetchRiskData provider_api) = Returned d ->
    let result := createAssessment provider_api validationErrors new_assessment_id
                    new_master_id now unknown_vendor assessment_insert req w in
    let level := calculateRiskLevel (risk_score d) in
    let row := new_assessment new_assessment_id now req d in
    let verdict := insertAssessment unknown_vendor assessment_insert w row in
    (forall id, body_field "vendor_id" req = Some (JStr id) ->
       existsb (col_is "id" id) (vendors w) = false ->
       verdict = Some (unknown_vendor id))
    /\ (forall rejection, verdict = Some rejection -> result = (w, Threw rejection))
    /\ (verdict = None ->
        vendor_risk_assessments (fst result) = vendor_risk_assessments w ++ [row]
        /\ risk_alerts (fst result) = risk_alerts w
        /\ ((50 <= risk_score d)%Q ->
            (level = high \/ level = critical)
            /\ snd result = Threw (referenceError "req")
            /\ res_status (errorResponse env (referenceError "req")) = 500
            /\ get "code" (res_body (errorResponse env (referenceError "req")))
               = Some (JStr "INTERNAL_ERROR"))
        /\ ((risk_score d < 50)%Q ->
            (level = low \/ level = medium)
            /\ snd result = Sent (mkResponse 201 (JObj [("assessment", JObj row)]))))
    /\ (forall r, snd result = Sent r -> level = low \/ level = medium).
Proof.
  intros env provider_api validationErrors new_assessment_id new_master_id now
    unknown_vendor assessment_insert req w d Hv Hf result level row verdict.
  assert (Hstart : result
            = match verdict with
              | Some rejection => (w, Threw rejection)
              | None =>
                  (updateVendorMaster new_master_id now
                     (as_string (body_field "vendor_id" req)) (risk_score d) level
                     (mkWorld (vendors w) (vendor_risk_assessments w ++ [row])
                        (vendor_master_consolidated w) (risk_alerts w)),
                   match level with
                   | critical | high => Threw (referenceError "req")
                   | medium | low => Sent (mkResponse 201 (JObj [("assessment", JObj row)]))
                   end)
              end).
  { subst result level row verdict. unfold createAssessment. rewrite Hv, Hf.
    destruct (insertAssessment unknown_vendor assessment_insert w
                (new_assessment new_assessment_id now req d)); [reflexivity|].
    unfold checkRiskThresholds. destruct (calculateRiskLevel (risk_score d)); reflexivity. }
  split; [|split; [|split]].
  { intros id Hid Hno. subst verdict row. unfold insertAssessment.
    change (col "vendor_id" (new_assessment new_assessment_id now req d))
      with (param (body_field "vendor_id" req)).
    rewrite Hid. cbn [param]. now rewrite Hno. }
  { intros rejection Hrej. now rewrite Hstart, Hrej. }
  2:{ intros r. rewrite Hstart. destruct verdict; [discriminate|]. cbn [snd].
      destruct level; try discriminate; tauto. }
  intros Hacc. rewrite Hacc in Hstart.
  assert (Hres : result
    = (updateVendorMaster new_master_id now (as_string (body_field "vendor_id" req))
         (risk_score d) level
         (mkWorld (vendors w) (vendor_risk_assessments w ++ [row])
            (vendor_master_consolidated w) (risk_alerts w)),
       match level with
       | critical | high => Threw (referenceError "req")
       | medium | low => Sent (mkResponse 201 (JObj [("assessment", JObj row)]))
       end)).
  { exact Hstart. }
  clear Hstart. rewrite Hres. cbn [fst snd].
  destruct (updateVendorMaster_keeps_assessments new_master_id now
              (as_string (body_field "vendor_id" req)) (risk_score d) level
              (mkWorld (vendors w) (vendor_risk_assessments w ++ [row])
                 (vendor_master_consolidated w) (risk_alerts w))) as [Ha Hal].
  destruct (level_of_score (risk_score d)) as [Hhigh Hlow]. fold level in Hhigh, Hlow.
  split; [exact Ha|]. split; [exact Hal|]. split.
  - intros H. split; [now apply Hhigh|].
    split; [destruct (Hhigh H) as [-> | ->]; reflexivity|].
    split; [reflexivity|]. unfold errorResponse. cbn. reflexivity.
  - intros H. split; [now apply Hlow|].
    destruct (Hlow H) as [-> | ->]; reflexivity.
Qed.

End RiskAssessment.

(** ** C1: tenant scoping *)

(** X1.  The tenant id [tenantMiddleware] attaches is the tenant of the user
    [authenticate] resolved from the database; nothing else of the request
    (body, query, parameters, headers) enters it. *)
Lemma tenant_id_is_the_users : forall env tenants req req' u,
  req_user req = Some u ->
  Js.truthy_string (ru_tenant_id u) = true ->
  Js.startsWith (req_originalUrl req) "/api/v1/auth" = false ->
  step_out (Tenant.tenantMiddleware env tenants req) = Next req' ->
  req_tenantId req' = Some (ru_tenant_id u).
Proof.
  intros env tenants req req' u Hu Ht Hurl. unfold Tenant.tenantMiddleware.
  rewrite Hurl. unfold Tenant.user_tenant. rewrite Hu, Ht.
  destruct (filter (fun t => (t_id t =? ru_tenant_id u)%string) tenants) as [|t rest] eqn:F;
    cbn; [discriminate|].
  destruct (filter_head _ _ _ _ _ F) as [Hid _]. apply String.eqb_eq in Hid.
  destruct (t_status t =? "active")%string; cbn; [|discriminate].
  intros H. inversion H. cbn. now rewrite Hid.
Qed.

Lemma flat_map_nil : forall (A B : Type) (f : A -> list B) (l : list A),
  (forall x, In x l -> f x = []) -> flat_map f l = [].
Proof.
  intros A B f l H. induction l as [|x l IH]; cbn; [reflexivity|].
  rewrite (H x) by now left. apply IH. intros; apply H; now right.
Qed.

(** X2.  GET /api/v1/contracts/:id answers 404 unless a contract with that id
    belongs to the caller's tenant, and the contract it returns is of that
    tenant. *)
Lemma getContract_is_tenant_scoped : forall order_clauses order_versions req db tid,
  req_tenantId req = Some tid ->
  ((forall c, In c (Contract.contracts db) ->
              col_is_param "id" (req_params_id req) c = true ->
              col_is "tenant_id" tid c = false) ->
   Contract.getContract order_clauses order_versions req db
   = (db, Sent (mkResponse 404 (JObj [("error", JStr "Contract not found")]))))
  /\ (forall c rest,
        Contract.select_contract db (req_params_id req) (req_tenantId req) = c :: rest ->
        col "tenant_id" c = JStr tid).
Proof.
  intros order_clauses order_versions req db tid Ht. rewrite Ht. split.
  - intros Hother. unfold Contract.getContract. rewrite Ht.
    replace (Contract.select_contract db (req_params_id req) (Some tid)) with (@nil Row);
      [reflexivity|].
    symmetry. unfold Contract.select_contract. apply flat_map_nil. intros c Hc.
    destruct (col_is_param "id" (req_params_id req) c) eqn:E; cbn [andb]; [|reflexivity].
    cbn [col_is_param]. now rewrite (Hother c Hc E).
  - intros c rest H.
    assert (Hin : In c (Contract.select_contract db (req_params_id req) (Some tid)))
      by (rewrite H; now left).
    unfold Contract.select_contract in Hin. apply in_flat_map in Hin.
    destruct Hin as [c0 [_ Hc]].
    destruct (col_is_param "id" (req_params_id req) c0 && col_is_param "tenant_id" (Some tid) c0)
      eqn:E; [|contradiction].
    apply andb_true_iff in E. destruct E as [_ E].
    apply in_map_iff in Hc. destruct Hc as [v [<- _]].
    rewrite !col_assign_other by discriminate.
    cbn in E. unfold col_is in E. unfold col.
    destruct (assoc "tenant_id" c0) as [[| | |s| |]|]; try discriminate.
    apply String.eqb_eq in E. now subst.
Qed.

(** C1 at its failing input.  Alice, buyer_admin of tenant A, posts to the
    override route of the RFP router the id of an evaluation score that
    belongs to an RFP of tenant B.  The request passes the whole chain with
    tenant A resolved, the handler reads B's score (90) into the override it
    returns to Alice, and B's score is overwritten with 1. *)
Theorem override_score_reaches_another_tenants_record :
  let run := serve0 override_route override_request rfp0 in
  req_tenantId (run_req run) = Some tenant_a_id
  /\ map (Rfp.score_tenant rfp0) (Rfp.ai_evaluation_scores rfp0) = [Some (JStr tenant_b_id)]
  /\ In EvHandler (run_events run)
  /\ run_response run
     = json_ok (JObj [("override",
                       JObj [("id", JStr override_1); ("evaluation_id", JStr score_b);
                             ("overridden_by", JStr alice_id);
                             ("original_score", JNum 90); ("new_score", JNum 1);
                             ("rationale", JStr "re-scored"); ("override_reason", JNull);
                             ("created_at", JNum 0)]);
                      ("message", JStr "Score overridden successfully. Override logged for audit.")])
  /\ map (col "score") (Rfp.ai_evaluation_scores (run_state run)) = [JNum 1].
Proof.
  vm_compute. repeat split; try reflexivity. tauto.
Qed.

(** ** Concrete runs *)

(** C2 on a concrete request: a token that [jwt.verify] reports as expired. *)
Lemma expired_token_is_turned_away :
  rejected_without_effect
    (serve0 (perf_route Performance.ApprovePenalty) expired_request perf0) perf0
    "Invalid or expired token" "TOKEN_EXPIRED" [EvJwtVerify "jwt-old"].
Proof.
  exact (proj1 (proj2 (credential_failures_are_distinguished_and_effect_free
                         env0 jwt0 (fun _ => None) 0 stringify0 tenants0 users0
                         (perf_route Performance.ApprovePenalty) expired_request perf0))
           "jwt-old" expiredError eq_refl eq_refl eq_refl).
Defined.

(** C4 as stated fails: Alice creates a penalty with a body that holds a
    password at the top level and a token one level down.  The handler is
    entered, one audit row is stored, and of the two secrets in its detail
    only the top-level one is the placeholder: the nested token is stored as
    it was sent. *)
Lemma audit_detail_keeps_nested_secret :
  let run := serve0 (perf_route Performance.CreatePenalty) nested_secret_request perf0 in
  In EvHandler (run_events run)
  /\ map (fun row => secret_values (a_details row)) (fin_inserted (run_audit run))
     = [[REDACTED; JStr "s3cr3t"]]
  /\ JStr "s3cr3t" <> REDACTED.
Proof.
  vm_compute. split; [tauto|]. split; [reflexivity | discriminate].
Defined.

(** C4, amended, on that request. *)
Lemma nested_secret_request_is_audited_once :
  exists row,
    fin_attempts (run_audit (serve0 (perf_route Performance.CreatePenalty)
                               nested_secret_request perf0)) = [row]
    /\ option_map (get "password") (get "body" (a_details row)) = Some (Some REDACTED).
Proof.
  destruct (privileged_request_audited_once_with_top_level_redaction
              env0 jwt0 (fun _ => None) 0 stringify0 tenants0 users0 _
              (perf_route Performance.CreatePenalty) nested_secret_request perf0 eq_refl)
    as [row [Hrow [_ [_ [Hbody Hfields]]]]].
  - vm_compute. tauto.
  - exists row. split; [exact Hrow|]. rewrite Hbody.
    destruct (Hfields _ eq_refl eq_refl) as [fields [Hs Hk]]. rewrite Hs. cbn [option_map get].
    f_equal. apply (proj1 (Hk "password")); [now left | reflexivity].
Defined.

(** C5 on a concrete request: the audit INSERT is rejected, the approval
    still answers 200 and the rejection is on the error log. *)
Lemma rejected_audit_insert_is_only_logged :
  let run := serve env0 jwt0 (fun _ => Some disk_full) 0 stringify0 tenants0 users0
               (perf_route Performance.ApprovePenalty) approve_request perf0 in
  res_status (run_response run) = 200
  /\ fin_inserted (run_audit run) = []
  /\ In (mkLine "Audit log insertion failed:" disk_full) (run_console run).
Proof.
  intros run.
  destruct (audit_failure_spares_response_and_is_logged
              env0 jwt0 (fun _ => Some disk_full) 0 stringify0 tenants0 users0 _
              (perf_route Performance.ApprovePenalty) approve_request perf0)
    as [Hresp [_ [_ Hlog]]].
  fold run in Hresp, Hlog. split.
  - rewrite Hresp. reflexivity.
  - destruct (fin_attempts (run_audit run)) as [|row rows] eqn:E; [discriminate E|].
    apply (Hlog row disk_full); [now left | reflexivity].
Defined.

(** C6 on a concrete run: the ERP is down when Alice creates the order, in
    euros, and up when she syncs it by hand; the sync-log table rejects the
    NULL [integration_id], as schema.sql has it. *)
Lemma failed_then_synced_order :
  let created :=
    Procurement.createPurchaseOrder erp_down (Some not_null_violation) po_1 "log-1" 0
      po_number0 no_errors not_null_in po_accepted (as_alice create_po_request) proc0 in
  let synced :=
    Procurement.syncPurchaseOrder erp_up (Some not_null_violation) "log-2" 0
      (as_alice resync_request) (fst created) in
  (exists po,
      Procurement.purchase_orders (fst created) = [po]
      /\ col "erp_sync_status" po = JStr "failed"
      /\ col "erp_sync_error" po = JStr "connect ETIMEDOUT"
      /\ col "total_amount" po = JNum 1200)
  /\ (exists po,
        Procurement.purchase_orders (fst synced) = [po]
        /\ col "erp_sync_status" po = JStr "synced"
        /\ col "total_amount" po = JNum 1200).
Proof.
  intros created synced.
  destruct (failed_sync_is_annotated_and_resync_marks_synced
              po_1 po_number0 no_errors erp_down erp_up
              (Some not_null_violation) (Some not_null_violation) "log-1" "log-2" 0 0
              not_null_in po_accepted
              (as_alice create_po_request) (as_alice resync_request) alice tenant_a_id
              (JStr "SAP")
              (mkError "Error" "connect ETIMEDOUT" (Some "ETIMEDOUT") None None None None "")
              proc0 eq_refl eq_refl eq_refl eq_refl eq_refl
              (fun r (H : In r []) => match H with end)
              (or_introl eq_refl) eq_refl eq_refl eq_refl)
    as [_ [_ Hstored]].
  destruct (Hstored eq_refl)
    as [_ [_ [[po [Hpo [_ [Hs [He [Ha _]]]]]] [[po' [Hpo' [_ [Hs' [Ha' _]]]]] _]]]].
  fold created in Hpo. fold created synced in Hpo'. split.
  - exists po. repeat split; assumption.
  - exists po'. repeat split; assumption.
Defined.

(** The same order without a currency is not created: the INSERT is
    rejected, the request is answered 500 with the class of the rejection,
    no order is stored and the ERP is not called. *)
Lemma order_without_currency_is_not_created :
  let run := serve0 (create_po_route erp_up) create_po_request_without_currency proc0 in
  res_status (run_response run) = 500
  /\ get "code" (res_body (run_response run)) = Some (JStr "23502")
  /\ Procurement.purchase_orders (run_state run) = []
  /\ Procurement.erp_calls (run_state run) = [].
Proof.
  vm_compute. repeat split.
Qed.

(** With the currency sent as [null] the validation chain puts 'USD' in its
    place: the order is stored in dollars, and the audit row holds the body
    as the chain left it. *)
Lemma null_currency_is_defaulted_and_audited_so :
  let run := serve0 (create_po_route erp_up) create_po_request_null_currency proc0 in
  res_status (run_response run) = 201
  /\ map (col "currency") (Procurement.purchase_orders (run_state run)) = [JStr "USD"]
  /\ map (fun row => option_map (get "currency") (get "body" (a_details row)))
       (fin_attempts (run_audit run))
     = [Some (Some (JStr "USD"))].
Proof.
  vm_compute. repeat split.
Qed.

(** C7 as stated fails: the table holds Alice's order as 'synced', with its
    erp_po_id, and no exchange has taken place since; she then calls the
    manual sync twice.  Both calls answer 200 and each performs the
    exchange again: the ERP receives the order twice more, where the claim
    allows no further create.  The calls are repeated just the same when the
    sync-log INSERT of the two re-syncs is rejected (they then answer
    503). *)
Lemma resync_of_synced_order_calls_erp_again :
  let run1 := serve0 (resync_route "log-2") resync_request proc_synced in
  let run2 := serve0 (resync_route "log-3") resync_request (run_state run1) in
  let run1' := serve0 (resync_route_unlogged "log-2") resync_request proc_synced in
  let run2' := serve0 (resync_route_unlogged "log-3") resync_request (run_state run1') in
  map (fun po => (col "erp_sync_status" po, col "erp_po_id" po))
      (Procurement.purchase_orders proc_synced)
  = [(JStr "synced", JStr "ERP-7c9e6679")]
  /\ Procurement.erp_calls proc_synced = []
  /\ res_status (run_response run1) = 200
  /\ res_status (run_response run2) = 200
  /\ Procurement.erp_calls (run_state run2)
     = [Procurement.ErpRemote po_1 (JStr "SAP");
        Procurement.ErpRemote po_1 (JStr "SAP")]
  /\ List.length (Procurement.erp_calls (run_state run2)) <> 1%nat
  /\ res_status (run_response run1') = 503
  /\ res_status (run_response run2') = 503
  /\ List.length (Procurement.erp_calls (run_state run2')) = 2%nat.
Proof.
  vm_compute. repeat split; try reflexivity. discriminate.
Defined.

(** C7, amended, on that order, with the sync-log table rejecting the NULL
    [integration_id] as schema.sql has it. *)
Lemma resync_twice_keeps_row_of_synced_order :
  let w := proc_synced in
  let first := fst (Procurement.syncPurchaseOrder erp_up (Some not_null_violation) "log-2" 0
                      (as_alice resync_request) w) in
  let second := fst (Procurement.syncPurchaseOrder erp_up (Some not_null_violation) "log-3" 0
                       (as_alice resync_request) first) in
  List.length (Procurement.erp_calls second) = (List.length (Procurement.erp_calls w) + 2)%nat
  /\ Procurement.purchase_orders second = Procurement.purchase_orders first.
Proof.
  intros w first second.
  assert (Hsel : exists po,
            filter (fun r => col_is "id" po_1 r && col_is "tenant_id" tenant_a_id r)
              (Procurement.purchase_orders w) = [po]
            /\ truthy (col "erp_system" po) = true
            /\ erp_up po_1 (col "erp_system" po) = None).
  { vm_compute. eexists. repeat split. }
  destruct Hsel as [po [Hsel [Herp Hup]]].
  destruct (resync_repeats_exchange_and_keeps_local_row
              erp_up (Some not_null_violation) (Some not_null_violation) "log-2" "log-3" 0 0
              (as_alice resync_request)
              po_1 tenant_a_id po [] w eq_refl eq_refl Hsel Herp Hup)
    as [Hcalls Hrows].
  fold first in Hcalls, Hrows. fold second in Hcalls, Hrows. split.
  - rewrite Hcalls, length_app. reflexivity.
  - exact Hrows.
Defined.

(** C8 on a concrete run: Alice approves the pending penalty of her tenant. *)
Lemma approve_route_approves_pending_penalty :
  In (Performance.approve 0 alice penalty1)
     (Performance.penalties
        (fst (Performance.perform no_errors keep_order keep_order never_compared never_compared
                penalty_2 metric_id0 0 Performance.ApprovePenalty
                (as_alice approve_request) perf0)))
  /\ col "status" (Performance.approve 0 alice penalty1) = JStr "approved".
Proof.
  exact (proj2 (proj2 (penalties_start_pending_and_only_approve_approves
                         no_errors keep_order keep_order never_compared never_compared
                         penalty_2 metric_id0 0 Performance.ApprovePenalty
                         (as_alice approve_request) perf0))
           alice penalty1 eq_refl eq_refl eq_refl (or_introl eq_refl) eq_refl).
Defined.

(** C9 on a provider that is down: three calls, waits of 2 and 4 seconds,
    and the last error surfaced. *)
Lemma provider_down_gives_up_after_three_calls :
  Risk.fetchRiskData provider_down
  = (Risk.Thrown (newError "Failed to fetch risk data after 3 attempts: socket hang up"),
     [Risk.ApiCall 0; Risk.Backoff 2000; Risk.ApiCall 1; Risk.Backoff 4000; Risk.ApiCall 2]).
Proof.
  exact (proj1 (proj2 (proj2 (proj2 (proj2 (proj2 (proj2
           (fetchRiskData_retries_with_backoff_within_bound provider_down))))))
           (newError "socket hang up") (newError "socket hang up") (newError "socket hang up")
           eq_refl eq_refl eq_refl)).
Defined.

(** C10 as stated fails: Alice asks for an assessment of an id that is the
    id of no vendor, and the provider rates it at 80 (critical).  The
    request enters the handler and the INSERT is rejected by the foreign
    key: the answer is 400 FOREIGN_KEY_VIOLATION and no assessment row is
    stored, where the claim has the row persisted for every request with
    such a score. *)
Lemma assessment_of_unknown_vendor_is_not_stored :
  let run := serve0 assessment_route unknown_vendor_request risk0 in
  Risk.calculateRiskLevel 80 = Risk.critical
  /\ In EvHandler (run_events run)
  /\ res_status (run_response run) = 400
  /\ get "code" (res_body (run_response run)) = Some (JStr "FOREIGN_KEY_VIOLATION")
  /\ Risk.vendor_risk_assessments (run_state run) = [].
Proof.
  vm_compute. split; [reflexivity|]. split; [tauto|]. repeat split.
Defined.

(** C10, amended, on a provider that rates tenant A's vendor at 80
    (critical). *)
Lemma critical_assessment_is_stored_and_request_fails :
  let result := Risk.createAssessment provider_80 no_errors assessment_1 master_1 0
                  foreign_key_violation assessment_accepted
                  (as_alice assessment_request) risk0 in
  map (col "risk_level") (Risk.vendor_risk_assessments (fst result)) = [JStr "critical"]
  /\ snd result = Threw (referenceError "req")
  /\ res_status (errorResponse env0 (referenceError "req")) = 500.
Proof.
  intros result.
  destruct (high_risk_assessment_is_stored_then_request_fails
              env0 provider_80 no_errors assessment_1 master_1 0
              foreign_key_violation assessment_accepted
              (as_alice assessment_request) risk0
              (Risk.mkRiskData 80 "2026-01-01T00:00:00.000Z") eq_refl eq_refl)
    as [_ [_ [Hstored _]]].
  destruct (Hstored eq_refl) as [Hrows [_ [Hhigh _]]].
  fold result in Hrows, Hhigh.
  destruct Hhigh as [_ [Hthrew [Hstatus _]]]; [discriminate|].
  split; [|split; assumption].
  rewrite Hrows. reflexivity.
Defined.

(** * Further properties of the modelled code *)

(** Throughout, ids are the canonical uuid strings the database stores, so
    that [column = $n] is equality of strings, and a statement of a handler
    is taken to succeed unless the model names the database's verdict on
    it. *)

(** ** middleware/errorHandler.js *)

Ltac envelope :=
  cbn;
  split; [eexists; reflexivity|];
  split; [eexists; reflexivity|];
  split; [intros Hdev; first [reflexivity | discriminate Hdev]|];
  intros d Hd; cbn in Hd; first [discriminate Hd | inversion Hd; subst; auto].

(** X3.  For an error whose message is a string and whose code, when it has
    one, is a string (the errors of [JsError]: those this code base throws
    and those PostgreSQL, the JWT library, the body parser and Node hand
    it), the answer of [errorHandler] is the envelope [{ error, code, ... }]
    with both fields strings; the error's stack is part of the body only
    when NODE_ENV is 'development'; and the database's own detail text is
    passed on only with the two constraint codes.  A thrown value of
    another shape (a numeric code, a message that is no string) is outside
    the statement. *)
Theorem errorHandler_answers_with_envelope :
  forall (env : Env) (e : JsError),
    (exists message, get "error" (res_body (errorResponse env e)) = Some (JStr message))
    /\ (exists code, get "code" (res_body (errorResponse env e)) = Some (JStr code))
    /\ (is_development env = false -> get "stack" (res_body (errorResponse env e)) = None)
    /\ (forall d, get "details" (res_body (errorResponse env e)) = Some d ->
         err_detail e = Some d \/ d = JStr (err_message e) \/ err_errors e = Some d).
Proof.
  intros env e. unfold errorResponse.
  destruct (code_is e "23505"); [destruct (err_detail e); envelope|].
  destruct (code_is e "23503"); [destruct (err_detail e); envelope|].
  destruct (err_name e =? "ValidationError")%string.
  { unfold or_else. destruct (err_errors e) as [v|]; cbn [truthy_opt];
      [destruct (truthy v)|]; envelope. }
  destruct (err_name e =? "JsonWebTokenError")%string; [envelope|].
  destruct (err_name e =? "TokenExpiredError")%string; [envelope|].
  destruct (code_is e "PERMISSION_DENIED" || Js.includes (err_message e) "permission");
    [envelope|].
  destruct (code_is e "ECONNREFUSED" || code_is e "ETIMEDOUT"); [envelope|].
  destruct (is_development env); envelope.
Qed.

(** ** middleware/tenantMiddleware.js *)

(** On Alice's approval request the attached tenant id is her tenant's. *)
Lemma alice_is_scoped_to_her_tenant :
  req_tenantId (set_tenant tenant_a (set_user alice (incoming approve_request)))
  = Some (ru_tenant_id alice).
Proof.
  apply (tenant_id_is_the_users env0 tenants0 (set_user alice (incoming approve_request)) _ alice);
    reflexivity.
Defined.

(** X4.  Outside the auth routes [tenantMiddleware] fails closed: it calls
    [next()] only after attaching a tenant row of the table whose status is
    'active', and its id as [req.tenantId]; a tenant that is missing or not
    active ends the request.  Outside development a request without a
    resolved user is answered 401 TENANT_REQUIRED before any query (the
    DEFAULT_TENANT_ID fallback is for development only).  Under the auth
    prefix it lets everything through untouched, without a query. *)
Theorem tenantMiddleware_fails_closed :
  forall (env : Env) (tenants : list TenantRow) (req : Request),
    (Js.startsWith (req_originalUrl req) "/api/v1/auth" = false ->
     (forall req',
         step_out (Tenant.tenantMiddleware env tenants req) = Next req' ->
         exists t, In t tenants /\ t_status t = "active"
                   /\ req_tenant req' = Some t /\ req_tenantId req' = Some (t_id t)
                   /\ req_user req' = req_user req /\ req_body req' = req_body req)
     /\ (is_development env = false -> req_user req = None ->
         Tenant.tenantMiddleware env tenants req
         = mkStep (Responded (mkResponse 401
                     (error_body "Tenant identification required" "TENANT_REQUIRED"))) [] []))
    /\ (Js.startsWith (req_originalUrl req) "/api/v1/auth" = true ->
        Tenant.tenantMiddleware env tenants req = mkStep (Next req) [] []).
Proof.
  intros env tenants req. split.
  - intros Hurl. split.
    + intros req' H.
      destruct (tenantMiddleware_next env tenants req req' Hurl H) as [t [-> [Hin [Hst _]]]].
      exists t. repeat split; assumption.
    + intros Hdev Hu. unfold Tenant.tenantMiddleware, Tenant.user_tenant.
      now rewrite Hurl, Hu, Hdev.
  - intros Hurl. unfold Tenant.tenantMiddleware. now rewrite Hurl.
Qed.

(** In production a request without a resolved user gets no tenant. *)
Lemma anonymous_request_gets_no_tenant :
  Tenant.tenantMiddleware env0 tenants0 (incoming anonymous_request)
  = mkStep (Responded (mkResponse 401
              (error_body "Tenant identification required" "TENANT_REQUIRED"))) [] [].
Proof.
  exact (proj2 (proj1 (tenantMiddleware_fails_closed env0 tenants0 (incoming anonymous_request))
                  eq_refl) eq_refl eq_refl).
Defined.

(** ** routes/contract.js: reading a contract *)

(** Alice asks for tenant B's contract by its id and gets 404. *)
Lemma other_tenants_contract_is_not_found :
  Contract.getContract keep_order keep_order (as_alice contract_request) contracts0
  = (contracts0, Sent (mkResponse 404 (JObj [("error", JStr "Contract not found")]))).
Proof.
  apply (proj1 (getContract_is_tenant_scoped keep_order keep_order
                  (as_alice contract_request) contracts0 tenant_a_id eq_refl)).
  intros c [<-|[]] _. reflexivity.
Defined.

(** ** server.js: what the chain guarantees about every request *)

Lemma authorize_next : forall roles req req',
  authorize roles req = Next req' ->
  req' = req /\ exists u, req_user req = Some u /\ In (ru_role u) roles.
Proof.
  intros roles req req'. unfold authorize. destruct (req_user req) as [u|]; [|discriminate].
  destruct (existsb (fun r => (r =? ru_role u)%string) roles) eqn:E; cbn [negb]; [|discriminate].
  intros H. inversion H. split; [reflexivity|]. exists u. split; [reflexivity|].
  apply existsb_exists in E. destruct E as [r [Hin Hr]].
  apply String.eqb_eq in Hr. now subst.
Qed.

Section ChainShape.
Variable env : Env.
Variable jwt_verify : string -> JwtResult.
Variable tenants : list TenantRow.
Variable users : list UserRow.
Context {S : Type}.
Variable route : Route S.

Local Abbreviation tenant_resolved := (Samples.tenant_resolved tenants).

(** The router either answers without entering the handler, leaving the
    tables alone, or enters it with a user whose role the route declares,
    on the request as the validation chain left it. *)
Lemma router_shape : forall req u s req2,
  step_out (authenticate jwt_verify tenants users req) = Next (set_user u req) ->
  req_authorization req2 = req_authorization req ->
  req_user (sv_req (router env jwt_verify tenants users route req2 s)) = Some u
  /\ req_tenantId (sv_req (router env jwt_verify tenants users route req2 s))
     = req_tenantId req2
  /\ ((sv_state (router env jwt_verify tenants users route req2 s) = s
       /\ ~ In EvHandler (sv_events (router env jwt_verify tenants users route req2 s)))
      \/ (In EvHandler (sv_events (router env jwt_verify tenants users route req2 s))
          /\ (exists handled,
                sv_req (router env jwt_verify tenants users route req2 s)
                = match snd (route_handler route handled s) with
                  | Sent _ => handled
                  | Threw _ => passed_on handled
                  end
                /\ sv_state (router env jwt_verify tenants users route req2 s)
                   = fst (route_handler route handled s))
          /\ forall roles, route_roles route = Some roles -> In (ru_role u) roles)).
Proof.
  intros req u s req2 Ha Hh. unfold router.
  rewrite (authenticate_again jwt_verify tenants users req req2 u Hh Ha).
  cbn [step_out step_events step_console].
  pose proof (authenticate_events jwt_verify tenants users req) as Hev.
  destruct (match route_roles route with
            | Some roles => authorize roles (sanitized route (set_user u req2))
            | None => Next (sanitized route (set_user u req2))
            end) as [r|e|req3] eqn:G; cbn [sv_req sv_state sv_events errorHandler].
  - split; [reflexivity|]. split; [reflexivity|]. left. now split.
  - split; [reflexivity|]. split; [reflexivity|]. left. now split.
  - assert (E : req3 = sanitized route (set_user u req2)
                /\ forall roles, route_roles route = Some roles -> In (ru_role u) roles).
    { destruct (route_roles route) as [roles|].
      - destruct (authorize_next _ _ _ G) as [-> [u' [Hu Hin]]]. split; [reflexivity|].
        intros roles' Hr. inversion Hr; subst. cbn in Hu. inversion Hu; subst. exact Hin.
      - inversion G. split; [reflexivity|]. intros roles Hr. discriminate. }
    destruct E as [-> Hroles].
    destruct (route_handler route (sanitized route (set_user u req2)) s) as [s' [r|e]] eqn:Hrun;
      cbn [sv_req sv_state sv_events fst];
      (split; [reflexivity|]); (split; [reflexivity|]); right;
      (split; [apply in_or_app; right; now left|]); (split; [|exact Hroles]);
      exists (sanitized route (set_user u req2)); rewrite Hrun; cbn [fst snd]; split;
      reflexivity.
Qed.

Lemma tenantMiddleware_next_any : forall req req',
  step_out (Tenant.tenantMiddleware env tenants req) = Next req' ->
  req_authorization req' = req_authorization req
  /\ req_user req' = req_user req
  /\ tenant_resolved req req'.
Proof.
  intros req req' H.
  destruct (Js.startsWith (req_originalUrl req) "/api/v1/auth") eqn:U.
  - unfold Tenant.tenantMiddleware in H. rewrite U in H. inversion H; subst.
    repeat split. now left.
  - destruct (tenantMiddleware_next env tenants req req' U H) as [t [-> [Hin [Hst Hid]]]].
    repeat split. right. exists t. repeat split; assumption.
Qed.

(** What [dispatch] leaves behind: the request that finished carries no
    user and its tenant as it came (authentication failed); or a user and a
    resolved tenant, with the handler either not entered and the tables
    untouched, or entered with an authorized role. *)
Lemma dispatch_shape : forall req s,
  let sv := dispatch env jwt_verify tenants users route req s in
  (sv_req sv = unrouted (passed_on req) /\ sv_state sv = s /\ ~ In EvHandler (sv_events sv))
  \/ exists u,
       req_user (sv_req sv) = Some u
       /\ tenant_resolved req (sv_req sv)
       /\ ((sv_state sv = s /\ ~ In EvHandler (sv_events sv))
           \/ (In EvHandler (sv_events sv)
               /\ (exists handled,
                     sv_req sv = match snd (route_handler route handled s) with
                                 | Sent _ => handled
                                 | Threw _ => passed_on handled
                                 end
                     /\ sv_state sv = fst (route_handler route handled s))
               /\ forall roles, route_roles route = Some roles -> In (ru_role u) roles)).
Proof.
  intros req s sv. subst sv. unfold dispatch.
  pose proof (authenticate_events jwt_verify tenants users req) as Ha.
  pose proof (authenticate_next jwt_verify tenants users req) as Hn.
  destruct (authenticate jwt_verify tenants users req) as [o c ev] eqn:A.
  cbn [step_out step_events step_console] in *.
  destruct o as [r|e|req1]; cbn [sv_events sv_req sv_state errorHandler].
  - left. repeat split. exact Ha.
  - left. repeat split. exact Ha.
  - destruct (Hn req1 eq_refl) as [u ->]. right. exists u.
    pose proof (tenantMiddleware_events env jwt_verify tenants (set_user u req)) as Ht.
    pose proof (tenantMiddleware_next_any (set_user u req)) as Htn.
    destruct (Tenant.tenantMiddleware env tenants (set_user u req)) as [o' c' ev'] eqn:T.
    cbn [step_out step_events step_console] in *.
    assert (Hno : ~ In EvHandler (ev ++ ev')).
    { intros H. apply in_app_or in H. tauto. }
    destruct o' as [r|e|req2]; cbn [sv_events sv_req sv_state errorHandler].
    + split; [reflexivity|]. split; [now left|]. left. now split.
    + split; [reflexivity|]. split; [now left|]. left. now split.
    + destruct (Htn req2 eq_refl) as [Hauth [Huser Hres]].
      assert (Hres' : forall r, req_tenantId r = req_tenantId req2 -> tenant_resolved req r).
      { intros r Hr. unfold Samples.tenant_resolved in *. rewrite Hr. exact Hres. }
      destruct (Js.startsWith (req_originalUrl req2)
                  (API_PREFIX env ++ mount_path (route_mount route))%string);
        cbn [sv_events sv_req sv_state].
      * assert (Ha' : step_out (authenticate jwt_verify tenants users req) = Next (set_user u req))
          by now rewrite A.
        destruct (router_shape req u s req2 Ha' Hauth) as [Hreq [Htid Hcases]].
        split; [exact Hreq|]. split; [now apply Hres'|].
        destruct Hcases as [[Hs Hnh] | [Hh [Hs Hr]]].
        -- left. split; [exact Hs|]. intros H. apply in_app_or in H.
           destruct H as [H|H]; [contradiction|]. apply in_app_or in H. tauto.
        -- right. split; [apply in_or_app; right; apply in_or_app; now right|].
           split; [exact Hs | exact Hr].
      * split; [exact Huser|]. split; [now apply Hres'|]. left. now split.
Qed.

End ChainShape.

(** X5.  Only a request whose role the route declares enters the route's handler:
    the tables are then what the handler made of them on the request the
    listener reads (with the path and the parameters restored, when the
    handler threw).  A request that does not enter it leaves the module's
    tables as they were, whatever the answer (401, 403, 404 or an error). *)
Theorem handler_runs_only_for_declared_roles :
  forall (env : Env) (jwt_verify : string -> JwtResult)
         (audit_insert : AuditRow -> option JsError) (now : Z) (stringify : json -> string)
         (tenants : list TenantRow) (users : list UserRow)
         (S : Type) (route : Route S) (req : Request) (s : S),
    let run := serve env jwt_verify audit_insert now stringify tenants users route req s in
    (In EvHandler (run_events run) ->
     exists u handled,
       req_user (run_req run) = Some u
       /\ run_req run = match snd (route_handler route handled s) with
                        | Sent _ => handled
                        | Threw _ => passed_on handled
                        end
       /\ run_state run = fst (route_handler route handled s)
       /\ forall roles, route_roles route = Some roles -> In (ru_role u) roles)
    /\ (~ In EvHandler (run_events run) -> run_state run = s).
Proof.
  intros env jwt_verify audit_insert now stringify tenants users S route req s run.
  subst run. unfold serve. cbn [run_events run_req run_state].
  assert (Hev : forall l (f : AuditRow -> Event) rows,
             (forall x, f x <> EvHandler) ->
             (In EvHandler (l ++ map f rows) <-> In EvHandler l)).
  { intros l f rows Hf. split; intros H; [|apply in_or_app; now left].
    apply in_app_or in H. destruct H as [H|H]; [exact H|].
    apply in_map_iff in H. destruct H as [x [Hx _]]. now apply Hf in Hx. }
  rewrite Hev by discriminate.
  destruct (dispatch_shape env jwt_verify tenants users route (incoming req) s)
    as [[_ [Hs Hn]] | [u [Hu [_ [[Hs Hn] | [Hh [Hs Hr]]]]]]].
  - split; [intros H; contradiction | intros _; exact Hs].
  - split; [intros H; contradiction | intros _; exact Hs].
  - split; [|intros H; contradiction].
    intros _. destruct Hs as [handled [Hreq Hs]]. exists u, handled. tauto.
Qed.

(** Alice's approval enters the handler of a route that declares
    buyer_admin, and that is her role. *)
Lemma approval_runs_for_buyer_admin :
  exists u,
    req_user (run_req (serve0 (perf_route Performance.ApprovePenalty) approve_request perf0)) = Some u
    /\ In (ru_role u) ["buyer_admin"].
Proof.
  destruct (proj1 (handler_runs_only_for_declared_roles env0 jwt0 (fun _ => None) 0 stringify0
                     tenants0 users0 _ (perf_route Performance.ApprovePenalty)
                     approve_request perf0)) as [u [handled [Hu [_ [_ Hr]]]]].
  - vm_compute. tauto.
  - exists u. split; [exact Hu|]. now apply Hr.
Defined.

(** X6.  An audit row is handed to the INSERT exactly when the chain resolved a
    tenant for the request, whoever answered it (a handler, the role guard
    with 403, the error handler); the row then carries that tenant's id,
    which is an active tenant of the table, and the resolved user's id.
    Requests turned away by [authenticate] or by [tenantMiddleware] leave no
    audit row. *)
Theorem audit_rows_follow_tenant_resolution :
  forall (env : Env) (jwt_verify : string -> JwtResult)
         (audit_insert : AuditRow -> option JsError) (now : Z) (stringify : json -> string)
         (tenants : list TenantRow) (users : list UserRow)
         (S : Type) (route : Route S) (req : Request) (s : S),
    let run := serve env jwt_verify audit_insert now stringify tenants users route req s in
    (req_tenantId (run_req run) = None /\ fin_attempts (run_audit run) = [])
    \/ exists t u row,
         In t tenants /\ t_status t = "active"
         /\ req_tenantId (run_req run) = Some (t_id t)
         /\ req_user (run_req run) = Some u
         /\ fin_attempts (run_audit run) = [row]
         /\ a_tenant_id row = t_id t
         /\ a_user_id row = Tenant.truthy_id (Some (ru_id u)).
Proof.
  intros env jwt_verify audit_insert now stringify tenants users S route req s run.
  subst run. unfold serve. cbn [run_req run_audit run_state].
  destruct (dispatch_shape env jwt_verify tenants users route (incoming req) s)
    as [[Hreq [Hs _]] | [u [Hu [Hres _]]]].
  - left. rewrite Hreq. now split.
  - destruct Hres as [Hnone | [t [Hin [Hst [Hid Ht]]]]].
    + left. cbn in Hnone. unfold onFinish. rewrite Hnone. now split.
    + right. exists t, u. unfold onFinish. rewrite Ht.
      assert (E : Tenant.truthy_id (Some (t_id t)) = Some (t_id t)).
      { unfold Tenant.truthy_id. now rewrite Hid. }
      rewrite E. unfold shouldAudit. rewrite Hu, orb_true_r.
      eexists. split; [exact Hin|]. split; [exact Hst|]. split; [reflexivity|].
      split; [reflexivity|].
      split; [destruct (audit_insert _); reflexivity|].
      split; [reflexivity|]. unfold auditData. cbn [a_user_id]. now rewrite Hu.
Qed.

(** ** middleware/auditLogger.js: sanitizeBody *)

Lemma set_keeps_keys : forall k v fields,
  assoc k fields <> None -> map fst (set k v fields) = map fst fields.
Proof.
  induction fields as [|[k' v'] rest IH]; cbn; intros H; [congruence|].
  destruct (String.eqb_spec k' k); cbn; [reflexivity|]. f_equal. now apply IH.
Qed.

Lemma redact_keeps_keys : forall k fields, map fst (redact k fields) = map fst fields.
Proof.
  intros k fields. unfold redact. destruct (assoc k fields) as [v|] eqn:E; cbn.
  - destruct (truthy v); [|reflexivity]. apply set_keeps_keys. congruence.
  - reflexivity.
Qed.

Lemma redact_settled : forall k fields,
  (truthy_opt (assoc k fields) = true -> assoc k fields = Some REDACTED) ->
  redact k fields = fields.
Proof.
  intros k fields H. unfold redact. destruct (truthy_opt (assoc k fields)); [|reflexivity].
  apply set_known. now apply H.
Qed.

(** X7.  [sanitizeBody] neither adds nor removes a field of the body it copies,
    and sanitizing what it returned changes nothing more: the placeholder is
    itself left alone. *)
Theorem sanitizeBody_is_idempotent_and_keeps_the_keys :
  forall b : json,
    sanitizeBody (Some (sanitizeBody (Some b))) = sanitizeBody (Some b)
    /\ (truthy b = true ->
        exists fields, sanitizeBody (Some b) = JObj fields
                       /\ map fst fields = map fst (spread b)).
Proof.
  intros b. destruct (truthy b) eqn:Hb.
  - destruct (sanitizeBody_fields b Hb) as [fields [Hs Hk]]. split.
    + rewrite Hs. unfold sanitizeBody at 1. cbn [truthy negb spread].
      assert (Hfix : forall k, In k secret_names ->
                truthy_opt (assoc k fields) = true -> assoc k fields = Some REDACTED).
      { intros k Hin Ht. destruct (truthy_opt (assoc k (spread b))) eqn:E.
        - now apply (proj1 (Hk k)).
        - rewrite (proj1 (proj2 (Hk k)) Hin E) in Ht. congruence. }
      rewrite (redact_settled "password") by (apply Hfix; cbn; tauto).
      rewrite (redact_settled "password_hash") by (apply Hfix; cbn; tauto).
      rewrite (redact_settled "token") by (apply Hfix; cbn; tauto).
      reflexivity.
    + intros _. exists fields. split; [exact Hs|].
      unfold sanitizeBody in Hs. rewrite Hb in Hs. cbn [negb] in Hs. inversion Hs.
      now rewrite !redact_keeps_keys.
  - split; [|discriminate]. unfold sanitizeBody. rewrite Hb. reflexivity.
Qed.

(** ** routes/performance.js: isolation and repetition *)

Section PenaltyIsolation.
Import Performance.
Variable validationErrors : Request -> list json.
Variable order_scorecards : Table -> Table.
Variable order_penalties : Table -> Table.
Variable date_ge : json -> json -> bool.
Variable date_le : json -> json -> bool.
Variable new_id : string.
Variable metric_id : nat -> string.
Variable now : Z.

Local Abbreviation perform' :=
  (perform validationErrors order_scorecards order_penalties date_ge date_le new_id metric_id now).

Lemma approve_keeps_tenant : forall u p, col "tenant_id" (approve now u p) = col "tenant_id" p.
Proof.
  intros u p. unfold approve. now rewrite !col_assign_other by discriminate.
Qed.

Lemma col_is_param_col : forall k v r,
  col_is_param k v r = true -> col k r = of_option_string v.
Proof.
  intros k v r. unfold col_is_param, col_is, col. destruct v as [s|]; [|discriminate].
  destruct (assoc k r) as [[| | |s'| |]|]; try discriminate.
  intros H. apply String.eqb_eq in H. now subst.
Qed.

(** X8.  No route of the performance router changes or removes a penalty of
    another tenant, and every penalty or scorecard a request leaves behind
    that was not there before carries the caller's resolved tenant id: the
    ids in the body or the path cannot direct a write at another tenant. *)
Theorem performance_writes_stay_in_the_callers_tenant :
  forall (op : Op) (req : Request) (db : Tables),
    let db' := fst (perform' op req db) in
    (forall i p,
        nth_error (penalties db) i = Some p ->
        col_is_param "tenant_id" (req_tenantId req) p = false ->
        nth_error (penalties db') i = Some p)
    /\ (forall p',
          In p' (penalties db') ->
          In p' (penalties db) \/ col "tenant_id" p' = of_option_string (req_tenantId req))
    /\ (exists added,
          performance_scorecards db' = performance_scorecards db ++ added
          /\ forall sc, In sc added ->
                        col "tenant_id" sc = of_option_string (req_tenantId req))
    /\ (List.length (penalties db) <= List.length (penalties db'))%nat
    /\ vendors db' = vendors db.
Proof.
  intros op req db db'.
  assert (Hrest : (exists added,
             performance_scorecards db' = performance_scorecards db ++ added
             /\ forall sc, In sc added ->
                           col "tenant_id" sc = of_option_string (req_tenantId req))
          /\ vendors db' = vendors db).
  { subst db'. unfold perform. destruct op; cbn [route_of route_roles route_handler].
    1, 3: split; [exists []; rewrite app_nil_r; split; [reflexivity | intros sc []] | reflexivity].
    - destruct (authorize ["buyer_admin"] req) as [r|e|req'] eqn:G;
        try (split; [exists []; rewrite app_nil_r; split; [reflexivity | intros sc []] | reflexivity]).
      destruct (authorize_admin _ _ G) as [-> _]. unfold createScorecard.
      destruct (validationErrors req);
        [|split; [exists []; rewrite app_nil_r; split; [reflexivity | intros sc []] | reflexivity]].
      split; [|reflexivity]. eexists. split; [reflexivity|].
      intros sc [<-|[]]. reflexivity.
    - destruct (authorize ["buyer_admin"] req) as [r|e|req'] eqn:G;
        try (split; [exists []; rewrite app_nil_r; split; [reflexivity | intros sc []] | reflexivity]).
      unfold createPenalty. destruct (validationErrors req');
        [|split; [exists []; rewrite app_nil_r; split; [reflexivity | intros sc []] | reflexivity]].
      destruct (req_user req');
        (split; [exists []; rewrite app_nil_r; split; [reflexivity | intros sc []] | reflexivity]).
    - destruct (authorize ["buyer_admin"] req) as [r|e|req'] eqn:G;
        try (split; [exists []; rewrite app_nil_r; split; [reflexivity | intros sc []] | reflexivity]).
      unfold approvePenalty. destruct (req_user req');
        [|split; [exists []; rewrite app_nil_r; split; [reflexivity | intros sc []] | reflexivity]].
      destruct (map _ _);
        (split; [exists []; rewrite app_nil_r; split; [reflexivity | intros sc []] | reflexivity]). }
  destruct Hrest as [Hsc Hv].
  destruct (perform_on_penalties validationErrors order_scorecards order_penalties date_ge date_le
              new_id metric_id now op req db)
    as [E | [[-> [u [Hu E]]] | [-> [u [Hu [Hr E]]]]]]; fold db' in E; rewrite E.
  - split; [tauto|]. split; [tauto|]. split; [exact Hsc|]. split; [lia | exact Hv].
  - split; [|split; [|split; [exact Hsc|split; [|exact Hv]]]].
    + intros i p Hp _. rewrite nth_error_app1 by (apply nth_error_Some; congruence). exact Hp.
    + intros p' Hin. apply in_app_or in Hin. destruct Hin as [Hin|[<-|[]]]; [now left|].
      right. reflexivity.
    + rewrite length_app. lia.
  - split; [|split; [|split; [exact Hsc|split; [|exact Hv]]]].
    + intros i p Hp Ht. unfold update. rewrite nth_error_map, Hp. cbn.
      unfold approvable. rewrite Ht, andb_false_r. reflexivity.
    + intros p' Hin. unfold update in Hin. apply in_map_iff in Hin.
      destruct Hin as [p [Hp Hin]]. destruct (approvable req p) eqn:A.
      * right. subst p'. rewrite approve_keeps_tenant. apply col_is_param_col.
        unfold approvable in A. apply andb_true_iff in A. destruct A as [A _].
        apply andb_true_iff in A. tauto.
      * left. now subst.
    + unfold update. rewrite length_map. lia.
Qed.

Lemma approved_is_not_approvable : forall req u p,
  approvable req (approve now u p) = false.
Proof.
  intros req u p. unfold approvable, approve.
  rewrite (col_is_assign_other "status") by discriminate.
  rewrite (col_is_assign_other "status") by discriminate.
  replace (col_is "status" "pending" (assign "status" (JStr "approved") p)) with false.
  - apply andb_false_r.
  - unfold col_is, assign. now rewrite assoc_set_same.
Qed.

Lemma nothing_left_to_approve : forall req u t,
  filter (approvable req) (update (approvable req) (approve now u) t) = [].
Proof.
  intros req u t. unfold update. induction t as [|p t IH]; cbn [map filter]; [reflexivity|].
  destruct (approvable req p) eqn:A.
  - now rewrite approved_is_not_approvable.
  - now rewrite A.
Qed.

(** X9.  Approval is not repeatable: whatever an approve request did, the same
    request sent again by a buyer_admin answers 404 and changes nothing. *)
Theorem second_approval_is_not_found :
  forall (req : Request) (db : Tables) (u : ReqUser),
    req_user req = Some u ->
    ru_role u = "buyer_admin" ->
    let db1 := fst (perform' ApprovePenalty req db) in
    perform' ApprovePenalty req db1
    = (db1, Sent (mkResponse 404
                    (JObj [("error", JStr "Penalty not found or cannot be approved")]))).
Proof.
  intros req db u Hu Hr db1.
  assert (Hnone : filter (approvable req) (penalties db1) = []).
  { subst db1. unfold perform. cbn [route_of route_roles route_handler].
    unfold authorize. rewrite Hu, Hr. cbn. unfold approvePenalty. rewrite Hu.
    destruct (map (approve now u) (filter (approvable req) (penalties db))) eqn:M.
    - cbn. now apply map_eq_nil in M.
    - cbn [fst with_penalties penalties]. apply nothing_left_to_approve. }
  unfold perform. cbn [route_of route_roles route_handler].
  unfold authorize. rewrite Hu, Hr. cbn. unfold approvePenalty. rewrite Hu, Hnone. reflexivity.
Qed.

End PenaltyIsolation.

(** Alice approves her tenant's pending penalty, then sends the request
    again. *)
Lemma alice_cannot_approve_twice :
  let db1 := fst (Performance.perform no_errors keep_order keep_order never_compared
                    never_compared penalty_2 metric_id0 0 Performance.ApprovePenalty
                    (as_alice approve_request) perf0) in
  map (col "status") (Performance.penalties db1) = [JStr "approved"]
  /\ Performance.perform no_errors keep_order keep_order never_compared never_compared
       penalty_2 metric_id0 0 Performance.ApprovePenalty (as_alice approve_request) db1
     = (db1, Sent (mkResponse 404
                     (JObj [("error", JStr "Penalty not found or cannot be approved")]))).
Proof.
  split; [reflexivity|].
  exact (second_approval_is_not_found no_errors keep_order keep_order never_compared
           never_compared penalty_2 metric_id0 0 (as_alice approve_request) perf0 alice
           eq_refl eq_refl).
Defined.

(** ** routes/risk.js: levels and the consolidated vendor master *)

Lemma threshold_mono : forall t q1 q2 : Q,
  (q1 <= q2)%Q -> Qle_bool t q1 = true -> Qle_bool t q2 = true.
Proof.
  intros t q1 q2 H H1. apply Qle_bool_iff. apply Qle_bool_iff in H1.
  now apply Qle_trans with q1.
Qed.

(** X10.  [calculateRiskLevel] is monotone: a higher score never gets a less
    severe level. *)
Theorem calculateRiskLevel_is_monotone :
  forall q1 q2 : Q,
    (q1 <= q2)%Q ->
    (level_rank (Risk.calculateRiskLevel q1) <= level_rank (Risk.calculateRiskLevel q2))%nat.
Proof.
  intros q1 q2 H. unfold Risk.calculateRiskLevel.
  pose proof (threshold_mono 75 q1 q2 H) as M75.
  pose proof (threshold_mono 50 q1 q2 H) as M50.
  pose proof (threshold_mono 25 q1 q2 H) as M25.
  destruct (Qle_bool 75 q1), (Qle_bool 50 q1), (Qle_bool 25 q1);
    destruct (Qle_bool 75 q2), (Qle_bool 50 q2), (Qle_bool 25 q2);
    cbn; try lia;
    try (specialize (M75 eq_refl); discriminate);
    try (specialize (M50 eq_refl); discriminate);
    try (specialize (M25 eq_refl); discriminate).
Qed.

(** A score of 30 is medium, one of 80 critical. *)
Lemma score_30_is_below_score_80 :
  (30 <= 80)%Q
  /\ (level_rank (Risk.calculateRiskLevel 30) <= level_rank (Risk.calculateRiskLevel 80))%nat.
Proof.
  assert (H : (30 <= 80)%Q) by (unfold Qle; cbn; lia).
  split; [exact H | exact (calculateRiskLevel_is_monotone 30 80 H)].
Defined.

Lemma update_keeps_others : forall (q : Row -> bool) f (t : Table),
  (forall r, q r = true -> q (f r) = true) ->
  filter (fun r => negb (q r)) (update q f t) = filter (fun r => negb (q r)) t.
Proof.
  intros q f t Hq. unfold update. induction t as [|r t IH]; cbn [map filter]; [reflexivity|].
  destruct (q r) eqn:E.
  - rewrite (Hq r E). cbn [negb]. exact IH.
  - rewrite E. cbn [negb]. now rewrite IH.
Qed.

Section VendorMaster.
Import Risk.
Variable new_master_id : string.
Variable now : Z.

Lemma col_is_param_string : forall k v r,
  col_is_param k v r = true -> exists s, v = Some s /\ assoc k r = Some (JStr s).
Proof.
  intros k v r. unfold col_is_param, col_is. destruct v as [s|]; [|discriminate].
  destruct (assoc k r) as [[| | |s'| |]|]; try discriminate.
  intros H. apply String.eqb_eq in H. subst. now exists s.
Qed.

(** X11.  [updateVendorMaster] is an upsert keyed by the vendor id: without a
    vendor of that id it does nothing; with one, the master holds a row for
    the vendor afterwards, every row for the vendor carries the new score
    and level, the rows of other vendors are as they were, and a row is
    added only when the vendor had none.  The other tables are not
    touched. *)
Theorem updateVendorMaster_is_an_upsert :
  forall (vendorId : option string) (riskScore : Q) (riskLevel : RiskLevel) (w : World),
    let w' := updateVendorMaster new_master_id now vendorId riskScore riskLevel w in
    let mine := col_is_param "vendor_id" vendorId in
    (vendors w' = vendors w /\ vendor_risk_assessments w' = vendor_risk_assessments w
     /\ risk_alerts w' = risk_alerts w)
    /\ (filter (col_is_param "id" vendorId) (vendors w) = [] -> w' = w)
    /\ (filter (col_is_param "id" vendorId) (vendors w) <> [] ->
        existsb mine (vendor_master_consolidated w') = true
        /\ forall r, In r (vendor_master_consolidated w') -> mine r = true ->
                     col "risk_score" r = JNum riskScore
                     /\ col "risk_level" r = JStr (level_name riskLevel))
    /\ filter (fun r => negb (mine r)) (vendor_master_consolidated w')
       = filter (fun r => negb (mine r)) (vendor_master_consolidated w)
    /\ (existsb mine (vendor_master_consolidated w) = true ->
        List.length (vendor_master_consolidated w')
        = List.length (vendor_master_consolidated w)).
Proof.
  intros vendorId riskScore riskLevel w w' mine. subst w'. unfold updateVendorMaster.
  destruct (filter (col_is_param "id" vendorId) (vendors w)) as [|v vs] eqn:Hv.
  - split; [now repeat split|]. split; [reflexivity|]. split; [intros H; now contradiction H|].
    split; reflexivity.
  - cbn [vendors vendor_risk_assessments risk_alerts vendor_master_consolidated].
    split; [repeat split|]. split; [discriminate|].
    assert (Hin : In v (filter (col_is_param "id" vendorId) (vendors w)))
      by (rewrite Hv; now left).
    apply filter_In in Hin. destruct Hin as [_ Hid].
    destruct (col_is_param_string _ _ _ Hid) as [vid [-> Hassoc]].
    fold mine. destruct (existsb mine (vendor_master_consolidated w)) eqn:Hex.
    + split; [intros _; split|split].
      * apply existsb_exists in Hex. destruct Hex as [r [Hr Hm]].
        apply existsb_exists. eexists. split.
        -- unfold update. apply in_map. exact Hr.
        -- cbn beta. rewrite Hm. subst mine. unfold col_is_param in *.
           now rewrite !col_is_assign_other by discriminate.
      * intros r Hr Hm. unfold update in Hr. apply in_map_iff in Hr.
        destruct Hr as [r0 [<- Hr0]]. destruct (mine r0) eqn:E.
        -- split.
           ++ rewrite col_assign_other by discriminate.
              rewrite col_assign_other by discriminate. apply col_assign_same.
           ++ rewrite col_assign_other by discriminate. apply col_assign_same.
        -- congruence.
      * apply update_keeps_others. intros r E. subst mine. unfold col_is_param in *.
        now rewrite !col_is_assign_other by discriminate.
      * intros _. unfold update. apply length_map.
    + split; [intros _; split|split].
      * rewrite existsb_app. apply orb_true_iff. right. cbn [existsb].
        rewrite orb_false_r. subst mine. unfold col_is_param, col_is, col. cbn [assoc].
        change (("vendor_id" =? "id")%string) with false.
        change (("vendor_id" =? "vendor_id")%string) with true.
        cbn iota. rewrite Hassoc. apply String.eqb_refl.
      * intros r Hr Hm. apply in_app_or in Hr. destruct Hr as [Hr|[<-|[]]].
        -- assert (existsb mine (vendor_master_consolidated w) = true)
             by (apply existsb_exists; now exists r).
           congruence.
        -- split; reflexivity.
      * rewrite filter_app. cbn [filter].
        replace (mine _) with true; [cbn [negb]; apply app_nil_r|].
        subst mine. unfold col_is_param, col_is, col. cbn [assoc].
        change (("vendor_id" =? "id")%string) with false.
        change (("vendor_id" =? "vendor_id")%string) with true.
        cbn iota. rewrite Hassoc. symmetry. apply String.eqb_refl.
      * discriminate.
Qed.

End VendorMaster.

(** The sample vendor gets its first master row. *)
Lemma first_assessment_adds_the_master_row :
  filter (col_is_param "id" (Some vendor_1)) (Risk.vendors risk0) <> []
  /\ existsb (col_is_param "vendor_id" (Some vendor_1))
       (Risk.vendor_master_consolidated
          (Risk.updateVendorMaster master_1 0 (Some vendor_1) 80 Risk.critical risk0)) = true.
Proof.
  assert (H : filter (col_is_param "id" (Some vendor_1)) (Risk.vendors risk0) <> [])
    by (vm_compute; discriminate).
  split; [exact H|].
  exact (proj1 (proj1 (proj2 (proj2 (updateVendorMaster_is_an_upsert master_1 0
                  (Some vendor_1) 80 Risk.critical risk0))) H)).
Defined.

(** ** routes/procurement.js: the manual sync and the ERP reference *)

Section ManualSync.
Import Procurement.
Variable erp_remote : string -> json -> option JsError.
Variable sync_log_insert : option JsError.
Variable new_log_id : string.
Variable now : Z.

Local Abbreviation sync := (syncPurchaseOrder erp_remote sync_log_insert new_log_id now).

Lemma erp_calls_log_event : forall e w,
  erp_calls (log_event e w)
  = (erp_calls w ++ match e with ErpRemote _ _ => [e] | _ => [] end)%list.
Proof.
  intros e w. unfold erp_calls, log_event. cbn [trace]. rewrite filter_app. cbn [filter].
  destruct e; reflexivity.
Qed.

(** X12.  The manual sync acts only on an order of the caller's tenant, and a
    failed exchange writes nothing.  Without an order of that id in the
    caller's tenant the route answers 404 with no ERP exchange and no write.
    When the exchange for a found order fails, the route answers 503 with the
    error's message after that one exchange, and neither the purchase orders
    nor the sync logs change: unlike at creation, the order is not marked
    failed.  When the exchange succeeds but the sync-log INSERT is rejected,
    the route answers 503 as well, with the order already marked synced. *)
Theorem manual_sync_is_scoped_and_writes_nothing_on_failure :
  forall (req : Request) (w : World),
    let mine := fun r => col_is_param "id" (req_params_id req) r
                         && col_is_param "tenant_id" (req_tenantId req) r in
    let w' := fst (sync req w) in
    (filter mine (purchase_orders w) = [] ->
     snd (sync req w) = Sent (mkResponse 404 (JObj [("error", JStr "Purchase order not found")]))
     /\ purchase_orders w' = purchase_orders w
     /\ integration_sync_logs w' = integration_sync_logs w
     /\ erp_calls w' = erp_calls w)
    /\ (forall po rest id e,
          filter mine (purchase_orders w) = po :: rest ->
          truthy (col "erp_system" po) = true ->
          req_params_id req = Some id ->
          erp_remote id (col "erp_system" po) = Some e ->
          snd (sync req w)
          = Sent (mkResponse 503 (JObj [("error", JStr "ERP sync failed");
                                        ("message", JStr (err_message e));
                                        ("retryable", JBool true)]))
          /\ purchase_orders w' = purchase_orders w
          /\ integration_sync_logs w' = integration_sync_logs w
          /\ erp_calls w' = (erp_calls w ++ [ErpRemote id (col "erp_system" po)])%list)
    /\ (forall po rest id e,
          filter mine (purchase_orders w) = po :: rest ->
          truthy (col "erp_system" po) = true ->
          req_params_id req = Some id ->
          erp_remote id (col "erp_system" po) = None ->
          sync_log_insert = Some e ->
          snd (sync req w)
          = Sent (mkResponse 503 (JObj [("error", JStr "ERP sync failed");
                                        ("message", JStr (err_message e));
                                        ("retryable", JBool true)]))
          /\ (forall r, In r (purchase_orders w') -> col_is "id" id r = true ->
                        col "erp_sync_status" r = JStr "synced")
          /\ integration_sync_logs w' = integration_sync_logs w).
Proof.
  intros req w mine w'. subst w' mine. unfold syncPurchaseOrder.
  change (purchase_orders (log_event DbSelectPO w)) with (purchase_orders w).
  split; [|split].
  - intros ->. cbn [fst snd]. rewrite erp_calls_log_event. rewrite app_nil_r.
    now repeat split.
  - intros po rest id e -> -> Hid He. rewrite Hid. cbn [negb]. unfold syncPOToERP.
    rewrite He. cbn [fst snd]. rewrite !erp_calls_log_event, app_nil_r.
    split; [reflexivity|]. split; [reflexivity|]. split; reflexivity.
  - intros po rest id e -> -> Hid Hok ->. rewrite Hid. cbn [negb]. unfold syncPOToERP.
    rewrite Hok. cbn [fst snd]. split; [reflexivity|]. split; [|reflexivity].
    intros r Hr Hr_id. unfold log_event, with_orders in Hr. cbn [purchase_orders] in Hr.
    unfold update in Hr. apply in_map_iff in Hr. destruct Hr as [r0 [<- _]] .
    destruct (col_is "id" id r0) eqn:E.
    + rewrite col_assign_other by discriminate. apply col_assign_same.
    + congruence.
Qed.

Lemma syncPOToERP_orders : forall id erp w,
  erp_remote id erp = None ->
  purchase_orders (fst (syncPOToERP erp_remote sync_log_insert new_log_id now id erp w))
  = update (col_is "id" id)
      (fun r => assign "erp_po_id" (JStr ("ERP-" ++ String.substring 0 8 id)%string)
                  (assign "erp_sync_status" (JStr "synced") r))
      (purchase_orders w).
Proof.
  intros id erp w H. unfold syncPOToERP. rewrite H. destruct sync_log_insert; reflexivity.
Qed.

(** X13.  [syncPOToERP] derives the ERP reference from the first eight characters
    of the order id alone: two orders whose ids agree there are given the
    same reference. *)
Theorem erp_reference_depends_on_eight_characters :
  forall (id1 id2 : string) (erp1 erp2 : json) (w : World),
    String.substring 0 8 id1 = String.substring 0 8 id2 ->
    erp_remote id1 erp1 = None ->
    erp_remote id2 erp2 = None ->
    let w2 := fst (syncPOToERP erp_remote sync_log_insert new_log_id now id2 erp2
                     (fst (syncPOToERP erp_remote sync_log_insert new_log_id now id1 erp1 w))) in
    forall r, In r (purchase_orders w2) ->
              col_is "id" id1 r || col_is "id" id2 r = true ->
              col "erp_po_id" r = JStr ("ERP-" ++ String.substring 0 8 id1)%string.
Proof.
  intros id1 id2 erp1 erp2 w Hpre H1 H2 w2 r Hr Hid. subst w2.
  rewrite (syncPOToERP_orders _ _ _ H2), (syncPOToERP_orders _ _ _ H1) in Hr.
  unfold update in Hr. rewrite map_map in Hr. apply in_map_iff in Hr.
  destruct Hr as [r0 [<- _]] .
  destruct (col_is "id" id1 r0) eqn:E1.
  - rewrite !col_is_assign_other by discriminate.
    destruct (col_is "id" id2 r0) eqn:E2.
    + rewrite <- Hpre. apply col_assign_same.
    + apply col_assign_same.
  - destruct (col_is "id" id2 r0) eqn:E2.
    + rewrite <- Hpre. apply col_assign_same.
    + rewrite E1, E2 in Hid. discriminate.
Qed.

End ManualSync.

(** The ERP system is down when Alice re-syncs the failed order: the order
    stays as it was. *)
Lemma failed_resync_writes_nothing :
  snd (Procurement.syncPurchaseOrder erp_down None "log-2" 0 (as_alice resync_request) proc1)
  = Sent (mkResponse 503 (JObj [("error", JStr "ERP sync failed");
                                ("message", JStr "connect ETIMEDOUT");
                                ("retryable", JBool true)]))
  /\ Procurement.purchase_orders
       (fst (Procurement.syncPurchaseOrder erp_down None "log-2" 0 (as_alice resync_request) proc1))
     = Procurement.purchase_orders proc1.
Proof.
  destruct (proj1 (proj2 (manual_sync_is_scoped_and_writes_nothing_on_failure erp_down None
                            "log-2" 0 (as_alice resync_request) proc1))
              _ [] po_1 _ eq_refl eq_refl eq_refl eq_refl) as [H1 [H2 _]].
  split; [exact H1 | exact H2].
Defined.

(** The second order gets the reference of the first, ERP-7c9e6679. *)
Lemma two_orders_share_an_erp_reference :
  String.substring 0 8 po_1 = String.substring 0 8 po_2
  /\ col "erp_po_id"
       (nth 1 (Procurement.purchase_orders
                 (fst (Procurement.syncPOToERP erp_up None "log-2" 0 po_2 (JStr "SAP")
                         (fst (Procurement.syncPOToERP erp_up None "log-2" 0 po_1 (JStr "SAP")
                                 proc1))))) [])
     = JStr ("ERP-" ++ String.substring 0 8 po_1)%string.
Proof.
  split; [reflexivity|].
  apply (erp_reference_depends_on_eight_characters erp_up None "log-2" 0 po_1 po_2
           (JStr "SAP") (JStr "SAP") proc1 eq_refl eq_refl eq_refl).
  - right. left. reflexivity.
  - reflexivity.
Defined.

(** ** routes/performance.js: the listings *)

Section Listings.
Import Performance.
Variable validationErrors : Request -> list json.
Variable order_scorecards : Table -> Table.
Variable order_penalties : Table -> Table.
Variable date_ge : json -> json -> bool.
Variable date_le : json -> json -> bool.
Variable new_id : string.
Variable metric_id : nat -> string.
Variable now : Z.

Local Abbreviation perform' :=
  (perform validationErrors order_scorecards order_penalties date_ge date_le new_id metric_id now).

Lemma join_vendor_row : forall with_code db p r,
  In r (join_vendor with_code db p) ->
  exists v, In v (vendors db) /\ cols_equal "vendor_id" p "id" v = true
            /\ col "tenant_id" r = col "tenant_id" p /\ col "id" r = col "id" p.
Proof.
  intros with_code db p r H. unfold join_vendor in H. apply in_map_iff in H.
  destruct H as [v [<- Hv]]. apply filter_In in Hv. destruct Hv as [Hin Heq].
  exists v. split; [exact Hin|]. split; [exact Heq|].
  destruct with_code; rewrite ?col_assign_other by discriminate; split; reflexivity.
Qed.

(** X14.  The two listings answer with rows of the caller's tenant only, whatever
    the query string holds: every listed penalty or scorecard is one of the
    table whose tenant_id is the request's resolved tenant, and the tables
    are left as they were.  The ORDER BY is taken to return rows it was
    given. *)
Theorem listings_show_only_the_callers_tenant :
  forall (req : Request) (db : Tables),
    (forall t r, In r (order_penalties t) -> In r t) ->
    (forall t r, In r (order_scorecards t) -> In r t) ->
    (exists rows,
        perform' ListPenalties req db
        = (db, Sent (json_ok (JObj [("penalties", JArr (map JObj rows))])))
        /\ forall r, In r rows ->
                     col "tenant_id" r = of_option_string (req_tenantId req)
                     /\ exists p, In p (penalties db) /\ col "id" p = col "id" r)
    /\ (exists rows,
          perform' ListScorecards req db
          = (db, Sent (json_ok (JObj [("scorecards", JArr (map JObj rows))])))
          /\ forall r, In r rows ->
                       col "tenant_id" r = of_option_string (req_tenantId req)
                       /\ exists sc, In sc (performance_scorecards db)
                                     /\ col "id" sc = col "id" r).
Proof.
  intros req db Hp Hs. split.
  - eexists. split; [reflexivity|]. intros r Hr. apply Hp in Hr.
    apply filter_In in Hr. destruct Hr as [Hr _]. apply in_flat_map in Hr.
    destruct Hr as [p [Hin Hj]]. apply filter_In in Hin. destruct Hin as [Hin Ht].
    destruct (join_vendor_row _ _ _ _ Hj) as [v [_ [_ [Et Ei]]]]. split.
    + rewrite Et. now apply col_is_param_col.
    + exists p. split; [exact Hin | now symmetry].
  - unfold perform. cbn [route_of route_roles route_handler]. unfold listScorecards.
    match goal with
    | |- exists rows, (_, Sent (json_ok (JObj [(_, JArr (map _ ?l))]))) = _ /\ _ =>
        exists (map (fun sc => set "metrics"
                                 (JArr (map JObj (filter (fun m => cols_equal "scorecard_id" m "id" sc)
                                                    (performance_metrics db))))
                                 sc) l)
    end.
    split; [now rewrite map_map|].
    intros r Hr. apply in_map_iff in Hr. destruct Hr as [sc [<- Hr]]. apply Hs in Hr.
    apply filter_In in Hr. destruct Hr as [Hr _]. apply in_flat_map in Hr.
    destruct Hr as [p [Hin Hj]]. apply filter_In in Hin. destruct Hin as [Hin Ht].
    destruct (join_vendor_row _ _ _ _ Hj) as [v [_ [_ [Et Ei]]]].
    assert (Hset : forall k m, k <> "metrics" -> col k (set "metrics" m sc) = col k sc)
      by (intros k m Hk; unfold col; rewrite assoc_set_other by congruence; reflexivity).
    rewrite !Hset by discriminate. split.
    + rewrite Et. now apply col_is_param_col.
    + exists p. split; [exact Hin | now symmetry].
Qed.

(** X15.  POST /penalties stores the vendor_id of the body without looking the
    vendor up in the caller's tenant, and the listing joins the vendors on
    the id alone: once a buyer_admin has created a penalty naming a vendor of
    the table, a listing for the same tenant shows that penalty with the
    vendor's name, whichever tenant owns the vendor row. *)
Theorem penalty_listing_names_the_vendor_of_any_tenant :
  forall (create list : Request) (db : Tables) (u : ReqUser) (tid vid : string) (v : Row),
    validationErrors create = [] ->
    req_user create = Some u ->
    ru_role u = "buyer_admin" ->
    req_tenantId create = Some tid ->
    req_tenantId list = Some tid ->
    body_field "vendor_id" create = Some (JStr vid) ->
    get "vendor_id" (req_query list) = None ->
    get "status" (req_query list) = None ->
    In v (vendors db) ->
    assoc "id" v = Some (JStr vid) ->
    (forall t r, In r t -> In r (order_penalties t)) ->
    exists rows,
      snd (perform' ListPenalties list (fst (perform' CreatePenalty create db)))
      = Sent (json_ok (JObj [("penalties", JArr (map JObj rows))]))
      /\ In (assign "vendor_name" (col "name" v) (new_penalty new_id now create u)) rows.
Proof.
  intros create list db u tid vid v Hval Hu Hrole Ht Ht' Hvid Hq1 Hq2 Hv Hid Hord.
  eexists. split; [reflexivity|]. apply Hord. apply filter_In. split.
  - apply in_flat_map. exists (new_penalty new_id now create u). split.
    + apply filter_In. split.
      * unfold perform. cbn [route_of route_roles route_handler]. unfold authorize.
        rewrite Hu, Hrole. cbn. unfold createPenalty. rewrite Hval, Hu.
        cbn [fst with_penalties penalties]. apply in_or_app. right. now left.
      * rewrite Ht'. unfold new_penalty, col_is_param, col_is. cbn [assoc].
        change (("tenant_id" =? "id")%string) with false.
        change (("tenant_id" =? "tenant_id")%string) with true. cbn iota.
        rewrite Ht. cbn [of_option_string]. apply String.eqb_refl.
    + unfold join_vendor. apply in_map_iff. exists v. split; [reflexivity|].
      apply filter_In. split.
      * unfold perform. cbn [route_of route_roles route_handler]. unfold authorize.
        rewrite Hu, Hrole. cbn. unfold createPenalty. rewrite Hval, Hu. exact Hv.
      * unfold cols_equal, new_penalty. cbn [assoc].
        change (("vendor_id" =? "id")%string) with false.
        change (("vendor_id" =? "tenant_id")%string) with false.
        change (("vendor_id" =? "vendor_id")%string) with true. cbn iota.
        rewrite Hvid, Hid. cbn [param]. apply String.eqb_refl.
  - unfold where_query. rewrite Hq1, Hq2. reflexivity.
Qed.

End Listings.

(** Alice lists the penalties of her tenant. *)
Lemma alice_lists_her_tenants_penalty :
  exists rows,
    Performance.perform no_errors keep_order keep_order never_compared never_compared
      penalty_2 metric_id0 0 Performance.ListPenalties (as_alice list_penalties_request) perf1
    = (perf1, Sent (json_ok (JObj [("penalties", JArr (map JObj rows))])))
    /\ forall r, In r rows ->
                 col "tenant_id" r = of_option_string (req_tenantId (as_alice list_penalties_request))
                 /\ exists p, In p (Performance.penalties perf1) /\ col "id" p = col "id" r.
Proof.
  exact (proj1 (listings_show_only_the_callers_tenant no_errors keep_order keep_order
                  never_compared never_compared penalty_2 metric_id0 0
                  (as_alice list_penalties_request) perf1
                  (fun t r H => H) (fun t r H => H))).
Defined.

(** Alice creates a penalty against tenant B's vendor and finds the vendor's
    name in her listing. *)
Lemma alice_reads_the_name_of_tenant_bs_vendor :
  exists rows,
    snd (Performance.perform no_errors keep_order keep_order never_compared never_compared
           penalty_2 metric_id0 0 Performance.ListPenalties (as_alice list_penalties_request)
           (fst (Performance.perform no_errors keep_order keep_order never_compared
                   never_compared penalty_2 metric_id0 0 Performance.CreatePenalty
                   (as_alice foreign_vendor_penalty_request) perf1)))
    = Sent (json_ok (JObj [("penalties", JArr (map JObj rows))]))
    /\ In (assign "vendor_name" (JStr "Globex")
             (Performance.new_penalty penalty_2 0 (as_alice foreign_vendor_penalty_request) alice))
         rows.
Proof.
  apply (penalty_listing_names_the_vendor_of_any_tenant no_errors keep_order keep_order
           never_compared never_compared penalty_2 metric_id0 0
           (as_alice foreign_vendor_penalty_request) (as_alice list_penalties_request) perf1
           alice tenant_a_id vendor_9
           [("id", JStr vendor_9); ("tenant_id", JStr tenant_b_id); ("name", JStr "Globex")]
           eq_refl eq_refl eq_refl eq_refl eq_refl eq_refl eq_refl eq_refl).
  - right. now left.
  - reflexivity.
  - intros t r H. exact H.
Defined.

(** ** routes/contract.js: creating and locking contracts *)


Section ContractCreation.
Import ContractWrites.
Variable validationErrors : Request -> list json.
Variable contractNumber : option json -> nat -> string.
Variable interpolated : json -> string.
Variable stored_text : json -> string.
Variable contract_insert : Contract.Tables -> Row -> option JsError.
Variable new_contract_id : string.
Variable new_clause_id : string.
Variable now : Z.

Local Abbreviation create :=
  (createContract validationErrors contractNumber interpolated stored_text contract_insert
     new_contract_id new_clause_id now).
Local Abbreviation contract_of :=
  (new_contract contractNumber interpolated stored_text new_contract_id now).



End ContractCreation.



Lemma fold_q_max_ge : forall qs m q,
  (q <= m)%Q \/ In q qs -> (q <= fold_left ContractWrites.q_max qs m)%Q.
Proof.
  induction qs as [|x qs IH]; intros m q H; cbn [fold_left].
  - destruct H as [H|[]]. exact H.
  - apply IH. unfold ContractWrites.q_max. destruct (Qle_bool m x) eqn:E.
    + apply Qle_bool_iff in E. destruct H as [H|[<-|H]].
      * left. now apply Qle_trans with m.
      * left. apply Qle_refl.
      * now right.
    + destruct H as [H|[<-|H]].
      * now left.
      * left. destruct (Qlt_le_dec m x) as [L|L].
        -- apply Qlt_le_weak in L. apply Qle_bool_iff in L. congruence.
        -- exact L.
      * now right.
Qed.

Lemma next_version_is_fresh : forall id versions v q,
  In v versions ->
  col_is_param "contract_id" id v = true ->
  col "version_number" v = JNum q ->
  (q < ContractWrites.next_version id versions)%Q.
Proof.
  intros id versions v q Hin Hid Hq.
  assert (Hq_in : In q (ContractWrites.version_numbers id versions)).
  { unfold ContractWrites.version_numbers. apply in_flat_map. exists v. split.
    - apply filter_In. now split.
    - rewrite Hq. now left. }
  unfold ContractWrites.next_version, ContractWrites.sql_max.
  destruct (ContractWrites.version_numbers id versions) as [|m qs]; [contradiction|].
  assert (Hle : (q <= fold_left ContractWrites.q_max qs m)%Q).
  { apply fold_q_max_ge. destruct Hq_in as [<-|H]; [left; apply Qle_refl | now right]. }
  apply Qle_lt_trans with (fold_left ContractWrites.q_max qs m + 0)%Q.
  - now rewrite Qplus_0_r.
  - apply Qplus_lt_r. reflexivity.
Qed.

Section ContractLocking.
Import ContractWrites.
Variable new_version_id : nat -> string.
Variable now : Z.

Local Abbreviation lockIt := (lockContract new_version_id now).

Lemma locked_is_not_lockable : forall req u c, lockable req (lock now u c) = false.
Proof.
  intros req u c. unfold lockable, lock.
  rewrite (col_is_assign_other "status") by discriminate.
  rewrite (col_is_assign_other "status") by discriminate.
  replace (col_is "status" "in_review" (assign "status" (JStr "locked") c)) with false.
  - apply andb_false_r.
  - unfold col_is, assign. now rewrite assoc_set_same.
Qed.

Lemma nothing_left_to_lock : forall req u t,
  filter (lockable req) (map (fun r => if lockable req r then lock now u r else r) t) = [].
Proof.
  intros req u t. induction t as [|x t IH]; cbn [map filter]; [reflexivity|].
  destruct (lockable req x) eqn:E.
  - now rewrite locked_is_not_lockable.
  - now rewrite E.
Qed.

Lemma snapshots_rows : forall n version u cs s,
  In s (snapshots new_version_id now n version u cs) ->
  exists c, In c cs /\ col "contract_id" s = col "id" c
            /\ col "version_number" s = JNum version
            /\ col "content" s = col "content" c
            /\ col "changed_by" s = JStr (ru_id u).
Proof.
  intros n version u cs. revert n. induction cs as [|c cs IH]; intros n s H; [contradiction|].
  destruct H as [<-|H].
  - exists c. split; [now left|]. now repeat split.
  - destruct (IH _ _ H) as [c' [Hin Hc']]. exists c'. split; [now right | exact Hc'].
Qed.

(** X18.  Locking a contract under review of the caller's tenant marks it locked
    by the caller and files a snapshot of its content under a version number
    greater than every number already on file for that contract; nothing
    else is written, and the same request sent again answers 404. *)
Theorem lockContract_files_a_snapshot_under_a_fresh_number :
  forall (req : Request) (db : Contract.Tables) (u : ReqUser) (c : Row) (rest : Table),
    req_user req = Some u ->
    filter (lockable req) (Contract.contracts db) = c :: rest ->
    let db' := fst (lockIt req db) in
    snd (lockIt req db)
    = Sent (json_ok (JObj [("contract", JObj (lock now u c));
                           ("message", JStr "Contract locked successfully")]))
    /\ Contract.contracts db' = update (lockable req) (lock now u) (Contract.contracts db)
    /\ (exists snaps,
          Contract.contract_versions db' = Contract.contract_versions db ++ snaps
          /\ snaps <> []
          /\ forall s, In s snaps ->
               col "contract_id" s = of_option_string (req_params_id req)
               /\ (exists q, col "version_number" s = JNum q
                    /\ forall v q', In v (Contract.contract_versions db) ->
                                    col_is_param "contract_id" (req_params_id req) v = true ->
                                    col "version_number" v = JNum q' -> (q' < q)%Q)
               /\ col "changed_by" s = JStr (ru_id u))
    /\ Contract.contract_clauses db' = Contract.contract_clauses db
    /\ lockIt req db'
       = (db', Sent (mkResponse 404
                       (JObj [("error", JStr "Contract not found or cannot be locked")]))).
Proof.
  intros req db u c rest Hu Hsel db'.
  assert (Hrun : lockIt req db
                 = (with_versions
                      (Contract.contract_versions db ++
                         snapshots new_version_id now 0
                           (next_version (req_params_id req) (Contract.contract_versions db)) u
                           (filter (col_is_param "id" (req_params_id req))
                              (update (lockable req) (lock now u) (Contract.contracts db))))
                      (with_contracts (update (lockable req) (lock now u) (Contract.contracts db))
                         db),
                    Sent (json_ok (JObj [("contract", JObj (lock now u c));
                                         ("message", JStr "Contract locked successfully")])))).
  { unfold lockContract. rewrite Hu, Hsel. reflexivity. }
  subst db'. rewrite Hrun. cbn [fst snd]. split; [reflexivity|]. split; [reflexivity|].
  assert (Hc : In c (filter (lockable req) (Contract.contracts db))) by (rewrite Hsel; now left).
  apply filter_In in Hc. destruct Hc as [Hc_in Hc_lock].
  assert (Hc_id : col_is_param "id" (req_params_id req) c = true).
  { unfold lockable in Hc_lock. apply andb_true_iff in Hc_lock. destruct Hc_lock as [H _].
    apply andb_true_iff in H. tauto. }
  split; [|split].
  - eexists. split; [reflexivity|]. split.
    + assert (Hin : In (lock now u c)
                      (filter (col_is_param "id" (req_params_id req))
                         (update (lockable req) (lock now u) (Contract.contracts db)))).
      { apply filter_In. split.
        - unfold update. apply in_map_iff. exists c. rewrite Hc_lock. now split.
        - unfold lock. destruct (req_params_id req) as [id|]; [|discriminate].
          cbn [col_is_param] in *. now rewrite !col_is_assign_other by discriminate. }
      destruct (filter (col_is_param "id" (req_params_id req))
                  (update (lockable req) (lock now u) (Contract.contracts db)));
        [contradiction | discriminate].
    + intros s Hs. destruct (snapshots_rows _ _ _ _ _ Hs) as [c' [Hc' [Eid [Ever [_ Eby]]]]].
      apply filter_In in Hc'. destruct Hc' as [_ Hc'_id]. split; [|split].
      * rewrite Eid. now apply col_is_param_col.
      * exists (next_version (req_params_id req) (Contract.contract_versions db)).
        split; [exact Ever|]. intros v q' Hv Hvid Hvq.
        now apply next_version_is_fresh with v.
      * exact Eby.
  - reflexivity.
  - unfold lockContract. rewrite Hu. unfold with_versions, with_contracts.
    cbn [Contract.contracts]. unfold update.
    replace (filter (lockable req)
               (map (fun r => if lockable req r then lock now u r else r)
                  (Contract.contracts db))) with (@nil Row); [reflexivity|].
    symmetry. apply nothing_left_to_lock.
Qed.

End ContractLocking.

(** Alice locks her tenant's contract under review: the snapshot is
    version 3. *)
Lemma locking_files_version_3 :
  let db' := fst (ContractWrites.lockContract version_id0 0 (as_alice lock_request) contracts1) in
  map (col "status") (Contract.contracts db') = [JStr "locked"]
  /\ map (col "version_number") (Contract.contract_versions db') = [JNum 1; JNum 2; JNum (2 + 1)]
  /\ ContractWrites.lockContract version_id0 0 (as_alice lock_request) db'
     = (db', Sent (mkResponse 404
                     (JObj [("error", JStr "Contract not found or cannot be locked")]))).
Proof.
  split; [reflexivity|]. split; [reflexivity|].
  refine (proj2 (proj2 (proj2 (proj2
            (lockContract_files_a_snapshot_under_a_fresh_number version_id0 0
               (as_alice lock_request) contracts1 alice _ [] eq_refl eq_refl))))).
Defined.

Lemma authorize_refusal : forall roles req r,
  authorize roles req = Responded r -> res_status r <> 200.
Proof.
  intros roles req r. unfold authorize. destruct (req_user req) as [u|].
  - destruct (negb (existsb (fun r0 => (r0 =? ru_role u)%string) roles)); [|discriminate].
    intros H. inversion H. discriminate.
  - intros H. inversion H. discriminate.
Qed.

Section ContractSessions.
Import ContractWrites.
Variable validationErrors : Request -> list json.
Variable order_contracts : Table -> Table.
Variable contractNumber : option json -> nat -> string.
Variable interpolated : json -> string.
Variable stored_text : json -> string.
Variable contract_insert : Contract.Tables -> Row -> option JsError.
Variable new_contract_id : string.
Variable new_clause_id : string.
Variable new_version_id : nat -> string.
Variable now : Z.
Variable order_clauses : Table -> Table.
Variable order_versions : Table -> Table.

Local Abbreviation perform' :=
  (perform validationErrors order_contracts contractNumber interpolated stored_text
     contract_insert new_contract_id new_clause_id new_version_id now order_clauses
     order_versions).





End ContractSessions.


(** ** routes/risk.js: alerts *)

Section RiskSessions.
Import Risk RiskAlerts.
Variable provider_api : nat -> ProviderResult.
Variable validationErrors : Request -> list json.
Variable new_assessment_id : string.
Variable new_master_id : string.
Variable now : Z.
Variable order_assessments : Table -> Table.
Variable order_alerts : Table -> Table.
Variable unknown_vendor : string -> JsError.
Variable assessment_insert : World -> Row -> option JsError.

Local Abbreviation perform' :=
  (perform provider_api validationErrors new_assessment_id new_master_id now
     order_assessments order_alerts unknown_vendor assessment_insert).

Lemma createAssessment_keeps_alerts : forall req w,
  risk_alerts (fst (createAssessment provider_api validationErrors new_assessment_id
                      new_master_id now unknown_vendor assessment_insert req w))
  = risk_alerts w.
Proof.
  intros req w. unfold createAssessment. destruct (validationErrors req); [|reflexivity].
  destruct (fst (fetchRiskData provider_api)) as [d|e|]; try reflexivity.
  cbv zeta.
  destruct (insertAssessment unknown_vendor assessment_insert w
              (new_assessment new_assessment_id now req d)); [reflexivity|].
  unfold checkRiskThresholds.
  destruct (calculateRiskLevel (risk_score d)); cbn [fst];
    now rewrite (proj2 (updateVendorMaster_keeps_assessments _ _ _ _ _ _)).
Qed.

Lemma perform_keeps_alert_count : forall op req w,
  List.length (risk_alerts (fst (perform' op req w))) = List.length (risk_alerts w)
  /\ (risk_alerts w = [] ->
      op = AcknowledgeAlert ->
      forall resp, snd (perform' op req w) = Sent resp -> res_status resp <> 200).
Proof.
  intros op req w. unfold perform, Guard.guarded.
  destruct op; cbn [route_of createAssessmentRoute route_roles route_handler].
  - split; [reflexivity | discriminate].
  - split; [|discriminate].
    destruct (authorize ["buyer_admin"] req) as [r|e|req']; try reflexivity.
    now rewrite createAssessment_keeps_alerts.
  - split; [reflexivity | discriminate].
  - destruct (authorize ["buyer_admin"] req) as [r|e|req'] eqn:G.
    + split; [reflexivity|]. intros _ _ resp H. inversion H. subst.
      now apply authorize_refusal with ["buyer_admin"] req.
    + split; [reflexivity|]. intros _ _ resp H. discriminate H.
    + unfold acknowledgeAlert. destruct (req_user req') as [u|].
      * split.
        -- destruct (map (acknowledge now u) (filter (acknowledgeable req') (risk_alerts w)));
             [reflexivity|].
           cbn [fst with_alerts risk_alerts]. unfold update. apply length_map.
        -- intros -> _ resp H. cbn in H. inversion H. discriminate.
      * split; [reflexivity|]. intros _ _ resp H. discriminate H.
Qed.

(** X20.  No request to the risk router inserts a risk alert: the one INSERT into
    risk_alerts sits in [checkRiskThresholds], which throws before issuing
    it.  Over any sequence of requests the number of alerts stays what it
    was, and starting without alerts no acknowledgement is ever answered
    200. *)
Theorem no_request_raises_a_risk_alert :
  forall (calls : list (Op * Request)) (w : World),
    let res := Guard.session perform' calls w in
    List.length (risk_alerts (fst res)) = List.length (risk_alerts w)
    /\ (risk_alerts w = [] ->
        forall i req h resp,
          nth_error calls i = Some (AcknowledgeAlert, req) ->
          nth_error (snd res) i = Some h ->
          h = Sent resp ->
          res_status resp <> 200).
Proof.
  induction calls as [|[op req] calls IH]; intros w.
  - cbn. split; [reflexivity|]. intros _ [|i]; discriminate.
  - cbn [Guard.session].
    destruct (perform_keeps_alert_count op req w) as [Hlen1 Hack1].
    destruct (perform' op req w) as [w1 h1]. cbn [fst snd] in *.
    specialize (IH w1). cbv zeta in IH.
    destruct (Guard.session perform' calls w1) as [w2 hs]. cbn [fst snd] in *.
    destruct IH as [Hlen2 Hack2]. split; [congruence|].
    intros Hnone [|i] req0 h resp Hcall Hh ->; cbn [nth_error] in *.
    + inversion Hcall; subst. inversion Hh; subst. now apply Hack1.
    + apply (Hack2 ltac:(apply length_zero_iff_nil; rewrite Hlen1, Hnone; reflexivity)
               i req0 (Sent resp) resp); auto.
Qed.

End RiskSessions.

(** A critical assessment fails after its row is stored, and leaves no alert
    to acknowledge. *)
Lemma critical_assessment_leaves_no_alert :
  Risk.risk_alerts risk0 = []
  /\ statuses (snd (Guard.session risk_perform assess_then_acknowledge risk0)) = [500; 404]
  /\ List.length (Risk.risk_alerts (fst (Guard.session risk_perform assess_then_acknowledge
                                            risk0))) = 0%nat.
Proof.
  split; [reflexivity|]. split; [reflexivity|].
  exact (proj1 (no_request_raises_a_risk_alert provider_80 no_errors assessment_1 master_1 0
                  keep_order keep_order foreign_key_violation assessment_accepted
                  assess_then_acknowledge risk0)).
Defined.

(** ** routes/procurement.js: vendor onboarding *)

Section OnboardingProps.
Import Onboarding.
Variable validationErrors : Request -> list json.
Variable onboarding_insert : Tables -> Row -> option JsError.
Variable new_id : string.
Variable now : Z.

Local Abbreviation initiate :=
  (initiateOnboarding validationErrors onboarding_insert new_id now).

Lemma in_progress_new : forall req u vid tid,
  in_progress (Some vid) (Some tid) (new_onboarding new_id now req u) = true ->
  as_string (body_field "vendor_id" req) = Some vid /\ req_tenantId req = Some tid.
Proof.
  intros req u vid tid H. unfold in_progress in H.
  apply andb_true_iff in H. destruct H as [H _]. apply andb_true_iff in H.
  destruct H as [Hv Ht]. unfold col_is_param, col_is, new_onboarding in Hv, Ht.
  cbn [assoc] in Hv, Ht.
  change (("id" =? "vendor_id")%string) with false in Hv.
  change (("tenant_id" =? "vendor_id")%string) with false in Hv.
  change (("vendor_id" =? "vendor_id")%string) with true in Hv.
  change (("id" =? "tenant_id")%string) with false in Ht.
  change (("tenant_id" =? "tenant_id")%string) with true in Ht.
  cbn iota in Hv, Ht. split.
  - destruct (body_field "vendor_id" req) as [[| | |s| |]|]; try discriminate.
    cbn in Hv. apply String.eqb_eq in Hv. now subst.
  - destruct (req_tenantId req) as [t|]; [|discriminate].
    cbn in Ht. apply String.eqb_eq in Ht. now subst.
Qed.

(** X21.  The route never opens a second onboarding for a vendor of a tenant: for
    every vendor and tenant, the number of onboardings not yet completed is
    afterwards at most what it was, or one.  After a request answered 201,
    the same request answers 409 and writes nothing. *)
Theorem onboarding_is_not_opened_twice :
  forall (req : Request) (db : Tables),
    let db' := fst (initiate req db) in
    (forall vid tid,
        (List.length (filter (in_progress (Some vid) (Some tid)) (vendor_onboarding db'))
         <= Nat.max 1 (List.length (filter (in_progress (Some vid) (Some tid))
                                      (vendor_onboarding db))))%nat)
    /\ (forall vid tid resp,
          as_string (body_field "vendor_id" req) = Some vid ->
          req_tenantId req = Some tid ->
          snd (initiate req db) = Sent resp ->
          res_status resp = 201 ->
          initiate req db'
          = (db', Sent (mkResponse 409 (JObj [("error", JStr "Onboarding already in progress")])))).
Proof.
  intros req db db'. subst db'. unfold initiateOnboarding.
  destruct (validationErrors req) as [|e es] eqn:Hval.
  2: { split; [intros; cbn [fst]; lia|]. intros vid tid resp _ _ H H201. inversion H. subst.
       discriminate. }
  destruct (filter (in_progress (as_string (body_field "vendor_id" req)) (req_tenantId req))
              (vendor_onboarding db)) as [|o os] eqn:Hopen.
  2: { split; [intros; cbn [fst]; lia|]. intros vid tid resp _ _ H H201. inversion H. subst.
       discriminate. }
  destruct (req_user req) as [u|] eqn:Hu.
  2: { split; [intros; cbn [fst]; lia|]. intros vid tid resp _ _ H. discriminate H. }
  cbv zeta. destruct (onboarding_insert db (new_onboarding new_id now req u)).
  { split; [intros; cbn [fst]; lia|]. intros vid tid resp _ _ H. discriminate H. }
  cbn [fst snd vendor_onboarding]. split.
  - intros vid tid. rewrite filter_app, length_app. cbn [filter].
    destruct (in_progress (Some vid) (Some tid) (new_onboarding new_id now req u)) eqn:E.
    + destruct (in_progress_new _ _ _ _ E) as [Hv Ht]. rewrite Hv, Ht in Hopen.
      rewrite Hopen. cbn [List.length]. lia.
    + cbn [List.length]. lia.
  - intros vid tid resp Hv Ht _ _. rewrite Hv, Ht in *. rewrite filter_app, Hopen.
    cbn [app filter].
    replace (in_progress (Some vid) (Some tid) (new_onboarding new_id now req u)) with true;
      [reflexivity|].
    symmetry. unfold in_progress, col_is_param, col_is, col, new_onboarding. cbn [assoc].
    change (("id" =? "vendor_id")%string) with false.
    change (("tenant_id" =? "vendor_id")%string) with false.
    change (("vendor_id" =? "vendor_id")%string) with true.
    change (("id" =? "tenant_id")%string) with false.
    change (("tenant_id" =? "tenant_id")%string) with true.
    change (("id" =? "status")%string) with false.
    change (("tenant_id" =? "status")%string) with false.
    change (("vendor_id" =? "status")%string) with false.
    change (("status" =? "status")%string) with true.
    cbn iota. rewrite Ht. cbn [of_option_string].
    unfold as_string in Hv. destruct (body_field "vendor_id" req) as [[| | |s| |]|];
      try discriminate.
    inversion Hv. subst. cbn [param]. now rewrite !String.eqb_refl.
Qed.

End OnboardingProps.

(** Alice opens the onboarding of her vendor twice. *)
Lemma second_onboarding_request_is_a_conflict :
  let db' := fst (Onboarding.initiateOnboarding no_errors onboarding_accepted onboarding_1 0
                    (as_alice onboarding_request) onboarding0) in
  List.length (Onboarding.vendor_onboarding db') = 1%nat
  /\ Onboarding.initiateOnboarding no_errors onboarding_accepted onboarding_1 0
       (as_alice onboarding_request) db'
     = (db', Sent (mkResponse 409 (JObj [("error", JStr "Onboarding already in progress")]))).
Proof.
  split; [reflexivity|].
  exact (proj2 (onboarding_is_not_opened_twice no_errors onboarding_accepted onboarding_1 0
                  (as_alice onboarding_request) onboarding0)
           vendor_1 tenant_a_id _ eq_refl eq_refl eq_refl eq_refl).
Defined.

(** ** routes/rfp.js: publication, sections and invitations *)

Section RfpPublication.
Import RfpAuthoring.
Variable validationErrors : Request -> list json.
Variable interpolated : json -> string.
Variable sectionNumber : nat -> json.
Variable section_insert : Tables -> Row -> option JsError.
Variable new_section_id : string.
Variable now : Z.

Lemma owned_publish : forall req u r, owned req u (publish now r) = owned req u r.
Proof.
  intros req u r. unfold owned, publish, col_is_param.
  destruct (req_params_id req), (req_tenantId req);
    now rewrite ?col_is_assign_other by discriminate.
Qed.

Lemma published_is_no_draft : forall r, col_is "status" "draft" (publish now r) = false.
Proof.
  intros r. unfold publish. rewrite col_is_assign_other by discriminate.
  unfold col_is, assign. now rewrite assoc_set_same.
Qed.

(** X22.  Publishing closes an RFP for its owner: once a draft owned by the caller
    in the caller's tenant has been published, the rows with its id have
    status 'published', the other RFPs are as they were, a second publish
    answers 400, and so does every later request of the owner to add a
    section to it, without writing one. *)
Theorem published_rfp_takes_no_more_sections :
  forall (req : Request) (db : Tables) (u : ReqUser) (rfp : Row) (rest : Table),
    req_user req = Some u ->
    filter (owned req u) (rfps db) = rfp :: rest ->
    col_is "status" "draft" rfp = true ->
    let db1 := fst (publishRfp now req db) in
    snd (publishRfp now req db)
    = Sent (json_ok (JObj [("message", JStr "RFP published successfully")]))
    /\ (forall r, In r (rfps db1) -> col_is_param "id" (req_params_id req) r = true ->
                  col "status" r = JStr "published")
    /\ filter (fun r => negb (col_is_param "id" (req_params_id req) r)) (rfps db1)
       = filter (fun r => negb (col_is_param "id" (req_params_id req) r)) (rfps db)
    /\ publishRfp now req db1
       = (db1, Sent (mkResponse 400 (JObj [("error", JStr "RFP is already published or locked")])))
    /\ forall req',
         validationErrors req' = [] ->
         req_user req' = Some u ->
         req_params_id req' = req_params_id req ->
         req_tenantId req' = req_tenantId req ->
         addSection validationErrors interpolated sectionNumber section_insert new_section_id
           now req' db1
         = (db1, Sent (mkResponse 400
                         (JObj [("error", JStr "RFP is locked and cannot be modified")]))).
Proof.
  intros req db u rfp rest Hu Hsel Hdraft db1.
  assert (Hrun : publishRfp now req db
                 = (with_rfps (update (col_is_param "id" (req_params_id req)) (publish now)
                                 (rfps db)) db,
                    Sent (json_ok (JObj [("message", JStr "RFP published successfully")])))).
  { unfold publishRfp. rewrite Hu, Hsel, Hdraft. reflexivity. }
  assert (Hrfp_id : col_is_param "id" (req_params_id req) rfp = true).
  { assert (Hin : In rfp (filter (owned req u) (rfps db))) by (rewrite Hsel; now left).
    apply filter_In in Hin. destruct Hin as [_ Ho]. unfold owned in Ho.
    apply andb_true_iff in Ho. destruct Ho as [Ho _]. apply andb_true_iff in Ho. tauto. }
  assert (Hsel1 : forall req', req_params_id req' = req_params_id req ->
                               req_tenantId req' = req_tenantId req ->
                               filter (owned req' u) (rfps db1)
                               = publish now rfp
                                 :: map (fun r => if col_is_param "id" (req_params_id req) r
                                                  then publish now r else r) rest).
  { intros req' Hid Ht. subst db1. rewrite Hrun. cbn [fst with_rfps rfps].
    rewrite filter_update by (intros r; unfold owned; rewrite Hid, Ht; apply owned_publish).
    replace (filter (owned req' u) (rfps db)) with (rfp :: rest)
      by (rewrite <- Hsel; apply filter_ext; intros r; unfold owned; now rewrite Hid, Ht).
    cbn [map]. now rewrite Hrfp_id. }
  subst db1. rewrite Hrun in *. cbn [fst snd] in *. split; [reflexivity|].
  split; [|split; [|split]].
  - intros r Hr Hid. cbn [with_rfps rfps] in Hr. unfold update in Hr.
    apply in_map_iff in Hr. destruct Hr as [r0 [<- _]].
    destruct (col_is_param "id" (req_params_id req) r0) eqn:E.
    + unfold publish. rewrite col_assign_other by discriminate. apply col_assign_same.
    + congruence.
  - cbn [with_rfps rfps]. apply update_keeps_others. intros r Hr.
    unfold publish, col_is_param in *. destruct (req_params_id req); [|discriminate].
    now rewrite !col_is_assign_other by discriminate.
  - unfold publishRfp at 1. rewrite Hu, (Hsel1 req eq_refl eq_refl).
    now rewrite published_is_no_draft.
  - intros req' Hval Hu' Hid Ht. unfold addSection.
    rewrite Hval, Hu', (Hsel1 req' Hid Ht). now rewrite published_is_no_draft.
Qed.

End RfpPublication.

(** Alice publishes her draft and then tries to add a section. *)
Lemma no_section_after_publication :
  let db1 := fst (RfpAuthoring.publishRfp 0 (as_alice publish_request) authoring0) in
  map (col "status") (RfpAuthoring.rfps db1) = [JStr "published"]
  /\ RfpAuthoring.addSection no_errors shown_as_object section_number0 section_accepted
       section_1 0 (as_alice section_request) db1
     = (db1, Sent (mkResponse 400
                     (JObj [("error", JStr "RFP is locked and cannot be modified")]))).
Proof.
  split; [reflexivity|].
  refine (proj2 (proj2 (proj2 (proj2
            (published_rfp_takes_no_more_sections no_errors shown_as_object section_number0
               section_accepted section_1 0 (as_alice publish_request) authoring0 alice _ []
               eq_refl eq_refl eq_refl))))
            (as_alice section_request) eq_refl eq_refl eq_refl eq_refl).
Defined.

Section RfpInvitations.
Import RfpAuthoring.
Variable validationErrors : Request -> list json.
Variable invitation_insert : Table -> Row -> option JsError.
Variable new_invitation_id : nat -> string.
Variable now : Z.

Local Abbreviation loop := (invite_loop invitation_insert new_invitation_id now).

Lemma invite_loop_adds : forall req vendors deadline rfp_id ids invitations inserted,
  req_params_id req = Some rfp_id ->
  exists added,
    fst (fst (loop req vendors deadline ids invitations inserted)) = invitations ++ added
    /\ snd (fst (loop req vendors deadline ids invitations inserted)) = inserted ++ added
    /\ (forall r, In r added -> invited req vendors ids r)
    /\ (NoDup (map invitation_key invitations) ->
        NoDup (map invitation_key (invitations ++ added))).
Proof.
  intros req vendors deadline rfp_id ids. induction ids as [|vendorId rest IH];
    intros invitations inserted Hid.
  - exists []. cbn. rewrite !app_nil_r. split; [reflexivity|]. split; [reflexivity|].
    split; [intros r []|tauto].
  - assert (Hweaken : forall added,
              (forall r, In r added -> invited req vendors rest r) ->
              forall r, In r added -> invited req vendors (vendorId :: rest) r).
    { intros added H r Hr. destruct (H r Hr) as [H1 [H2 [H3 H4]]].
      split; [exact H1|]. split; [exact H2|]. split; [now right | exact H4]. }
    cbn [invite_loop].
    destruct (filter (fun v => col_is_param "id" (as_string (Some vendorId)) v
                               && col_is_param "tenant_id" (req_tenantId req) v) vendors)
      as [|v vs] eqn:Hvendor.
    { destruct (IH invitations inserted Hid) as [added [H1 [H2 [H3 H4]]]].
      exists added. split; [exact H1|]. split; [exact H2|].
      split; [now apply Hweaken | exact H4]. }
    destruct (filter (fun i => col_is_param "rfp_id" (req_params_id req) i
                               && col_is_param "vendor_id" (as_string (Some vendorId)) i)
                invitations) as [|i is_] eqn:Hexisting.
    2: { destruct (IH invitations inserted Hid) as [added [H1 [H2 [H3 H4]]]].
         exists added. split; [exact H1|]. split; [exact H2|].
      split; [now apply Hweaken | exact H4]. }
    destruct (req_user req) as [u|].
    2: { exists []. cbn. rewrite !app_nil_r. split; [reflexivity|]. split; [reflexivity|].
         split; [intros r []|tauto]. }
    cbv zeta.
    set (row := new_invitation new_invitation_id now req u (List.length inserted) vendorId
                  deadline).
    destruct (invitation_insert invitations row).
    { exists []. cbn. rewrite !app_nil_r. split; [reflexivity|]. split; [reflexivity|].
      split; [intros r []|tauto]. }
    destruct (IH (invitations ++ [row]) (inserted ++ [row]) Hid) as [added [H1 [H2 [H3 H4]]]].
    assert (Hv : In v (filter (fun v => col_is_param "id" (as_string (Some vendorId)) v
                                        && col_is_param "tenant_id" (req_tenantId req) v)
                         vendors)) by (rewrite Hvendor; now left).
    apply filter_In in Hv. destruct Hv as [Hv_in Hv]. apply andb_true_iff in Hv.
    destruct Hv as [Hv_id Hv_tenant].
    destruct (col_is_param_string _ _ _ Hv_id) as [vid [Hvid Hassoc]].
    assert (HvendorId : vendorId = JStr vid).
    { destruct vendorId; try discriminate. cbn in Hvid. now inversion Hvid. }
    exists (row :: added). rewrite H1, H2, <- !app_assoc. cbn [app].
    split; [reflexivity|]. split; [reflexivity|]. split.
    + intros r [<-|Hr]; [|now apply Hweaken with added].
      split; [reflexivity|]. split; [reflexivity|]. split; [now left|].
      exists v. split; [exact Hv_in|]. split; [exact Hv_tenant|].
      unfold col at 1. rewrite Hassoc. subst vendorId. reflexivity.
    + intros Hnodup. replace (invitations ++ row :: added) with ((invitations ++ [row]) ++ added)
        by now rewrite <- app_assoc.
      apply H4. rewrite map_app. cbn [map]. apply NoDup_app.
      * exact Hnodup.
      * constructor; [intros [] | constructor].
      * intros k Hk [<-|[]]. apply in_map_iff in Hk. destruct Hk as [r [Hkey Hr]].
        assert (Hmatch : In r (filter (fun i => col_is_param "rfp_id" (req_params_id req) i
                                                && col_is_param "vendor_id"
                                                     (as_string (Some vendorId)) i)
                                 invitations)).
        { apply filter_In. split; [exact Hr|]. unfold invitation_key in Hkey.
          inversion Hkey as [[Hk1 Hk2]]. rewrite Hid, HvendorId.
          cbn [as_string col_is_param]. unfold col_is.
          unfold row, new_invitation, col in Hk1, Hk2. cbn [assoc] in Hk1, Hk2.
          change (("id" =? "rfp_id")%string) with false in Hk1.
          change (("rfp_id" =? "rfp_id")%string) with true in Hk1.
          change (("id" =? "vendor_id")%string) with false in Hk2.
          change (("rfp_id" =? "vendor_id")%string) with false in Hk2.
          change (("vendor_id" =? "vendor_id")%string) with true in Hk2.
          cbn iota in Hk1, Hk2. rewrite Hid in Hk1. cbn [of_option_string] in Hk1.
          rewrite HvendorId in Hk2.
          destruct (assoc "rfp_id" r) as [[| | |x| |]|]; try discriminate.
          destruct (assoc "vendor_id" r) as [[| | |y| |]|]; try discriminate.
          inversion Hk1. inversion Hk2. now rewrite !String.eqb_refl. }
        rewrite Hexisting in Hmatch. contradiction.
Qed.

(** X23.  The invite route only adds invitations: each one it adds is for the RFP
    of the path, pending, for a vendor id listed in the body that belongs to
    a vendor of the caller's tenant; nothing is added unless that RFP is the
    caller's tenant's; and no RFP comes to hold two invitations for one
    vendor, also when the body lists a vendor twice. *)
Theorem invitations_go_to_vendors_of_the_tenant_once :
  forall (req : Request) (db : Tables),
    let db' := fst (inviteVendors validationErrors invitation_insert new_invitation_id now
                      req db) in
    rfps db' = rfps db /\ rfp_sections db' = rfp_sections db /\ vendors db' = vendors db
    /\ exists added,
         rfp_invitations db' = rfp_invitations db ++ added
         /\ (forall r, In r added ->
               col "rfp_id" r = of_option_string (req_params_id req)
               /\ col "status" r = JStr "pending"
               /\ exists v, In v (vendors db)
                            /\ col_is_param "tenant_id" (req_tenantId req) v = true
                            /\ col "id" v = col "vendor_id" r)
         /\ (added <> [] -> exists rfp, In rfp (rfps db) /\ of_tenant req rfp = true)
         /\ (NoDup (map invitation_key (rfp_invitations db)) ->
             NoDup (map invitation_key (rfp_invitations db'))).
Proof.
  intros req db db'. subst db'. unfold inviteVendors.
  assert (Hnone : rfps db = rfps db /\ rfp_sections db = rfp_sections db
                  /\ vendors db = vendors db
                  /\ exists added,
                       rfp_invitations db = rfp_invitations db ++ added
                       /\ (forall r, In r added ->
                             col "rfp_id" r = of_option_string (req_params_id req)
                             /\ col "status" r = JStr "pending"
                             /\ exists v, In v (vendors db)
                                          /\ col_is_param "tenant_id" (req_tenantId req) v = true
                                          /\ col "id" v = col "vendor_id" r)
                       /\ (added <> [] -> exists rfp, In rfp (rfps db) /\ of_tenant req rfp = true)
                       /\ (NoDup (map invitation_key (rfp_invitations db)) ->
                           NoDup (map invitation_key (rfp_invitations db)))).
  { split; [reflexivity|]. split; [reflexivity|]. split; [reflexivity|].
    exists []. rewrite app_nil_r. split; [reflexivity|]. split; [intros r []|].
    split; [intros H; now contradiction H | tauto]. }
  destruct (validationErrors req); [|exact Hnone].
  destruct (filter (of_tenant req) (rfps db)) as [|rfp rfps'] eqn:Hrfp; [exact Hnone|].
  destruct (iterate (body_field "vendor_ids" req)) as [ids|]; [|exact Hnone].
  assert (Hin : In rfp (filter (of_tenant req) (rfps db))) by (rewrite Hrfp; now left).
  apply filter_In in Hin. destruct Hin as [Hrfp_in Hrfp_ok].
  assert (Hid : exists rfp_id, req_params_id req = Some rfp_id).
  { unfold of_tenant in Hrfp_ok. apply andb_true_iff in Hrfp_ok. destruct Hrfp_ok as [H _].
    destruct (req_params_id req) as [x|]; [now exists x | discriminate]. }
  destruct Hid as [rfp_id Hid].
  match goal with
  | |- context [invite_loop _ _ _ ?r ?v ?d ?i ?t ?n] =>
      destruct (invite_loop_adds r v d rfp_id i t n Hid) as [added [H1 [H2 [H3 H4]]]];
      destruct (invite_loop invitation_insert new_invitation_id now r v d i t n)
        as [[invitations inserted] [e|]]
  end; cbn [fst snd] in *; subst invitations;
    (split; [reflexivity|]; split; [reflexivity|]; split; [reflexivity|];
     exists added; split; [reflexivity|]; split;
     [intros r Hr; destruct (H3 r Hr) as [A [B [_ C]]]; now repeat split
     |split; [intros _; now exists rfp | exact H4]]).
Qed.

End RfpInvitations.

(** Alice's list names her vendor twice and a vendor of tenant B: one
    invitation is created. *)
Lemma one_invitation_for_a_vendor_listed_twice :
  NoDup (map invitation_key (RfpAuthoring.rfp_invitations authoring0))
  /\ map (col "vendor_id")
       (RfpAuthoring.rfp_invitations
          (fst (RfpAuthoring.inviteVendors no_errors invitation_accepted invitation_id0 0
                  (as_alice invite_request) authoring0))) = [JStr vendor_1]
  /\ NoDup (map invitation_key
              (RfpAuthoring.rfp_invitations
                 (fst (RfpAuthoring.inviteVendors no_errors invitation_accepted invitation_id0 0
                         (as_alice invite_request) authoring0)))).
Proof.
  assert (H : NoDup (map invitation_key (RfpAuthoring.rfp_invitations authoring0)))
    by constructor.
  split; [exact H|]. split; [reflexivity|].
  destruct (invitations_go_to_vendors_of_the_tenant_once no_errors invitation_accepted
              invitation_id0 0
              (as_alice invite_request) authoring0) as [_ [_ [_ [added [_ [_ [_ Hnodup]]]]]]].
  exact (Hnodup H).
Defined.

(** ** routes/auth.js: login *)

Section LoginProps.
Import Login.
Variable validationErrors : Request -> list json.
Variable bcrypt_compare : option json -> json -> Compared.
Variable jwt_sign : json -> Signed.
Variable now : Z.

Local Abbreviation login' := (login validationErrors bcrypt_compare jwt_sign now).

Lemma touch_keeps_columns : forall user db i r,
  nth_error (users db) i = Some r ->
  exists r', nth_error (users (touch now user db)) i = Some r'
             /\ forall k, k <> "last_login"%string -> col k r' = col k r.
Proof.
  intros user db i r H. unfold touch, update. cbn [users]. rewrite nth_error_map, H. cbn.
  eexists. split; [reflexivity|]. intros k Hk.
  destruct (cols_equal "id" r "id" user); [|reflexivity].
  now rewrite col_assign_other.
Qed.

(** X24.  Login reads the password only of an active user of an active tenant,
    and writes nothing but a last_login: the tenants and every column of
    every user other than last_login are as before, and the users table
    changes or the answer is 200 only when the first account with the
    email is active in an active tenant and its hash matched the password
    sent. *)
Theorem login_writes_only_a_last_login_after_a_match :
  forall (req : Request) (db : Tables),
    let res := login' req db in
    let matched :=
      exists user rest,
        select_user (as_string (body_field "email" req)) db = user :: rest
        /\ col_is "tenant_status" "active" user = true
        /\ col_is "status" "active" user = true
        /\ bcrypt_compare (body_field "password" req) (col "password_hash" user) = Matches in
    tenants (fst res) = tenants db
    /\ (forall i r, nth_error (users db) i = Some r ->
          exists r', nth_error (users (fst res)) i = Some r'
                     /\ forall k, k <> "last_login"%string -> col k r' = col k r)
    /\ List.length (users (fst res)) = List.length (users db)
    /\ (fst res <> db -> matched)
    /\ (forall resp, snd res = Sent resp -> res_status resp = 200 -> matched).
Proof.
  intros req db res matched. subst res.
  assert (Hsame : forall h : Handled,
            tenants (fst (db, h)) = tenants db
            /\ (forall i r, nth_error (users db) i = Some r ->
                  exists r', nth_error (users (fst (db, h))) i = Some r'
                             /\ forall k, k <> "last_login"%string -> col k r' = col k r)
            /\ List.length (users (fst (db, h))) = List.length (users db)
            /\ (fst (db, h) <> db -> matched)).
  { intros h. cbn [fst]. split; [reflexivity|]. split; [|split; [reflexivity|]].
    - intros i r H. exists r. now split.
    - intros H. now contradiction H. }
  unfold login. destruct (validationErrors req).
  2: { destruct (Hsame (Sent (mkResponse 400 (JObj [("errors", JArr (j :: l))]))))
         as [A [B [C D]]].
       repeat split; auto. intros resp H E. inversion H. subst. discriminate. }
  destruct (select_user (as_string (body_field "email" req)) db) as [|user rest] eqn:Hsel.
  { destruct (Hsame (refusal 401 "Invalid credentials" "INVALID_CREDENTIALS"))
      as [A [B [C D]]].
    repeat split; auto. intros resp H E. inversion H. subst. discriminate. }
  destruct (col_is "tenant_status" "active" user) eqn:Htenant; cbn [negb].
  2: { destruct (Hsame (refusal 403 "Tenant is not active" "TENANT_INACTIVE"))
         as [A [B [C D]]].
       repeat split; auto. intros resp H E. inversion H. subst. discriminate. }
  destruct (col_is "status" "active" user) eqn:Hstatus; cbn [negb].
  2: { destruct (Hsame (refusal 403 "User account is not active" "USER_INACTIVE"))
         as [A [B [C D]]].
       repeat split; auto. intros resp H E. inversion H. subst. discriminate. }
  destruct (truthy (col "password_hash" user)); cbn [negb].
  2: { destruct (Hsame (refusal 401 "Password not set. Please use SSO login." "SSO_REQUIRED"))
         as [A [B [C D]]].
       repeat split; auto. intros resp H E. inversion H. subst. discriminate. }
  destruct (bcrypt_compare (body_field "password" req) (col "password_hash" user)) eqn:Hcmp.
  - assert (Hm : matched) by (exists user, rest; now repeat split).
    destruct (jwt_sign (payload user)); cbn [fst snd];
      (split; [reflexivity|]; split; [intros i r H; now apply touch_keeps_columns|];
       split; [unfold touch, update; cbn [users]; apply length_map|]; split; intros; exact Hm).
  - destruct (Hsame (refusal 401 "Invalid credentials" "INVALID_CREDENTIALS"))
      as [A [B [C D]]].
    repeat split; auto. intros resp H E. inversion H. subst. discriminate.
  - destruct (Hsame (Threw e)) as [A [B [C D]]].
    repeat split; auto. intros resp H E. discriminate H.
Qed.

(** X25.  The state of an account is answered before the password is looked at:
    when a login is refused because the tenant or the user is not active, or
    because no password is set, every login with the same email gets the same
    answer, whatever password it sends. *)
Theorem login_answers_on_account_state_whatever_the_password :
  forall (req req' : Request) (db : Tables) (resp : Response) (code : string),
    validationErrors req = [] ->
    validationErrors req' = [] ->
    as_string (body_field "email" req') = as_string (body_field "email" req) ->
    snd (login' req db) = Sent resp ->
    get "code" (res_body resp) = Some (JStr code) ->
    In code account_state_codes ->
    login' req' db = login' req db.
Proof.
  intros req req' db resp code Hval Hval' Hemail Hresp Hcode Hin.
  unfold login in *. rewrite Hval in *. rewrite Hval', Hemail.
  destruct (select_user (as_string (body_field "email" req)) db) as [|user rest].
  { reflexivity. }
  destruct (negb (col_is "tenant_status" "active" user)); [reflexivity|].
  destruct (negb (col_is "status" "active" user)); [reflexivity|].
  destruct (negb (truthy (col "password_hash" user))); [reflexivity|].
  exfalso.
  destruct (bcrypt_compare (body_field "password" req) (col "password_hash" user)).
  - destruct (jwt_sign (payload user)); cbn [snd] in Hresp; [|discriminate].
    inversion Hresp. subst resp. cbn in Hcode. discriminate.
  - cbn [snd] in Hresp. inversion Hresp. subst resp. cbn in Hcode. inversion Hcode.
    subst code. cbn in Hin. intuition discriminate.
  - discriminate.
Qed.

End LoginProps.

(** Carol's tenant is suspended: a login with her email is told so, with a
    wrong password as with any other. *)
Lemma suspended_tenant_is_disclosed_without_the_password :
  snd (Login.login no_errors never_matches sign0 0 (login_request "carol@cyber.test" "guess")
         accounts0)
  = Login.refusal 403 "Tenant is not active" "TENANT_INACTIVE"
  /\ Login.login no_errors never_matches sign0 0 (login_request "carol@cyber.test" "other")
       accounts0
     = Login.login no_errors never_matches sign0 0 (login_request "carol@cyber.test" "guess")
         accounts0.
Proof.
  split; [reflexivity|].
  apply (login_answers_on_account_state_whatever_the_password no_errors never_matches sign0 0
           (login_request "carol@cyber.test" "guess") (login_request "carol@cyber.test" "other")
           accounts0 (mkResponse 403 (error_body "Tenant is not active" "TENANT_INACTIVE"))
           "TENANT_INACTIVE" eq_refl eq_refl eq_refl eq_refl eq_refl).
  cbn. tauto.
Defined.

(** ** routes/rfp.js: the AI evaluation *)

Section Evaluation.
Import RfpEvaluation.
Variable drawn : nat -> Q.
Variable times : Q -> Q -> Q.
Variable new_score_id : nat -> string.
Variable now : Z.

Local Abbreviation evaluate := (evaluateRfp drawn times new_score_id now).
Local Abbreviation loop := (evaluate_loop drawn times new_score_id now).

Lemma score_rows_response : forall responseId cs n s,
  In s (score_rows drawn times new_score_id now responseId n cs) ->
  col "response_id" s = responseId.
Proof.
  intros responseId cs. induction cs as [|c cs IH]; intros n s H; [contradiction|].
  destruct H as [<-|H]; [reflexivity | now apply IH with (S n)].
Qed.

Lemma evaluate_loop_rows : forall rfpId responses n,
  List.length (concat (loop rfpId responses n)) = (4 * List.length responses)%nat
  /\ forall s, In s (concat (loop rfpId responses n)) ->
               exists r, In r responses /\ col "response_id" s = col "id" r.
Proof.
  intros rfpId responses. induction responses as [|r rest IH]; intros n.
  - split; [reflexivity | intros s []].
  - cbn [evaluate_loop concat]. destruct (IH (n + List.length criteria)%nat) as [Hlen Hrows].
    split.
    + rewrite length_app, Hlen. cbn. lia.
    + intros s Hs. apply in_app_or in Hs. destruct Hs as [Hs|Hs].
      * exists r. split; [now left|]. now apply score_rows_response with criteria n.
      * destruct (Hrows s Hs) as [r' [Hr' E]]. exists r'. split; [now right | exact E].
Qed.

Lemma submitted_rows : forall req db r,
  In r (submitted req db) ->
  exists rr, In rr (rfp_responses db)
             /\ col_is_param "rfp_id" (req_params_id req) rr = true
             /\ col_is "status" "submitted" rr = true
             /\ col "id" r = col "id" rr.
Proof.
  intros req db r H. unfold submitted in H. apply in_flat_map in H.
  destruct H as [rr [Hin H]].
  destruct (col_is_param "rfp_id" (req_params_id req) rr && col_is "status" "submitted" rr)
    eqn:E; [|contradiction].
  apply andb_true_iff in E. destruct E as [E1 E2].
  apply in_map_iff in H. destruct H as [v [<- _]].
  exists rr. split; [exact Hin|]. split; [exact E1|]. split; [exact E2|].
  now rewrite col_assign_other by discriminate.
Qed.

(** X26.  The evaluation route scores the submitted responses of the RFP named in
    the path and looks at nothing else of the request: neither the caller's
    tenant nor the RFP's owner enters.  Each call adds four scores for every
    submitted response, on top of those already stored, with weights that
    add up to 99/100. *)
Theorem evaluation_scores_the_responses_of_any_rfp :
  forall (req : Request) (db : Tables),
    let db' := fst (evaluate req db) in
    rfp_responses db' = rfp_responses db
    /\ vendors db' = vendors db
    /\ (exists added,
          ai_evaluation_scores db' = ai_evaluation_scores db ++ added
          /\ List.length added = (4 * List.length (submitted req db))%nat
          /\ forall s, In s added ->
               exists rr, In rr (rfp_responses db)
                          /\ col_is_param "rfp_id" (req_params_id req) rr = true
                          /\ col_is "status" "submitted" rr = true
                          /\ col "response_id" s = col "id" rr)
    /\ (forall responseId n,
          (fold_right Qplus 0%Q
             (weights (generateAIEvaluation drawn times new_score_id now responseId
                         (req_params_id req) n)) == 99 # 100)%Q)
    /\ (forall req', req_params_id req' = req_params_id req -> evaluate req' db = evaluate req db).
Proof.
  intros req db db'. subst db'. split; [|split; [|split; [|split]]].
  - unfold evaluateRfp. destruct (submitted req db); reflexivity.
  - unfold evaluateRfp. destruct (submitted req db); reflexivity.
  - unfold evaluateRfp. destruct (submitted req db) as [|r rest] eqn:Hsub.
    + exists []. rewrite app_nil_r. split; [reflexivity|]. split; [reflexivity | intros s []].
    + cbn [fst ai_evaluation_scores].
      destruct (evaluate_loop_rows (req_params_id req) (r :: rest) 0) as [Hlen Hrows].
      eexists. split; [reflexivity|]. split; [exact Hlen|].
      intros s Hs. destruct (Hrows s Hs) as [r' [Hr' E]].
      assert (Hin : In r' (submitted req db)) by (rewrite Hsub; exact Hr').
      destruct (submitted_rows _ _ _ Hin) as [rr [H1 [H2 [H3 H4]]]].
      exists rr. split; [exact H1|]. split; [exact H2|]. split; [exact H3|]. congruence.
  - intros responseId n. reflexivity.
  - intros req' H. unfold evaluateRfp, submitted. now rewrite H.
Qed.

End Evaluation.

(** Alice, of tenant A, has the response to tenant B's RFP scored. *)
Lemma alice_scores_the_response_to_tenant_bs_rfp :
  exists added,
    RfpEvaluation.ai_evaluation_scores
      (fst (RfpEvaluation.evaluateRfp drawn_50 Qmult score_id0 0 (as_alice evaluate_request)
              evaluation0))
    = RfpEvaluation.ai_evaluation_scores evaluation0 ++ added
    /\ List.length added
       = (4 * List.length (RfpEvaluation.submitted (as_alice evaluate_request) evaluation0))%nat
    /\ forall s, In s added ->
         exists rr, In rr (RfpEvaluation.rfp_responses evaluation0)
                    /\ col_is_param "rfp_id" (req_params_id (as_alice evaluate_request)) rr = true
                    /\ col_is "status" "submitted" rr = true
                    /\ col "response_id" s = col "id" rr.
Proof.
  exact (proj1 (proj2 (proj2 (evaluation_scores_the_responses_of_any_rfp drawn_50 Qmult
                                score_id0 0 (as_alice evaluate_request) evaluation0)))).
Defined.
